(** * SprintSync front end: task status cycle, Kanban board, add-time
      handler, REST client and task mutation hooks.

    Shallow embedding of the TypeScript sources.  Every component of the
    front end that the properties below talk about is a module named after
    the source component; the theorems follow the definitions. *)

From Stdlib Require Import ZArith Lia Bool List Ascii String Sorted.
From Stdlib Require Import Decimal Hexadecimal DecimalString DecimalZ DecimalN DecimalPos.
From stdpp Require Import base option list gmap strings.

Set Warnings "-register-all".

Local Open Scope Z_scope.
Local Open Scope string_scope.

(** ** JavaScript primitives used by the sources *)

Module JS.

(** ASCII members of the ECMAScript [StrWhiteSpaceChar] class (TAB, LF,
    VT, FF, CR, SP), which [parseInt] skips at the start of its input. *)
Definition is_white_space (c : ascii) : bool :=
  let n := nat_of_ascii c in
  (Nat.eqb n 9 || Nat.eqb n 10 || Nat.eqb n 11 || Nat.eqb n 12
   || Nat.eqb n 13 || Nat.eqb n 32)%bool.

Fixpoint trim_start (s : string) : string :=
  match s with
  | String c rest => if is_white_space c then trim_start rest else s
  | EmptyString => EmptyString
  end.

(** Longest prefix of radix-10 digits. *)
Fixpoint read_uint (s : string) : Decimal.uint :=
  match s with
  | String "0" r => Decimal.D0 (read_uint r)
  | String "1" r => Decimal.D1 (read_uint r)
  | String "2" r => Decimal.D2 (read_uint r)
  | String "3" r => Decimal.D3 (read_uint r)
  | String "4" r => Decimal.D4 (read_uint r)
  | String "5" r => Decimal.D5 (read_uint r)
  | String "6" r => Decimal.D6 (read_uint r)
  | String "7" r => Decimal.D7 (read_uint r)
  | String "8" r => Decimal.D8 (read_uint r)
  | String "9" r => Decimal.D9 (read_uint r)
  | _ => Decimal.Nil
  end.

(** Longest prefix of radix-16 digits, either case. *)
Fixpoint read_hex_uint (s : string) : Hexadecimal.uint :=
  match s with
  | String "0" r => Hexadecimal.D0 (read_hex_uint r)
  | String "1" r => Hexadecimal.D1 (read_hex_uint r)
  | String "2" r => Hexadecimal.D2 (read_hex_uint r)
  | String "3" r => Hexadecimal.D3 (read_hex_uint r)
  | String "4" r => Hexadecimal.D4 (read_hex_uint r)
  | String "5" r => Hexadecimal.D5 (read_hex_uint r)
  | String "6" r => Hexadecimal.D6 (read_hex_uint r)
  | String "7" r => Hexadecimal.D7 (read_hex_uint r)
  | String "8" r => Hexadecimal.D8 (read_hex_uint r)
  | String "9" r => Hexadecimal.D9 (read_hex_uint r)
  | String "a" r | String "A" r => Hexadecimal.Da (read_hex_uint r)
  | String "b" r | String "B" r => Hexadecimal.Db (read_hex_uint r)
  | String "c" r | String "C" r => Hexadecimal.Dc (read_hex_uint r)
  | String "d" r | String "D" r => Hexadecimal.Dd (read_hex_uint r)
  | String "e" r | String "E" r => Hexadecimal.De (read_hex_uint r)
  | String "f" r | String "F" r => Hexadecimal.Df (read_hex_uint r)
  | _ => Hexadecimal.Nil
  end.

(** Sign step of [parseInt]: a leading "-" makes the result negative, a
    leading "+" or "-" is removed. *)
Definition split_sign (s : string) : Z * string :=
  match s with
  | String "-" r => (-1, r)
  | String "+" r => (1, r)
  | _ => (1, s)
  end.

(** The "0x"/"0X" prefix test of [parseInt]; the result is the text after
    the prefix. *)
Definition hex_prefixed (s : string) : option string :=
  match s with
  | String "0" (String "x" r) | String "0" (String "X" r) => Some r
  | _ => None
  end.

(** The unsigned part of [parseInt]: radix 16 after a hex prefix, radix 10
    otherwise; the longest prefix of digits is the value, whatever follows
    it is ignored; no digit at all is NaN ([None]). *)
Definition parse_magnitude (s : string) : option Z :=
  match hex_prefixed s with
  | Some r =>
      match read_hex_uint r with
      | Hexadecimal.Nil => None
      | d => Some (Z.of_hex_uint d)
      end
  | None =>
      match read_uint s with
      | Decimal.Nil => None
      | d => Some (Z.of_uint d)
      end
  end.

(** [parseInt(string)] with no radix argument.  [None] is NaN.  Leading
    white space is skipped, then an optional sign is read.  Integers are
    exact (inputs beyond 2^53 are outside the model), and [-0] is [0]. *)
Definition parseInt (input : string) : option Z :=
  let '(sign, s) := split_sign (trim_start input) in
  option_map (Z.mul sign) (parse_magnitude s).

(** [Number::toString] on an integer-valued number (as a template literal
    [`${n}`] performs it): decimal digits, "-" in front of a negative
    value.  Exact below 2^53; from 10^21 on the text has an exponent, and
    such numbers are outside the model. *)
Definition Number_toString (n : Z) : string :=
  NilZero.string_of_int (Z.to_int n).

(** [x > 0] where [x] may be NaN: any comparison with NaN is false. *)
Definition gt_zero (x : option Z) : bool :=
  match x with
  | Some n => (0 <? n)%Z
  | None => false
  end.

(** Values produced by [JSON.parse]. Numbers are the integers; objects
    list their own properties, and property names are distinct, as in
    every JavaScript object. *)
Inductive Value : Type :=
| Null
| Bool (b : bool)
| Number (n : Z)
| Str (s : string)
| Array (items : list Value)
| Object (props : list (string * Value)).

(** [ToBoolean]: [null], [false], [0] and the empty string are falsy,
    every array and object is truthy. *)
Definition truthy (v : Value) : bool :=
  match v with
  | Null => false
  | Bool b => b
  | Number n => negb (n =? 0)%Z
  | Str s => negb (String.eqb s "")
  | Array _ | Object _ => true
  end.

Fixpoint assoc (key : string) (props : list (string * Value)) : option Value :=
  match props with
  | [] => None
  | (k, v) :: rest => if String.eqb k key then Some v else assoc key rest
  end.

(** Result of evaluating [v.key] for a key that no prototype defines
    (such as "detail" and "message"). *)
Inductive Access : Type :=
| Throws                       (* TypeError: [v] is null *)
| Undefined
| Found (v : Value).

Definition get (v : Value) (key : string) : Access :=
  match v with
  | Null => Throws
  | Object props =>
      match assoc key props with
      | Some x => Found x
      | None => Undefined
      end
  | Bool _ | Number _ | Str _ | Array _ => Undefined
  end.

End JS.

(** ** Domain types ([types/index.ts]) *)

Module TaskStatus.
Definition TODO : string := "TODO".
Definition IN_PROGRESS : string := "IN_PROGRESS".
Definition DONE : string := "DONE".

(** The three members of the union type [TaskStatus]. *)
Definition all : list string := [TODO; IN_PROGRESS; DONE].
End TaskStatus.

(** The [TaskStatus] type is a union of string literals that is erased at
    run time: a status is a string, and the sources keep [default]
    branches for strings outside the union. *)
Record Task : Type := mkTask {
  id : string;
  title : string;
  description : option string;
  status : string;
  total_minutes : Z;
  user_id : string;
  assigned_to : option string;
  created_at : string;
  updated_at : string
}.

(** ASCII part of [String.prototype.toLowerCase]. *)
Definition lower_ascii (c : ascii) : ascii :=
  let n := nat_of_ascii c in
  if (Nat.leb 65 n && Nat.leb n 90)%bool then ascii_of_nat (n + 32) else c.

Module Text.

Fixpoint toLowerCase (s : string) : string :=
  match s with
  | EmptyString => EmptyString
  | String c r => String (lower_ascii c) (toLowerCase r)
  end.

(** [s.replace(a, b)] for one-character strings: only the first
    occurrence is replaced. *)
Fixpoint replace (a b : ascii) (s : string) : string :=
  match s with
  | EmptyString => EmptyString
  | String c r => if Ascii.eqb c a then String b r else String c (replace a b r)
  end.

End Text.

(** ** The query cache layer ([@tanstack/react-query]) and the toaster

    The sources talk to the cache through a [QueryClient] and to the user
    through [toast].  The handlers of the hooks are sequences of such
    commands; their meaning on the cache is the contract of section 4.4 of
    the specification: invalidating a key marks every cached query whose
    key starts with it, and a read of a marked (or aged, or missing) query
    goes to the network. *)

Module ReactQuery.

Abbreviation QueryKey := (list string).

Inductive QueryData : Type :=
| TaskList (tasks : list Task)
| OneTask (task : Task).

(** Commands a handler can issue. [SetQueryData] is the client's direct
    write into the cache. *)
Inductive Effect : Type :=
| InvalidateQueries (queryKey : QueryKey)
| SetQueryData (queryKey : QueryKey) (data : QueryData)
| ToastSuccess (msg : string)
| ToastError (msg : string).

Record Query : Type := mkQuery {
  data : QueryData;
  dataUpdatedAt : Z;
  isInvalidated : bool
}.

Abbreviation QueryCache := (gmap QueryKey Query).

Inductive Toast : Type :=
| Success (msg : string)
| Failure (msg : string).

(** What the user can see: the cached server state and the notifications
    shown so far (oldest first). *)
Record Client : Type := mkClient {
  cache : QueryCache;
  toasts : list Toast
}.

(** [queryKey] matching of [invalidateQueries]: a filter key matches every
    query key it is a prefix of. *)
Fixpoint matches (filter key : QueryKey) : bool :=
  match filter, key with
  | [], _ => true
  | f :: fs, k :: ks => String.eqb f k && matches fs ks
  | _ :: _, [] => false
  end.

Definition invalidate (filter : QueryKey) (key : QueryKey) (q : Query) : Query :=
  if matches filter key
  then {| data := data q; dataUpdatedAt := dataUpdatedAt q; isInvalidated := true |}
  else q.

Definition step (now : Z) (c : Client) (e : Effect) : Client :=
  match e with
  | InvalidateQueries filter =>
      {| cache := map_imap (fun key q => Some (invalidate filter key q)) (cache c);
         toasts := toasts c |}
  | SetQueryData key d =>
      {| cache := <[key := {| data := d; dataUpdatedAt := now; isInvalidated := false |}]> (cache c);
         toasts := toasts c |}
  | ToastSuccess msg => {| cache := cache c; toasts := toasts c ++ [Success msg] |}
  | ToastError msg => {| cache := cache c; toasts := toasts c ++ [Failure msg] |}
  end.

Definition run (now : Z) (c : Client) (es : list Effect) : Client :=
  fold_left (step now) es c.

(** Notifications a sequence of commands shows. *)
Fixpoint notifications (es : list Effect) : list Toast :=
  match es with
  | [] => []
  | ToastSuccess msg :: rest => Success msg :: notifications rest
  | ToastError msg :: rest => Failure msg :: notifications rest
  | _ :: rest => notifications rest
  end.

Definition invalidates (e : Effect) : bool :=
  match e with
  | InvalidateQueries _ => true
  | _ => false
  end.

(** A query is marked in a cache when, if cached at all, it is
    invalidated. *)
Definition marked (c : QueryCache) (key : QueryKey) : Prop :=
  forall q, c !! key = Some q -> isInvalidated q = true.

Definition writes_cache (e : Effect) : bool :=
  match e with
  | SetQueryData _ _ => true
  | _ => false
  end.

Definition is_toast (e : Effect) : bool :=
  match e with
  | ToastSuccess _ | ToastError _ => true
  | _ => false
  end.

Definition isStale (staleTime now : Z) (q : Query) : bool :=
  isInvalidated q || (staleTime <=? now - dataUpdatedAt q)%Z.

(** A read through [useQuery]. *)
Inductive Read : Type :=
| FromCache (d : QueryData)              (* fresh: served without a request *)
| Refetch (shown : option QueryData).    (* request issued; cached data shown meanwhile *)

Definition read (staleTime now : Z) (c : QueryCache) (key : QueryKey) : Read :=
  match c !! key with
  | None => Refetch None
  | Some q => if isStale staleTime now q then Refetch (Some (data q)) else FromCache (data q)
  end.

(** Settlement of the promise a [mutationFn] or [queryFn] returns. *)
Inductive Settled (A : Type) : Type :=
| Resolved (value : A)
| Rejected.
Arguments Resolved {A} value.
Arguments Rejected {A}.

(** Options of [useMutation] that the sources set: the two handlers and,
    when given, the retry count. *)
Record MutationOptions (A : Type) : Type := mkMutationOptions {
  onSuccess : A -> list Effect;
  onError : list Effect;
  mutation_retry : option nat
}.
Arguments onSuccess {A} _ _.
Arguments onError {A} _.
Arguments mutation_retry {A} _.
Arguments mkMutationOptions {A} _ _ _.

(** Handlers passed to one [mutate] call. They run after the hook's own. *)
Record MutateOptions : Type := mkMutateOptions {
  call_onSuccess : list Effect;
  call_onError : list Effect
}.

Definition no_callbacks : MutateOptions :=
  {| call_onSuccess := []; call_onError := [] |}.

Definition settle {A} (hook : MutationOptions A) (call : MutateOptions)
    (result : Settled A) : list Effect :=
  match result with
  | Resolved value => onSuccess hook value ++ call_onSuccess call
  | Rejected => onError hook ++ call_onError call
  end.

(** Defaults of [new QueryClient({ defaultOptions })]. *)
Record QueryDefaults : Type := mkQueryDefaults {
  default_staleTime : option Z;
  default_query_retry : option nat
}.

Record MutationDefaults : Type := mkMutationDefaults {
  default_mutation_retry : option nat
}.

Record DefaultOptions : Type := mkDefaultOptions {
  queries : option QueryDefaults;
  mutations : option MutationDefaults
}.

Record QueryOptions : Type := mkQueryOptions {
  queryKey : QueryKey;
  staleTime : option Z;
  query_retry : option nat
}.

(** The library retries a query three times and a mutation never, unless
    the hook or the client's defaults say otherwise. *)
Definition library_query_retry : nat := 3.
Definition library_mutation_retry : nat := 0.

Definition resolve_query_retry (d : DefaultOptions) (q : QueryOptions) : nat :=
  match query_retry q with
  | Some n => n
  | None =>
      match queries d ≫= default_query_retry with
      | Some n => n
      | None => library_query_retry
      end
  end.

Definition resolve_mutation_retry {A} (d : DefaultOptions) (m : MutationOptions A) : nat :=
  match mutation_retry m with
  | Some n => n
  | None =>
      match mutations d ≫= default_mutation_retry with
      | Some n => n
      | None => library_mutation_retry
      end
  end.

(** The retry loop: call the function; after a failure, call again while
    the number of failures so far is below [retry].  [outcome n] tells
    whether call number [n] (from 0) succeeds.  The result is the number
    of calls made and whether the last one succeeded. *)
Fixpoint retryer (remaining : nat) (failureCount : nat) (outcome : nat -> bool) : nat * bool :=
  if outcome failureCount then (S failureCount, true)
  else match remaining with
       | O => (S failureCount, false)
       | S r => retryer r (S failureCount) outcome
       end.

Definition execute (retry : nat) (outcome : nat -> bool) : nat * bool :=
  retryer retry 0%nat outcome.

End ReactQuery.

(** ** Conversion of a value to text

    [new Error] and [localStorage.setItem] store the text of their
    argument ([ToString]).  For values read from JSON: a primitive has its usual text, an array
    joins the texts of its elements with commas ([null] elements give the
    empty text), an object is "[object Object]" unless it has an own
    "toString" property, which is not a function and makes the conversion
    throw a TypeError ([None]). *)

Module Coercion.

Fixpoint ToString (v : JS.Value) : option string :=
  match v with
  | JS.Null => Some "null"
  | JS.Bool true => Some "true"
  | JS.Bool false => Some "false"
  | JS.Number n => Some (JS.Number_toString n)
  | JS.Str s => Some s
  | JS.Array items =>
      (fix join (items : list JS.Value) : option string :=
         match items with
         | [] => Some ""
         | item :: rest =>
             let text :=
               match item with
               | JS.Null => Some ""
               | other => ToString other
               end in
             match text, rest with
             | Some t, [] => Some t
             | Some t, _ :: _ =>
                 match join rest with
                 | Some ts => Some (t +:+ "," +:+ ts)
                 | None => None
                 end
             | None, _ => None
             end
         end) items
  | JS.Object props =>
      match JS.assoc "toString" props with
      | Some _ => None
      | None => Some "[object Object]"
      end
  end.

(** Text of the result of a property access; [undefined] has the text
    "undefined". *)
Definition text_of (a : JS.Access) : option string :=
  match a with
  | JS.Throws => None
  | JS.Undefined => Some "undefined"
  | JS.Found v => ToString v
  end.

End Coercion.

(** ** The REST client ([lib/api.ts]) *)

Module ApiClient.

Abbreviation Headers := (gmap string string).

(** [localStorage]: a string-to-string store; [getItem] of a missing key
    is [null]. *)
Abbreviation LocalStorage := (gmap string string).

Definition getItem (storage : LocalStorage) (key : string) : option string :=
  storage !! key.

(** The part of [RequestInit] the client uses. [body] is the text that
    [JSON.stringify] produced. *)
Record RequestInit : Type := mkRequestInit {
  method : option string;
  body : option string;
  headers : option Headers
}.

Definition no_options : RequestInit :=
  {| method := None; body := None; headers := None |}.

(** A response whose body can be read, as the client observes it: status
    line, and what parsing the body text as JSON gives ([None] when the
    text is not JSON, as for an empty body). *)
Record Response : Type := mkResponse {
  status : Z;
  statusText : string;
  json : option JS.Value
}.

(** [response.ok]: the status is in the range 200-299. *)
Definition ok (r : Response) : bool :=
  ((200 <=? status r) && (status r <=? 299))%Z.

Inductive Error : Type :=
| mkError (message : string)       (* an Error with this message *)
| SyntaxError                      (* raised by JSON parsing *)
| TypeError (message : string).    (* a rejection of fetch, a failed conversion *)

(** Wording of the TypeError of a conversion to a string that fails; it
    differs between engines, and no statement depends on it. *)
Definition conversion_failure : string := "Cannot convert object to primitive value".

(** [new Error(message)]: the message of the error is [ToString(message)];
    when that conversion throws, so does the construction. *)
Definition new_Error (message : JS.Value) : Error :=
  match Coercion.ToString message with
  | Some text => mkError text
  | None => TypeError conversion_failure
  end.

(** Anything can be thrown in JavaScript; the client distinguishes
    instances of [Error] from the rest. *)
Inductive Thrown : Type :=
| AnError (e : Error)
| NotAnError.

(** [fetch] resolves with a response whose body can be read, or with one
    (of the given status line) whose body read, [response.text()] or
    [response.json()], rejects with [t], or it rejects itself. *)
Inductive FetchResult : Type :=
| Responds (r : Response)
| Unreadable (status : Z) (statusText : string) (t : Thrown)
| Rejects (t : Thrown).

Definition Fetch : Type := string -> RequestInit -> FetchResult.

Inductive Result : Type :=
| Returns (v : JS.Value)
| Throws (e : Error).

Definition getHeaders (storage : LocalStorage) : Headers :=
  let headers : Headers := {[ "Content-Type" := "application/json" ]} in
  match getItem storage "access_token" with
  | Some token =>
      if negb (String.eqb token "")                       (* if (token) *)
      then <[ "Authorization" := "Bearer " +:+ token ]> headers
      else headers
  | None => headers
  end.

(** [{ ...options, headers: { ...this.getHeaders(), ...options.headers } }]:
    later spreads win, so a header given by the caller replaces the
    client's. *)
Definition config (storage : LocalStorage) (options : RequestInit) : RequestInit :=
  {| method := method options;
     body := body options;
     headers := Some (default ∅ (headers options) ∪ getHeaders storage) |}.

Definition fallbackMessage (r : Response) : string :=
  "HTTP " +:+ JS.Number_toString (status r) +:+ ": " +:+ statusText r.

(** What the variable [errorMessage] holds when the error is built:
    [errorData.detail || errorData.message || errorMessage], inside the
    [try] whose [catch] keeps the default message.  It is a string only
    if the field taken is one. *)
Definition errorMessage (r : Response) : JS.Value :=
  let fallback := JS.Str (fallbackMessage r) in
  match json r with
  | None => fallback                              (* JSON.parse throws *)
  | Some errorData =>
      match JS.get errorData "detail" with
      | JS.Throws => fallback                     (* errorData is null *)
      | JS.Found detail =>
          if JS.truthy detail then detail
          else match JS.get errorData "message" with
               | JS.Found message =>
                   if JS.truthy message then message else fallback
               | _ => fallback
               end
      | JS.Undefined =>
          match JS.get errorData "message" with
          | JS.Found message =>
              if JS.truthy message then message else fallback
          | _ => fallback
          end
      end
  end.

(** The value under [key] in the body, when the body is JSON that holds a
    truthy value there. *)
Definition truthy_field (r : Response) (key : string) : option JS.Value :=
  match json r with
  | Some body =>
      match JS.get body key with
      | JS.Found v => if JS.truthy v then Some v else None
      | _ => None
      end
  | None => None
  end.

Record Sent : Type := mkSent {
  url : string;
  init : RequestInit
}.

(** The outer [catch]: an instance of [Error] is thrown again, anything
    else is replaced. *)
Definition rethrow (t : Thrown) : Result :=
  match t with
  | AnError e => Throws e
  | NotAnError => Throws (mkError "An unexpected error occurred")
  end.

(** [request]: the request handed to [fetch], and the outcome.  All that
    is thrown inside the [try], the error built for a response that is
    not successful included, passes through the outer [catch]. *)
Definition request (baseURL : string) (storage : LocalStorage) (fetch : Fetch)
    (endpoint : string) (options : RequestInit) : Sent * Result :=
  let url := baseURL +:+ endpoint in
  let config := config storage options in
  ({| url := url; init := config |},
   match fetch url config with
   | Responds response =>
       if negb (ok response)
       then rethrow (AnError (new_Error (errorMessage response)))
       else match json response with
            | Some value => Returns value
            | None => rethrow (AnError SyntaxError)
            end
   | Unreadable _ _ t => rethrow t
   | Rejects t => rethrow t
   end).

(** The operations of the client that go through [request], each with the
    arguments that reach the request line; [payload] is the serialised
    body. *)
Inductive Operation : Type :=
| register (payload : string)
| getCurrentUser
| updateProfile (payload : string)
| getTasks
| getTask (id : string)
| createTask (payload : string)
| updateTask (id : string) (payload : string)
| updateTaskStatus (id : string) (payload : string)
| addTimeToTask (id : string) (payload : string)
| deleteTask (id : string)
| getAllTasks
| getAllUsers
| createUser (payload : string)
| updateUser (userId : string) (payload : string)
| deleteUser (userId : string)
| suggestTaskDescription (payload : string)
| getDailyPlan.

Definition with_body (m : string) (payload : string) : RequestInit :=
  {| method := Some m; body := Some payload; headers := None |}.

Definition endpoint (op : Operation) : string :=
  match op with
  | register _ => "/auth/register"
  | getCurrentUser | updateProfile _ => "/auth/me"
  | getTasks | createTask _ => "/tasks"
  | getTask id | updateTask id _ | deleteTask id => "/tasks/" +:+ id
  | updateTaskStatus id _ => "/tasks/" +:+ id +:+ "/status"
  | addTimeToTask id _ => "/tasks/" +:+ id +:+ "/time"
  | getAllTasks => "/admin/tasks"
  | getAllUsers | createUser _ => "/users"
  | updateUser userId _ | deleteUser userId => "/users/" +:+ userId
  | suggestTaskDescription _ => "/ai/suggest-description"
  | getDailyPlan => "/ai/daily-plan"
  end.

Definition options (op : Operation) : RequestInit :=
  match op with
  | register p | createTask p | addTimeToTask _ p | createUser p
  | suggestTaskDescription p => with_body "POST" p
  | updateProfile p | updateTask _ p | updateUser _ p => with_body "PUT" p
  | updateTaskStatus _ p => with_body "PATCH" p
  | deleteTask _ | deleteUser _ => {| method := Some "DELETE"; body := None; headers := None |}
  | getCurrentUser | getTasks | getTask _ | getAllTasks | getAllUsers
  | getDailyPlan => no_options
  end.

Definition perform (baseURL : string) (storage : LocalStorage) (fetch : Fetch)
    (op : Operation) : Sent * Result :=
  request baseURL storage fetch (endpoint op) (options op).

End ApiClient.

(** ** The query client of the application ([App.tsx]) *)

Module App.
Import ReactQuery.

Definition queryClient : DefaultOptions :=
  {| queries := Some {| default_staleTime := Some (1000 * 60 * 5);
                        default_query_retry := Some 1%nat |};
     mutations := None |}.

End App.

(** ** Task hooks ([hooks/useTasks.ts]) *)

Module UseTasks.
Import ReactQuery.

Definition useTasks : QueryOptions :=
  {| queryKey := ["tasks"]; staleTime := Some (1000 * 60 * 5); query_retry := None |}.

Definition useTask (id : string) : QueryOptions :=
  {| queryKey := ["tasks"; id]; staleTime := None; query_retry := None |}.

Definition useCreateTask : MutationOptions Task :=
  {| onSuccess := fun _ => [InvalidateQueries ["tasks"]; ToastSuccess "Task created!"];
     onError := [ToastError "Failed to create task"];
     mutation_retry := None |}.

Definition useUpdateTask : MutationOptions Task :=
  {| onSuccess := fun _ => [InvalidateQueries ["tasks"]; ToastSuccess "Task updated!"];
     onError := [ToastError "Failed to update task"];
     mutation_retry := None |}.

(** [msgs[task.status] || 'Task updated'], for a status that names no
    property every object inherits (as "constructor" does). *)
Definition msgs (s : string) : string :=
  if String.eqb s TaskStatus.TODO then "Moved to Todo"
  else if String.eqb s TaskStatus.IN_PROGRESS then "Started!"
  else if String.eqb s TaskStatus.DONE then "Done! 🎉"
  else "Task updated".

Definition useUpdateTaskStatus : MutationOptions Task :=
  {| onSuccess := fun task => [InvalidateQueries ["tasks"]; ToastSuccess (msgs (status task))];
     onError := [ToastError "Failed to update status"];
     mutation_retry := None |}.

Definition useAddTimeToTask : MutationOptions Task :=
  {| onSuccess := fun task =>
       [InvalidateQueries ["tasks"];
        ToastSuccess ("+" +:+ JS.Number_toString (total_minutes task) +:+ "min logged")];
     onError := [ToastError "Failed to add time"];
     mutation_retry := None |}.

Definition useDeleteTask : MutationOptions unit :=
  {| onSuccess := fun _ => [InvalidateQueries ["tasks"]; ToastSuccess "Deleted"];
     onError := [ToastError "Delete failed"];
     mutation_retry := None |}.

(** The five mutation hooks of the module. *)
Inductive Hook : Type :=
| CreateTask
| UpdateTask
| UpdateTaskStatus
| AddTimeToTask
| DeleteTask.

Definition hooks : list Hook :=
  [CreateTask; UpdateTask; UpdateTaskStatus; AddTimeToTask; DeleteTask].

(** Handlers of a hook; [returned] is the task in the server's answer
    (the delete hook gets no value). *)
Definition successHandler (h : Hook) (returned : Task) : list Effect :=
  match h with
  | CreateTask => onSuccess useCreateTask returned
  | UpdateTask => onSuccess useUpdateTask returned
  | UpdateTaskStatus => onSuccess useUpdateTaskStatus returned
  | AddTimeToTask => onSuccess useAddTimeToTask returned
  | DeleteTask => onSuccess useDeleteTask tt
  end.

Definition errorHandler (h : Hook) : list Effect :=
  match h with
  | CreateTask => onError useCreateTask
  | UpdateTask => onError useUpdateTask
  | UpdateTaskStatus => onError useUpdateTaskStatus
  | AddTimeToTask => onError useAddTimeToTask
  | DeleteTask => onError useDeleteTask
  end.

Definition retryOption (h : Hook) : option nat :=
  match h with
  | CreateTask => mutation_retry useCreateTask
  | UpdateTask => mutation_retry useUpdateTask
  | UpdateTaskStatus => mutation_retry useUpdateTaskStatus
  | AddTimeToTask => mutation_retry useAddTimeToTask
  | DeleteTask => mutation_retry useDeleteTask
  end.

(** A completed mutation of hook [h], seen from the client: the handlers
    of the hook run, then those of the [mutate] call. *)
Definition complete (h : Hook) (call : MutateOptions) (result : Settled Task) : list Effect :=
  match result with
  | Resolved returned => successHandler h returned ++ call_onSuccess call
  | Rejected => errorHandler h ++ call_onError call
  end.

(** The client operation behind each hook's [mutationFn]. *)
Definition mutationFn (h : Hook) (id payload : string) : ApiClient.Operation :=
  match h with
  | CreateTask => ApiClient.createTask payload
  | UpdateTask => ApiClient.updateTask id payload
  | UpdateTaskStatus => ApiClient.updateTaskStatus id payload
  | AddTimeToTask => ApiClient.addTimeToTask id payload
  | DeleteTask => ApiClient.deleteTask id
  end.

(** The promise of a [mutationFn] settles as the client's call does. The
    returned JSON is used as a [Task] without a check; [as_task] stands
    for that cast. *)
Definition settlement (as_task : JS.Value -> Task) (r : ApiClient.Result) : Settled Task :=
  match r with
  | ApiClient.Returns value => Resolved (as_task value)
  | ApiClient.Throws _ => Rejected
  end.

(** One mutation from request to handlers. *)
Definition mutate (baseURL : string) (storage : ApiClient.LocalStorage)
    (fetch : ApiClient.Fetch) (as_task : JS.Value -> Task)
    (h : Hook) (id payload : string) (call : MutateOptions) : list Effect :=
  complete h call
    (settlement as_task (snd (ApiClient.perform baseURL storage fetch (mutationFn h id payload)))).

(** [hook.mutate(variables, options)] as issued by the components. *)
Inductive Call : Type :=
| updateStatus (id : string) (status : string) (options : MutateOptions)
| addTime (id : string) (minutes : Z)
| deleteTask (id : string).

End UseTasks.

(** ** User hooks ([hooks/useUsers.ts]) and AI hooks ([hooks/useAI.ts]):
       retry settings only *)

Module UseUsers.
Import ReactQuery.

Definition useUsers : QueryOptions :=
  {| queryKey := ["users"]; staleTime := None; query_retry := None |}.

Definition useCreateUser : MutationOptions unit :=
  {| onSuccess := fun _ => [InvalidateQueries ["users"]]; onError := []; mutation_retry := None |}.
Definition useUpdateUser : MutationOptions unit :=
  {| onSuccess := fun _ => [InvalidateQueries ["users"]]; onError := []; mutation_retry := None |}.
Definition useDeleteUser : MutationOptions unit :=
  {| onSuccess := fun _ => [InvalidateQueries ["users"]]; onError := []; mutation_retry := None |}.

End UseUsers.

Module UseAI.
Import ReactQuery.

Definition useSuggestTaskDescription : MutationOptions unit :=
  {| onSuccess := fun _ => [];
     onError := [ToastError "Failed to generate AI suggestion"];
     mutation_retry := None |}.

Definition useDailyPlan : QueryOptions :=
  {| queryKey := ["daily-plan"]; staleTime := Some (1000 * 60 * 30); query_retry := Some 1%nat |}.

(** The error handler shows the message of the error, or a fixed text. *)
Definition useRefreshDailyPlan (errorMessage : string) : MutationOptions unit :=
  {| onSuccess := fun _ => [ToastSuccess "Daily plan generated successfully!"];
     onError := [ToastError errorMessage];
     mutation_retry := None |}.

End UseAI.

(** Inline queries of the admin pages ([AdminPanel.tsx],
    [AdminAnalytics.tsx]). *)
Module Admin.
Import ReactQuery.

Definition adminTasks : QueryOptions :=
  {| queryKey := ["admin-tasks"]; staleTime := None; query_retry := None |}.
Definition analyticsTasks : QueryOptions :=
  {| queryKey := ["admin"; "all-tasks"]; staleTime := None; query_retry := None |}.
Definition analyticsUsers : QueryOptions :=
  {| queryKey := ["admin"; "all-users"]; staleTime := None; query_retry := None |}.

End Admin.

(** Every [useQuery] of the sources ([useTask] for an arbitrary id), and
    the retry option of every [useMutation]. *)
Definition all_queries (id : string) : list ReactQuery.QueryOptions :=
  [ UseTasks.useTasks; UseTasks.useTask id; UseUsers.useUsers; UseAI.useDailyPlan;
    Admin.adminTasks; Admin.analyticsTasks; Admin.analyticsUsers ].

Definition all_mutation_retries (errorMessage : string) : list (option nat) :=
  map UseTasks.retryOption UseTasks.hooks ++
  [ ReactQuery.mutation_retry UseUsers.useCreateUser;
    ReactQuery.mutation_retry UseUsers.useUpdateUser;
    ReactQuery.mutation_retry UseUsers.useDeleteUser;
    ReactQuery.mutation_retry UseAI.useSuggestTaskDescription;
    ReactQuery.mutation_retry (UseAI.useRefreshDailyPlan errorMessage) ].

(** Retry count in force for a mutation whose hook sets [retry]. *)
Definition mutation_retry_in_force (d : ReactQuery.DefaultOptions) (retry : option nat) : nat :=
  ReactQuery.resolve_mutation_retry d
    {| ReactQuery.onSuccess := fun _ : unit => []; ReactQuery.onError := [];
       ReactQuery.mutation_retry := retry |}.

(** ** The task card of the list view ([components/Tasks/TaskCard.tsx]) *)

Module TaskCard.

Definition getNextStatus (currentStatus : string) : string :=
  if String.eqb currentStatus TaskStatus.TODO then TaskStatus.IN_PROGRESS
  else if String.eqb currentStatus TaskStatus.IN_PROGRESS then TaskStatus.DONE
  else if String.eqb currentStatus TaskStatus.DONE then TaskStatus.TODO
  else TaskStatus.IN_PROGRESS.

(** What a handler of the card does: calls of the mutation hooks and
    updates of the card's own state. *)
Inductive Action : Type :=
| Mutate (call : UseTasks.Call)
| setTimeInput (value : string)
| setShowTimeInput (value : bool)
| setShowDeleteModal (value : bool).

Definition handleStatusChange (task : Task) : list Action :=
  let nextStatus := getNextStatus (status task) in
  [Mutate (UseTasks.updateStatus (id task) nextStatus ReactQuery.no_callbacks)].

Definition handleConfirmDelete (task : Task) : list Action :=
  [Mutate (UseTasks.deleteTask (id task)); setShowDeleteModal false].

Definition handleAddTime (task : Task) (timeInput : string) : list Action :=
  match JS.parseInt timeInput with
  | Some minutes =>
      if (0 <? minutes)%Z
      then [Mutate (UseTasks.addTime (id task) minutes); setTimeInput ""; setShowTimeInput false]
      else []
  | None => []                                    (* NaN > 0 is false *)
  end.

Fixpoint calls (actions : list Action) : list UseTasks.Call :=
  match actions with
  | [] => []
  | Mutate c :: rest => c :: calls rest
  | _ :: rest => calls rest
  end.

End TaskCard.

(** ** The card of the Kanban board ([components/Kanban/KanbanTaskCard.tsx]) *)

Module KanbanTaskCard.

Inductive Action : Type :=
| Mutate (call : UseTasks.Call)
| setTimeToAdd (value : string)
| setShowTimeInput (value : bool)
| toast_success (msg : string).

Definition handleAddTime (task : Task) (timeToAdd : string) : list Action :=
  match JS.parseInt timeToAdd with
  | Some minutes =>
      if (0 <? minutes)%Z
      then [Mutate (UseTasks.addTime (id task) minutes); setTimeToAdd "";
            setShowTimeInput false;
            toast_success ("Added " +:+ JS.Number_toString minutes +:+ " minutes to task")]
      else []
  | None => []
  end.

Fixpoint calls (actions : list Action) : list UseTasks.Call :=
  match actions with
  | [] => []
  | Mutate c :: rest => c :: calls rest
  | _ :: rest => calls rest
  end.

End KanbanTaskCard.

(** ** The Kanban board ([pages/Kanban.tsx]) *)

Module Kanban.

Record Columns : Type := mkColumns {
  TODO : list Task;
  IN_PROGRESS : list Task;
  DONE : list Task
}.

Definition has_status (s : string) (task : Task) : bool :=
  String.eqb (status task) s.

(** [tasks] is [undefined] until the query has data. *)
Definition tasksByStatus (tasks : option (list Task)) : Columns :=
  match tasks with
  | None => {| TODO := []; IN_PROGRESS := []; DONE := [] |}
  | Some tasks =>
      {| TODO := List.filter (has_status TaskStatus.TODO) tasks;
         IN_PROGRESS := List.filter (has_status TaskStatus.IN_PROGRESS) tasks;
         DONE := List.filter (has_status TaskStatus.DONE) tasks |}
  end.

(** The three columns the board renders, with their ids and counts. *)
Record Column : Type := mkColumn {
  column_id : string;
  column_tasks : list Task;
  count : nat
}.

Definition columns (tasks : option (list Task)) : list Column :=
  let grouped := tasksByStatus tasks in
  [ {| column_id := TaskStatus.TODO; column_tasks := TODO grouped; count := length (TODO grouped) |};
    {| column_id := TaskStatus.IN_PROGRESS; column_tasks := IN_PROGRESS grouped;
       count := length (IN_PROGRESS grouped) |};
    {| column_id := TaskStatus.DONE; column_tasks := DONE grouped; count := length (DONE grouped) |} ].

(** [tasks?.find(t => t.id === taskId)] *)
Definition find_task (tasks : option (list Task)) (taskId : string) : option Task :=
  match tasks with
  | None => None
  | Some tasks => List.find (fun t => String.eqb (id t) taskId) tasks
  end.

(** The part of a drag event the handlers read: the id of the dragged
    item and, if the pointer was released over a drop zone, the id of that
    zone. *)
Record DragEndEvent : Type := mkDragEndEvent {
  active : string;
  over : option string
}.

Inductive Action : Type :=
| setActiveTask (task : option Task)
| Mutate (call : UseTasks.Call).

Definition handleDragStart (tasks : option (list Task)) (activeId : string) : list Action :=
  match find_task tasks activeId with
  | Some task => [setActiveTask (Some task)]
  | None => []
  end.

Definition moved_message (newStatus : string) : string :=
  "Task moved to " +:+ Text.toLowerCase (Text.replace "_" " " newStatus) +:+ "!".

Definition handleDragEnd (tasks : option (list Task)) (event : DragEndEvent) : list Action :=
  setActiveTask None ::
  match over event with
  | None => []
  | Some newStatus =>
      let taskId := active event in
      match find_task tasks taskId with
      | None => []
      | Some task =>
          if String.eqb (status task) newStatus then []
          else [Mutate (UseTasks.updateStatus taskId newStatus
                  {| ReactQuery.call_onSuccess := [ReactQuery.ToastSuccess (moved_message newStatus)];
                     ReactQuery.call_onError := [ReactQuery.ToastError "Failed to update task status"] |})]
      end
  end.

Fixpoint calls (actions : list Action) : list UseTasks.Call :=
  match actions with
  | [] => []
  | Mutate c :: rest => c :: calls rest
  | _ :: rest => calls rest
  end.

(** Drop zones registered under the board's [DndContext]: each column
    ([useDroppable({ id })] in [KanbanColumn.tsx], the id being the
    column's status) and each card ([useSortable({ id: task.id })] in
    [KanbanTaskCard.tsx]; a sortable item is also a drop zone). *)
Inductive Droppable : Type :=
| ColumnZone (column : string)
| CardZone (task : Task).

Definition droppable_id (d : Droppable) : string :=
  match d with
  | ColumnZone column => column
  | CardZone task => id task
  end.

(** The column a drop zone belongs to; a card is rendered in the column
    of its status. *)
Definition column_of (d : Droppable) : string :=
  match d with
  | ColumnZone column => column
  | CardZone task => status task
  end.

Definition droppables (tasks : option (list Task)) : list Droppable :=
  flat_map (fun c => ColumnZone (column_id c) :: map CardZone (column_tasks c)) (columns tasks).

(** The event the library reports when the item [activeId] is released
    over [target]. *)
Definition drop (activeId : string) (target : option Droppable) : DragEndEvent :=
  {| active := activeId; over := option_map droppable_id target |}.

End Kanban.

(** ** Inputs of a number field

    The add-time text comes from an [<input type="number">]. The value of
    such a field is the empty string or a valid floating-point number of
    the HTML standard: an optional "-", digits with an optional fraction
    (or a fraction alone), and an optional exponent. *)

Module Html.

Definition is_digit (c : ascii) : bool :=
  let n := nat_of_ascii c in (Nat.leb 48 n && Nat.leb n 57)%bool.

Definition starts_with_digit (s : string) : bool :=
  match s with
  | String c _ => is_digit c
  | EmptyString => false
  end.

Fixpoint skip_digits (s : string) : string :=
  match s with
  | String c r => if is_digit c then skip_digits r else s
  | EmptyString => EmptyString
  end.

Definition valid_exponent (s : string) : bool :=
  match s with
  | EmptyString => true
  | String c r =>
      if (Ascii.eqb c "e" || Ascii.eqb c "E")%bool then
        let digits :=
          match r with
          | String "-" r' | String "+" r' => r'
          | _ => r
          end in
        (starts_with_digit digits && String.eqb (skip_digits digits) "")%bool
      else false
  end.

Definition valid_unsigned (s : string) : bool :=
  match skip_digits s with
  | String "." r =>
      (starts_with_digit r && valid_exponent (skip_digits r))%bool
  | rest => (starts_with_digit s && valid_exponent rest)%bool
  end.

Definition valid_floating_point_number (s : string) : bool :=
  match s with
  | String "-" r => valid_unsigned r
  | _ => valid_unsigned s
  end.

(** A numeric input, in the words of the specification. *)
Definition numeric (input : string) : bool := valid_floating_point_number input.

(** The digits before the exponent are all zero. *)
Fixpoint mantissa_zero (s : string) : bool :=
  match s with
  | EmptyString => true
  | String c r =>
      if (Ascii.eqb c "0" || Ascii.eqb c ".")%bool then mantissa_zero r
      else negb (is_digit c)
  end.

(** A numeric input whose value is zero or negative: it has a minus sign,
    or its mantissa is zero. *)
Definition non_positive (input : string) : bool :=
  (numeric input &&
   match input with
   | String "-" _ => true
   | _ => mantissa_zero input
   end)%bool.

(** The value the field reports for the text in it (value sanitisation of
    the HTML standard): text that is not a valid number reads as the
    empty string. *)
Definition field_value (typed : string) : string :=
  if valid_floating_point_number typed then typed else "".

End Html.

(** ** Statements of the specification kept for comparison *)

Module Stated.

(** The message the specification gives for a response that is not
    successful: the body's "detail" field if present, otherwise its
    "message" field if present, otherwise the generic text (also when
    the body is not JSON). *)
Definition errorMessage (r : ApiClient.Response) : JS.Value :=
  let fallback := JS.Str (ApiClient.fallbackMessage r) in
  match ApiClient.json r with
  | None => fallback
  | Some errorData =>
      match JS.get errorData "detail" with
      | JS.Found detail => detail
      | _ =>
          match JS.get errorData "message" with
          | JS.Found message => message
          | _ => fallback
          end
      end
  end.

(** The outcome the specification gives for a received response: the
    parsed body, or an [Error] whose message is the text of the value
    above. *)
Definition outcome (r : ApiClient.Response) (result : ApiClient.Result) : Prop :=
  if ApiClient.ok r
  then exists value, ApiClient.json r = Some value /\ result = ApiClient.Returns value
  else exists text,
         Coercion.ToString (errorMessage r) = Some text /\
         result = ApiClient.Throws (ApiClient.mkError text).

(** The Authorization header the specification gives: "Bearer " and the
    token whenever a token is stored, none otherwise. *)
Definition authorization (storage : ApiClient.LocalStorage) : option string :=
  match ApiClient.getItem storage "access_token" with
  | Some token => Some ("Bearer " +:+ token)
  | None => None
  end.

End Stated.

(** ** Sample data *)

Module Sample.

Definition task (i s : string) (minutes : Z) : Task :=
  {| id := i; title := "Write tests"; description := None; status := s;
     total_minutes := minutes; user_id := "u1"; assigned_to := None;
     created_at := "2025-01-01T00:00:00Z"; updated_at := "2025-01-01T00:00:00Z" |}.

Definition t1 : Task := task "t1" "TODO" 0.
Definition t2 : Task := task "t2" "TODO" 30.
Definition t3 : Task := task "t3" "DONE" 45.

Definition tasks : list Task := [t1; t2; t3].

Definition baseURL : string := "http://localhost:8000".

(** A server that answers every request with the same response. *)
Definition always (r : ApiClient.Response) : ApiClient.Fetch :=
  fun _ _ => ApiClient.Responds r.

Definition no_content : ApiClient.Response :=
  {| ApiClient.status := 204; ApiClient.statusText := "No Content";
     ApiClient.json := None |}.

Definition empty_detail : ApiClient.Response :=
  {| ApiClient.status := 400; ApiClient.statusText := "Bad Request";
     ApiClient.json :=
       Some (JS.Object [("detail", JS.Str ""); ("message", JS.Str "Not allowed")]) |}.

Definition odd_detail : ApiClient.Response :=
  {| ApiClient.status := 422; ApiClient.statusText := "Unprocessable Entity";
     ApiClient.json := Some (JS.Object [("detail", JS.Object [("toString", JS.Str "x")])]) |}.

Definition server_error : ApiClient.Response :=
  {| ApiClient.status := 500; ApiClient.statusText := "Internal Server Error";
     ApiClient.json := Some (JS.Object [("detail", JS.Str "Database unavailable")]) |}.

Definition with_token (token : string) : ApiClient.LocalStorage :=
  {[ "access_token" := token ]}.

(** Reading of a returned JSON value as a task, field by field. *)
Definition text_field (v : JS.Value) (key : string) : string :=
  match JS.get v key with
  | JS.Found (JS.Str s) => s
  | _ => ""
  end.

Definition as_task (v : JS.Value) : Task :=
  {| id := text_field v "id"; title := text_field v "title"; description := None;
     status := text_field v "status";
     total_minutes := match JS.get v "total_minutes" with
                      | JS.Found (JS.Number n) => n
                      | _ => 0
                      end;
     user_id := text_field v "user_id"; assigned_to := None;
     created_at := text_field v "created_at"; updated_at := text_field v "updated_at" |}.

Definition cached (tasks : list Task) (at_time : Z) : ReactQuery.Client :=
  {| ReactQuery.cache :=
       {[ ["tasks"] := {| ReactQuery.data := ReactQuery.TaskList tasks;
                          ReactQuery.dataUpdatedAt := at_time;
                          ReactQuery.isInvalidated := false |} ]};
     ReactQuery.toasts := [] |}.

End Sample.

(** ** Durations as text

    [formatDuration] of the list card ([TaskCard.tsx]), of the board card
    ([KanbanTaskCard.tsx]) and of the profile page ([Profile.tsx]); the
    three copies are the same function.  [timeLogged] is the inline
    display of the analytics and admin pages. *)

Module Duration.

(** [Math.floor(minutes / 60)] is the quotient rounded down, [minutes % 60]
    the remainder with the sign of [minutes]. *)
Definition formatDuration (minutes : Z) : string :=
  let hours := minutes / 60 in
  let remainingMinutes := Z.rem minutes 60 in
  if (0 <? hours)%Z
  then JS.Number_toString hours +:+ "h " +:+ JS.Number_toString remainingMinutes +:+ "m"
  else JS.Number_toString remainingMinutes +:+ "m".

(** [Math.round(n / 60)]: the quotient rounded to the nearest integer,
    halves upwards.  The quotient of an integer by 60 is a half exactly
    when the remainder is 30, and is then a binary fraction; the rounding
    of the division itself is far below 1/60 for any amount of minutes
    that fits a task, so the result is the one of exact arithmetic. *)
Definition round_hours (minutes : Z) : Z := (minutes + 30) / 60.

(** [{Math.round(totalMinutes / 60)}h {totalMinutes % 60}m] *)
Definition timeLogged (totalMinutes : Z) : string :=
  JS.Number_toString (round_hours totalMinutes) +:+ "h " +:+
  JS.Number_toString (Z.rem totalMinutes 60) +:+ "m".

(** The amount of minutes a text of the form "{h}h {m}m" stands for. *)
Definition minutes_of (hours remaining : Z) : Z := 60 * hours + remaining.

End Duration.

(** ** The dashboard ([pages/Dashboard.tsx]) *)

Module Dashboard.

(** [tasks?.filter(task => statusFilter === 'ALL' || task.status === statusFilter) || []] *)
Definition filteredTasks (tasks : option (list Task)) (statusFilter : string) : list Task :=
  match tasks with
  | None => []
  | Some tasks =>
      List.filter
        (fun task => (String.eqb statusFilter "ALL" || String.eqb (status task) statusFilter)%bool)
        tasks
  end.

Record TaskStats : Type := mkTaskStats {
  total : nat;
  todo : nat;
  inProgress : nat;
  done : nat;
  totalMinutes : Z
}.

Definition count_status (s : string) (tasks : list Task) : nat :=
  length (List.filter (fun t => String.eqb (status t) s) tasks).

(** Each field is [tasks?.… || 0]. *)
Definition taskStats (tasks : option (list Task)) : TaskStats :=
  match tasks with
  | None => {| total := 0; todo := 0; inProgress := 0; done := 0; totalMinutes := 0 |}
  | Some tasks =>
      {| total := length tasks;
         todo := count_status TaskStatus.TODO tasks;
         inProgress := count_status TaskStatus.IN_PROGRESS tasks;
         done := count_status TaskStatus.DONE tasks;
         totalMinutes := fold_left (fun sum task => sum + total_minutes task) tasks 0 |}
  end.

(** A task whose status is none of the three. *)
Definition other_status (t : Task) : bool :=
  negb (String.eqb (status t) TaskStatus.TODO || String.eqb (status t) TaskStatus.IN_PROGRESS
        || String.eqb (status t) TaskStatus.DONE).

Definition sum_minutes (tasks : list Task) : Z :=
  totalMinutes (taskStats (Some tasks)).

End Dashboard.

(** ** Route guards ([App.tsx]) *)

Module Routes.

Inductive View : Type :=
| Spinner                      (* the loading screen *)
| Navigate (to : string)       (* <Navigate to=... replace /> *)
| Children.                    (* the guarded page *)

Definition ProtectedRoute (isAuthenticated isLoading : bool) : View :=
  if isLoading then Spinner
  else if negb isAuthenticated then Navigate "/login"
  else Children.

Definition PublicRoute (isAuthenticated isLoading : bool) : View :=
  if isLoading then Spinner
  else if isAuthenticated then Navigate "/"
  else Children.

(** The entries of the route table: the two public forms, the layout
    with its pages, and the catch-all. *)
Inductive Route : Type :=
| LoginPage
| RegisterPage
| AppPage (page : string)      (* index, daily-plan, analytics, kanban, profile, admin *)
| CatchAll.

Definition element (route : Route) (isAuthenticated isLoading : bool) : View :=
  match route with
  | LoginPage | RegisterPage => PublicRoute isAuthenticated isLoading
  | AppPage _ => ProtectedRoute isAuthenticated isLoading
  | CatchAll => Navigate "/"
  end.

(** The routes the two redirect targets of the table match. *)
Definition matched (to : string) : Route :=
  if String.eqb to "/login" then LoginPage
  else if String.eqb to "/" then AppPage "index"
  else CatchAll.

(** Rendering with redirects followed, at most [hops] of them. The result
    is the route reached, what it shows, and the number of redirects
    taken. *)
Fixpoint settle (hops : nat) (route : Route) (isAuthenticated isLoading : bool)
    : Route * View * nat :=
  match element route isAuthenticated isLoading with
  | Navigate to =>
      match hops with
      | O => (route, Navigate to, 0%nat)
      | S hops' =>
          let '(final, view, n) := settle hops' (matched to) isAuthenticated isLoading in
          (final, view, S n)
      end
  | view => (route, view, 0%nat)
  end.

Definition is_app_page (route : Route) : bool :=
  match route with
  | AppPage _ => true
  | _ => false
  end.

Definition is_public_page (route : Route) : bool :=
  match route with
  | LoginPage | RegisterPage => true
  | _ => false
  end.

End Routes.

(** ** Controls of the board card ([KanbanTaskCard.tsx]) *)

Module KanbanControls.

(** [disabled={!timeToAdd || parseInt(timeToAdd) <= 0}]; a comparison
    with NaN is false. *)
Definition addDisabled (timeToAdd : string) : bool :=
  (String.eqb timeToAdd "" ||
   match JS.parseInt timeToAdd with
   | Some minutes => (minutes <=? 0)%Z
   | None => false
   end)%bool.

End KanbanControls.

(** ** The body of a task creation ([ApiClient.createTask] in [lib/api.ts]) *)

Module CreateTask.

Record CreateTaskData : Type := mkCreateTaskData {
  title : string;
  description : option string;       (* absent when [None] *)
  assigned_to : option string
}.

(** The object handed to [JSON.stringify]; [None] is [null]. *)
Record Body : Type := mkBody {
  body_title : string;
  body_description : option string;
  body_assigned_to : option string
}.

(** The characters [trim] removes, among the characters below 256 that a
    text of this development is made of: TAB, LF, VT, FF, CR, SP and the
    no-break space. *)
Definition is_trim_space (c : ascii) : bool :=
  (JS.is_white_space c || Nat.eqb (nat_of_ascii c) 160)%bool.

Fixpoint blank (s : string) : bool :=
  match s with
  | EmptyString => true
  | String c r => (is_trim_space c && blank r)%bool
  end.

(** [description: data.description || null] and
    [assigned_to: data.assigned_to && data.assigned_to.trim() !== '' ?
    data.assigned_to : null].  [trim] removes white space at both ends,
    so the trimmed text is empty exactly for a blank text. *)
Definition transformedData (data : CreateTaskData) : Body :=
  {| body_title := title data;
     body_description :=
       match description data with
       | Some d => if String.eqb d "" then None else Some d
       | None => None
       end;
     body_assigned_to :=
       match assigned_to data with
       | Some a => if (negb (String.eqb a "") && negb (blank a))%bool then Some a else None
       | None => None
       end |}.

(** The data a body would be read back as. *)
Definition as_data (b : Body) : CreateTaskData :=
  {| title := body_title b; description := body_description b;
     assigned_to := body_assigned_to b |}.

End CreateTask.

(** ** Login ([ApiClient.login] in [lib/api.ts]) *)

Module Login.

Record LoginCredentials : Type := mkLoginCredentials {
  email : string;
  password : string
}.

(** The login request: a [FormData] body and no headers of the client. *)
Record FormRequest : Type := mkFormRequest {
  form_url : string;
  form_method : string;
  formData : list (string * string)
}.

Definition FormFetch : Type := FormRequest -> ApiClient.FetchResult.

(** [login] has no [try]: whatever [fetch] or a body read rejects with
    escapes as it is. *)
Inductive Result : Type :=
| Returns (v : JS.Value)
| Throws (t : ApiClient.Thrown).

Definition fallbackMessage : string := "Invalid email or password".

(** [errorData.detail || errorData.message || errorMessage] with the
    login's own default. *)
Definition errorMessage (r : ApiClient.Response) : JS.Value :=
  let fallback := JS.Str fallbackMessage in
  match ApiClient.json r with
  | None => fallback
  | Some errorData =>
      match JS.get errorData "detail" with
      | JS.Throws => fallback
      | JS.Found detail =>
          if JS.truthy detail then detail
          else match JS.get errorData "message" with
               | JS.Found message =>
                   if JS.truthy message then message else fallback
               | _ => fallback
               end
      | JS.Undefined =>
          match JS.get errorData "message" with
          | JS.Found message =>
              if JS.truthy message then message else fallback
          | _ => fallback
          end
      end
  end.

Definition login (baseURL : string) (fetch : FormFetch) (credentials : LoginCredentials)
    : FormRequest * Result :=
  let request :=
    {| form_url := baseURL +:+ "/auth/login";
       form_method := "POST";
       formData := [("username", email credentials); ("password", password credentials)] |} in
  (request,
   match fetch request with
   | ApiClient.Responds response =>
       if negb (ApiClient.ok response)
       then Throws (ApiClient.AnError (ApiClient.new_Error (errorMessage response)))
       else match ApiClient.json response with
            | Some value => Returns value
            | None => Throws (ApiClient.AnError ApiClient.SyntaxError)
            end
   | ApiClient.Unreadable _ _ t => Throws t
   | ApiClient.Rejects t => Throws t
   end).

End Login.

(** ** The authentication store ([stores/authStore.ts])

    An operation is taken from its call to the settling of its promise;
    the state in between ([isLoading] set while a request is under way)
    is not kept.  The storage is the local storage without the entry
    "auth-storage" of the [persist] middleware: with
    [partialize: () => ({})] that entry never depends on the state, and
    the code of the application does not read it. *)

Module AuthStore.

(** [user] is [JS.Null] when there is none; [token] is [None] when it is
    [undefined]. *)
Record AuthState : Type := mkAuthState {
  user : JS.Value;
  token : option JS.Value;
  isAuthenticated : bool;
  isLoading : bool
}.

Definition initial (storage : ApiClient.LocalStorage) : AuthState :=
  {| user := JS.Null;
     token := Some match ApiClient.getItem storage "access_token" with
                   | Some t => JS.Str t
                   | None => JS.Null
                   end;
     isAuthenticated := false;
     isLoading := false |}.

Inductive Failure : Type :=
| LoginFailed (t : ApiClient.Thrown)      (* thrown by [apiClient.login] *)
| RequestFailed (e : ApiClient.Error)     (* thrown by [ApiClient.request] *)
| TokenUnreadable.                        (* TypeError on [authResp.access_token] *)

Inductive Completion : Type :=
| Fulfilled
| RejectedWith (f : Failure).

Inductive Wire : Type :=
| Form (r : Login.FormRequest)
| Json (s : ApiClient.Sent).

(** What an operation of the store leaves behind: the storage, the
    state, how its promise settled, and the requests it sent, in
    order. *)
Record Outcome : Type := mkOutcome {
  storage_after : ApiClient.LocalStorage;
  state_after : AuthState;
  completion : Completion;
  wire : list Wire
}.

(** The network: the form endpoint of the login and the JSON API. *)
Record Network : Type := mkNetwork {
  formFetch : Login.FormFetch;
  fetch : ApiClient.Fetch
}.

Definition stop_loading (s : AuthState) : AuthState :=
  {| user := user s; token := token s; isAuthenticated := isAuthenticated s;
     isLoading := false |}.

Definition as_token (a : JS.Access) : option JS.Value :=
  match a with
  | JS.Found v => Some v
  | _ => None
  end.

(** The shared first half of [login] and [register]: the login call and
    the storing of the token.  [Some] carries the storage with the token,
    the token as held by the state, and the request sent; [None] the
    failure. *)
Definition obtain_token (baseURL : string) (net : Network)
    (storage : ApiClient.LocalStorage) (email password : string)
    : Login.FormRequest * (ApiClient.LocalStorage * option JS.Value + Failure) :=
  let '(sent, result) :=
    Login.login baseURL (formFetch net)
      {| Login.email := email; Login.password := password |} in
  (sent,
   match result with
   | Login.Throws t => inr (LoginFailed t)
   | Login.Returns authResp =>
       let access_token := JS.get authResp "access_token" in
       match Coercion.text_of access_token with
       | None => inr TokenUnreadable
       | Some text => inl (<[ "access_token" := text ]> storage, as_token access_token)
       end
   end).

Definition login (baseURL : string) (net : Network)
    (storage : ApiClient.LocalStorage) (state : AuthState) (email password : string)
    : Outcome :=
  match obtain_token baseURL net storage email password with
  | (form, inr failure) =>
      {| storage_after := storage; state_after := stop_loading state;
         completion := RejectedWith failure; wire := [Form form] |}
  | (form, inl (stored, held)) =>
      let '(sent, result) :=
        ApiClient.perform baseURL stored (fetch net) ApiClient.getCurrentUser in
      match result with
      | ApiClient.Returns fetched =>
          {| storage_after := stored;
             state_after := {| user := fetched; token := held;
                               isAuthenticated := true; isLoading := false |};
             completion := Fulfilled; wire := [Form form; Json sent] |}
      | ApiClient.Throws e =>
          {| storage_after := stored; state_after := stop_loading state;
             completion := RejectedWith (RequestFailed e); wire := [Form form; Json sent] |}
      end
  end.

(** [payload] is the serialised [{ email, password, full_name }]. *)
Definition register (baseURL : string) (net : Network)
    (storage : ApiClient.LocalStorage) (state : AuthState)
    (email password payload : string) : Outcome :=
  let '(sent, result) :=
    ApiClient.perform baseURL storage (fetch net) (ApiClient.register payload) in
  match result with
  | ApiClient.Throws e =>
      {| storage_after := storage; state_after := stop_loading state;
         completion := RejectedWith (RequestFailed e); wire := [Json sent] |}
  | ApiClient.Returns registered =>
      match obtain_token baseURL net storage email password with
      | (form, inr failure) =>
          {| storage_after := storage; state_after := stop_loading state;
             completion := RejectedWith failure; wire := [Json sent; Form form] |}
      | (form, inl (stored, held)) =>
          {| storage_after := stored;
             state_after := {| user := registered; token := held;
                               isAuthenticated := true; isLoading := false |};
             completion := Fulfilled; wire := [Json sent; Form form] |}
      end
  end.

Definition logout (storage : ApiClient.LocalStorage) (state : AuthState) : Outcome :=
  {| storage_after := delete "access_token" storage;
     state_after := {| user := JS.Null; token := Some JS.Null;
                       isAuthenticated := false; isLoading := false |};
     completion := Fulfilled; wire := [] |}.

Definition loadUser (baseURL : string) (net : Network)
    (storage : ApiClient.LocalStorage) (state : AuthState) : Outcome :=
  match ApiClient.getItem storage "access_token" with
  | Some stored_token =>
      if String.eqb stored_token ""                         (* if (!token) *)
      then {| storage_after := storage;
              state_after := {| user := user state; token := token state;
                                isAuthenticated := false; isLoading := false |};
              completion := Fulfilled; wire := [] |}
      else
        let '(sent, result) :=
          ApiClient.perform baseURL storage (fetch net) ApiClient.getCurrentUser in
        match result with
        | ApiClient.Returns fetched =>
            {| storage_after := storage;
               state_after := {| user := fetched; token := Some (JS.Str stored_token);
                                 isAuthenticated := true; isLoading := false |};
               completion := Fulfilled; wire := [Json sent] |}
        | ApiClient.Throws _ =>
            {| storage_after := delete "access_token" storage;
               state_after := {| user := JS.Null; token := Some JS.Null;
                                 isAuthenticated := false; isLoading := false |};
               completion := Fulfilled; wire := [Json sent] |}
        end
  | None =>
      {| storage_after := storage;
         state_after := {| user := user state; token := token state;
                           isAuthenticated := false; isLoading := false |};
         completion := Fulfilled; wire := [] |}
  end.

Definition setUser (storage : ApiClient.LocalStorage) (state : AuthState)
    (new_user : JS.Value) : Outcome :=
  {| storage_after := storage;
     state_after := {| user := new_user; token := token state;
                       isAuthenticated := isAuthenticated state;
                       isLoading := isLoading state |};
     completion := Fulfilled; wire := [] |}.

(** The operations of the store, with their arguments. *)
Inductive Operation : Type :=
| Login (email password : string)
| Register (email password payload : string)
| Logout
| LoadUser
| SetUser (new_user : JS.Value).

Definition run (baseURL : string) (net : Network)
    (storage : ApiClient.LocalStorage) (state : AuthState) (op : Operation) : Outcome :=
  match op with
  | Login email password => login baseURL net storage state email password
  | Register email password payload => register baseURL net storage state email password payload
  | Logout => logout storage state
  | LoadUser => loadUser baseURL net storage state
  | SetUser new_user => setUser storage state new_user
  end.

(** A session: operations one after the other, each on what the one
    before left. *)
Fixpoint session (baseURL : string) (net : Network)
    (storage : ApiClient.LocalStorage) (state : AuthState) (ops : list Operation)
    : ApiClient.LocalStorage * AuthState :=
  match ops with
  | [] => (storage, state)
  | op :: rest =>
      let o := run baseURL net storage state op in
      session baseURL net (storage_after o) (state_after o) rest
  end.

(** Between operations the store is not loading, and it is authenticated
    only with a token in the storage. *)
Definition settled (storage : ApiClient.LocalStorage) (state : AuthState) : Prop :=
  isLoading state = false /\
  (isAuthenticated state = true -> is_Some (ApiClient.getItem storage "access_token")).

End AuthStore.

(** ** Team statistics of the admin page ([components/Admin/AdminAnalytics.tsx]) *)

Module AdminAnalytics.

Record User : Type := mkUser {
  user_ident : string;          (* the field [id] *)
  user_email : string;
  full_name : string;
  is_admin : bool
}.

(** [task.assigned_to || task.user_id] *)
Definition owner (task : Task) : string :=
  match assigned_to task with
  | Some a => if String.eqb a "" then user_id task else a
  | None => user_id task
  end.

Definition owned_by (u : User) (task : Task) : bool :=
  String.eqb (owner task) (user_ident u).

Definition sum_minutes (tasks : list Task) : Z :=
  fold_left (fun sum task => sum + total_minutes task) tasks 0.

(** One row of [userStats]. The row's [completionRate], a floating-point
    quotient, is left out. *)
Record UserStat : Type := mkUserStat {
  stat_user : User;
  totalTasks : nat;
  totalMinutes : Z;
  completedTasks : nat
}.

Definition stat (allTasks : list Task) (u : User) : UserStat :=
  let userTasks := List.filter (owned_by u) allTasks in
  {| stat_user := u;
     totalTasks := length userTasks;
     totalMinutes := sum_minutes userTasks;
     completedTasks := length (List.filter (fun t => String.eqb (status t) "DONE") userTasks) |}.

(** [sort((a, b) => b.totalMinutes - a.totalMinutes)]: the sort of an
    array is stable, so a row is placed before the rows that follow it in
    the input and have no more minutes. *)
Fixpoint insert (x : UserStat) (sorted : list UserStat) : list UserStat :=
  match sorted with
  | [] => [x]
  | y :: rest =>
      if (totalMinutes x <? totalMinutes y)%Z then y :: insert x rest
      else x :: y :: rest
  end.

Fixpoint sort (rows : list UserStat) : list UserStat :=
  match rows with
  | [] => []
  | x :: rest => insert x (sort rest)
  end.

Definition userStats (allUsers : list User) (allTasks : list Task) : list UserStat :=
  sort (map (stat allTasks) allUsers).


(** [allUsers.filter(user => allTasks.some(task => owner === user.id &&
    task.total_minutes > 0)).length] *)
Definition activeUsers (allUsers : list User) (allTasks : list Task) : nat :=
  length
    (List.filter
       (fun u => existsb (fun task => (owned_by u task && (0 <? total_minutes task)%Z)%bool) allTasks)
       allUsers).

(** Sum of a column of the table. *)
Definition total_of (column : UserStat -> Z) (rows : list UserStat) : Z :=
  fold_right Z.add 0 (map column rows).

Definition user_ids (users : list User) : list string := map user_ident users.


End AdminAnalytics.

(** ** What the user is told when adding time on the board *)

Module BoardCard.

(** Notifications the handler of the card shows itself. *)
Fixpoint announced (actions : list KanbanTaskCard.Action) : list ReactQuery.Toast :=
  match actions with
  | [] => []
  | KanbanTaskCard.toast_success msg :: rest => ReactQuery.Success msg :: announced rest
  | _ :: rest => announced rest
  end.

(** A click on the add button, up to the settling of the mutation it
    started (if any): the notifications of the handler, then those of the
    hook. *)
Definition addTime_notifications (task : Task) (timeToAdd : string)
    (result : ReactQuery.Settled Task) : list ReactQuery.Toast :=
  let actions := KanbanTaskCard.handleAddTime task timeToAdd in
  (announced actions ++
   match KanbanTaskCard.calls actions with
   | [] => []
   | _ :: _ =>
       ReactQuery.notifications
         (UseTasks.complete UseTasks.AddTimeToTask ReactQuery.no_callbacks result)
   end)%list.

End BoardCard.

(** ** Which queries a handler reaches *)

Module Reach.
Import ReactQuery.

(** The command changes the cache entry under [key]: an invalidation
    whose filter matches the key, or a write under the key. *)
Definition touches (key : QueryKey) (e : Effect) : bool :=
  match e with
  | InvalidateQueries filter => matches filter key
  | SetQueryData written _ => bool_decide (written = key)
  | ToastSuccess _ | ToastError _ => false
  end.

(** The three mutation hooks of [hooks/useUsers.ts]. *)
Definition user_hooks : list (MutationOptions unit) :=
  [UseUsers.useCreateUser; UseUsers.useUpdateUser; UseUsers.useDeleteUser].

(** The queries of the admin pages and of the daily plan. *)
Definition side_queries : list QueryOptions :=
  [Admin.adminTasks; Admin.analyticsTasks; Admin.analyticsUsers; UseAI.useDailyPlan].

End Reach.

(** ** More sample data *)

Module Fixture.

Definition alice : AdminAnalytics.User :=
  {| AdminAnalytics.user_ident := "u1"; AdminAnalytics.user_email := "alice@example.com";
     AdminAnalytics.full_name := "Alice"; AdminAnalytics.is_admin := true |}.

Definition bob : AdminAnalytics.User :=
  {| AdminAnalytics.user_ident := "u2"; AdminAnalytics.user_email := "bob@example.com";
     AdminAnalytics.full_name := "Bob"; AdminAnalytics.is_admin := false |}.

Definition assigned (i s : string) (minutes : Z) (to : string) : Task :=
  {| id := i; title := "Review"; description := None; status := s;
     total_minutes := minutes; user_id := "u1"; assigned_to := Some to;
     created_at := "2025-01-01T00:00:00Z"; updated_at := "2025-01-01T00:00:00Z" |}.

Definition team_tasks : list Task :=
  [Sample.t1; Sample.t2; Sample.t3; assigned "t4" "DONE" 90 "u2"; assigned "t5" "TODO" 0 "u2"].

Definition token_response (token : string) : ApiClient.Response :=
  {| ApiClient.status := 200; ApiClient.statusText := "OK";
     ApiClient.json :=
       Some (JS.Object [("access_token", JS.Str token); ("token_type", JS.Str "bearer")]) |}.

Definition profile : JS.Value :=
  JS.Object [("id", JS.Str "u1"); ("email", JS.Str "demo@sprintsync.com")].

Definition profile_response : ApiClient.Response :=
  {| ApiClient.status := 200; ApiClient.statusText := "OK"; ApiClient.json := Some profile |}.

Definition unauthorized : ApiClient.Response :=
  {| ApiClient.status := 401; ApiClient.statusText := "Unauthorized";
     ApiClient.json := Some (JS.Object [("detail", JS.Str "Could not validate credentials")]) |}.

(** A server that accepts the login with [token] and answers every other
    request with [r]. *)
Definition server (token : string) (r : ApiClient.Response) : AuthStore.Network :=
  {| AuthStore.formFetch := fun _ => ApiClient.Responds (token_response token);
     AuthStore.fetch := fun _ _ => ApiClient.Responds r |}.

Definition signed_out : AuthStore.AuthState := AuthStore.initial ∅.

End Fixture.

(** * Properties *)

(** ** Status cycle of the task card *)

Lemma getNextStatus_default (s : string) :
  ~ In s TaskStatus.all -> TaskCard.getNextStatus s = TaskStatus.IN_PROGRESS.
Proof.
  intros Hs. unfold TaskCard.getNextStatus.
  destruct (String.eqb_spec s TaskStatus.TODO) as [->|_]; [exfalso; apply Hs; simpl; tauto|].
  destruct (String.eqb_spec s TaskStatus.IN_PROGRESS) as [->|_]; [exfalso; apply Hs; simpl; tauto|].
  destruct (String.eqb_spec s TaskStatus.DONE) as [->|_]; [exfalso; apply Hs; simpl; tauto|].
  reflexivity.
Qed.

(** C2: the advance function sends TODO to IN_PROGRESS, IN_PROGRESS to
    DONE and DONE to TODO; hence, for each of the three statuses, three
    advances give the status back. *)
Theorem getNextStatus_cycle :
  TaskCard.getNextStatus TaskStatus.TODO = TaskStatus.IN_PROGRESS /\
  TaskCard.getNextStatus TaskStatus.IN_PROGRESS = TaskStatus.DONE /\
  TaskCard.getNextStatus TaskStatus.DONE = TaskStatus.TODO /\
  forall s, In s TaskStatus.all ->
    TaskCard.getNextStatus (TaskCard.getNextStatus (TaskCard.getNextStatus s)) = s.
Proof.
  repeat split.
  intros s Hs. simpl in Hs.
  destruct Hs as [<-|[<-|[<-|[]]]]; reflexivity.
Qed.

Lemma getNextStatus_cycle_witness :
  In "DONE" TaskStatus.all /\
  TaskCard.getNextStatus (TaskCard.getNextStatus (TaskCard.getNextStatus "DONE")) = "DONE".
Proof.
  split.
  - simpl. tauto.
  - apply (proj2 (proj2 (proj2 getNextStatus_cycle))). simpl. tauto.
Defined.

(** The button of the card requests exactly the next status of the cycle. *)
Lemma handleStatusChange_calls (task : Task) :
  TaskCard.calls (TaskCard.handleStatusChange task) =
  [UseTasks.updateStatus (id task) (TaskCard.getNextStatus (status task))
     ReactQuery.no_callbacks].
Proof. reflexivity. Qed.

(** ** Columns of the Kanban board *)

Lemma has_status_true (s : string) (t : Task) :
  Kanban.has_status s t = true <-> status t = s.
Proof. unfold Kanban.has_status. apply String.eqb_eq. Qed.

Lemma in_column (tasks : list Task) (s : string) (t : Task) :
  In t (List.filter (Kanban.has_status s) tasks) <-> In t tasks /\ status t = s.
Proof. rewrite filter_In, has_status_true. reflexivity. Qed.

Lemma columns_permutation (tasks : list Task) :
  Forall (fun t => In (status t) TaskStatus.all) tasks ->
  Permutation tasks
    (List.filter (Kanban.has_status TaskStatus.TODO) tasks ++
     List.filter (Kanban.has_status TaskStatus.IN_PROGRESS) tasks ++
     List.filter (Kanban.has_status TaskStatus.DONE) tasks).
Proof.
  induction 1 as [|t rest Ht _ IH]; [constructor|].
  cbn [List.filter].
  assert (Hhead : forall s, Kanban.has_status s t = String.eqb (status t) s) by reflexivity.
  rewrite !Hhead. simpl in Ht.
  destruct Ht as [Ht|[Ht|[Ht|[]]]]; rewrite <- Ht; cbn.
  - constructor. exact IH.
  - rewrite <- Permutation_middle. constructor. exact IH.
  - rewrite app_assoc, <- Permutation_middle, <- app_assoc. constructor. exact IH.
Qed.

(** C9: when every status is one of the three, the column filters of the
    board partition the task list: a task of the list is in a column
    exactly when the column is the one of its status, the columns together
    are a rearrangement of the list, and the counts add up to its
    length. *)
Theorem tasksByStatus_partition (tasks : list Task) :
  Forall (fun t => In (status t) TaskStatus.all) tasks ->
  let board := Kanban.tasksByStatus (Some tasks) in
  (forall t, In t tasks ->
     forall column, In column (Kanban.columns (Some tasks)) ->
       (In t (Kanban.column_tasks column) <-> Kanban.column_id column = status t)) /\
  (forall t, In t tasks ->
     exists column, In column (Kanban.columns (Some tasks)) /\
       In t (Kanban.column_tasks column)) /\
  Permutation tasks (Kanban.TODO board ++ Kanban.IN_PROGRESS board ++ Kanban.DONE board) /\
  (length (Kanban.TODO board) + length (Kanban.IN_PROGRESS board) +
   length (Kanban.DONE board) = length tasks)%nat /\
  list_sum (map Kanban.count (Kanban.columns (Some tasks))) = length tasks.
Proof.
  intros Hvalid board.
  pose proof (columns_permutation tasks Hvalid) as Hperm.
  assert (Hlen : (length (Kanban.TODO board) + length (Kanban.IN_PROGRESS board) +
                  length (Kanban.DONE board) = length tasks)%nat).
  { rewrite (Permutation_length Hperm), !length_app. subst board. simpl. lia. }
  split; [|split; [|split; [|split]]].
  - intros t Ht column Hc. simpl in Hc.
    destruct Hc as [<-|[<-|[<-|[]]]]; simpl; rewrite in_column; intuition congruence.
  - intros t Ht. rewrite List.Forall_forall in Hvalid. specialize (Hvalid t Ht). simpl in Hvalid.
    destruct Hvalid as [Hs|[Hs|[Hs|[]]]].
    + eexists. split; [simpl; left; reflexivity|]. simpl. rewrite in_column. auto.
    + eexists. split; [simpl; right; left; reflexivity|]. simpl. rewrite in_column. auto.
    + eexists. split; [simpl; right; right; left; reflexivity|]. simpl. rewrite in_column. auto.
  - exact Hperm.
  - exact Hlen.
  - subst board. simpl in *. lia.
Qed.

Lemma tasksByStatus_partition_witness :
  Forall (fun t => In (status t) TaskStatus.all) Sample.tasks /\
  list_sum (map Kanban.count (Kanban.columns (Some Sample.tasks))) = 3%nat.
Proof.
  assert (H : Forall (fun t => In (status t) TaskStatus.all) Sample.tasks).
  { repeat constructor; simpl; tauto. }
  split; [exact H|].
  apply (tasksByStatus_partition Sample.tasks H).
Defined.

(** ** Numbers and their text *)

Lemma read_uint_string_of_uint (d : Decimal.uint) :
  JS.read_uint (NilEmpty.string_of_uint d) = d.
Proof. induction d; simpl; congruence. Qed.

Lemma hex_prefixed_digits (d : Decimal.uint) :
  JS.hex_prefixed (NilEmpty.string_of_uint d) = None.
Proof. destruct d as [|d|d|d|d|d|d|d|d|d|d]; try reflexivity. destruct d; reflexivity. Qed.

Lemma parse_magnitude_digits (d : Decimal.uint) :
  d <> Decimal.Nil ->
  JS.parse_magnitude (NilEmpty.string_of_uint d) = Some (Z.of_uint d).
Proof.
  intros Hd. unfold JS.parse_magnitude.
  rewrite hex_prefixed_digits, read_uint_string_of_uint.
  destruct d; congruence.
Qed.

Lemma trim_start_digits (d : Decimal.uint) :
  JS.trim_start (NilEmpty.string_of_uint d) = NilEmpty.string_of_uint d.
Proof. destruct d; reflexivity. Qed.

Lemma split_sign_digits (d : Decimal.uint) :
  JS.split_sign (NilEmpty.string_of_uint d) = (1, NilEmpty.string_of_uint d).
Proof. destruct d; reflexivity. Qed.

Lemma parseInt_digits (d : Decimal.uint) :
  d <> Decimal.Nil ->
  JS.parseInt (NilEmpty.string_of_uint d) = Some (Z.of_uint d).
Proof.
  intros Hd. unfold JS.parseInt.
  rewrite trim_start_digits, split_sign_digits, parse_magnitude_digits by exact Hd.
  simpl. f_equal. lia.
Qed.

Lemma of_uint_to_uint (p : positive) : Z.of_uint (Pos.to_uint p) = Z.pos p.
Proof. unfold Z.of_uint. rewrite DecimalPos.Unsigned.of_to. reflexivity. Qed.

Lemma string_of_uint_nonnil (d : Decimal.uint) :
  d <> Decimal.Nil -> NilZero.string_of_uint d = NilEmpty.string_of_uint d.
Proof. destruct d; intros H; try reflexivity. congruence. Qed.

(** Reading back the text of an integer gives the integer. *)
Lemma parseInt_Number_toString (n : Z) :
  JS.parseInt (JS.Number_toString n) = Some n.
Proof.
  destruct n as [|p|p]; [reflexivity| |];
    pose proof (DecimalPos.Unsigned.to_uint_nonnil p) as Hnil;
    unfold JS.Number_toString; simpl;
    rewrite (string_of_uint_nonnil _ Hnil).
  - rewrite parseInt_digits, of_uint_to_uint by exact Hnil. reflexivity.
  - unfold JS.parseInt. cbn [JS.trim_start]. 
    change (JS.is_white_space "-") with false. cbn [JS.split_sign].
    rewrite parse_magnitude_digits, of_uint_to_uint by exact Hnil. reflexivity.
Qed.

Lemma Number_toString_inj (a b : Z) :
  JS.Number_toString a = JS.Number_toString b -> a = b.
Proof.
  intros H. apply (f_equal JS.parseInt) in H.
  rewrite !parseInt_Number_toString in H. congruence.
Qed.

Lemma of_uint_nonneg (d : Decimal.uint) : 0 <= Z.of_uint d.
Proof. unfold Z.of_uint. apply N2Z.is_nonneg. Qed.

Lemma of_hex_uint_nonneg (d : Hexadecimal.uint) : 0 <= Z.of_hex_uint d.
Proof. unfold Z.of_hex_uint. apply N2Z.is_nonneg. Qed.

Lemma parse_magnitude_nonneg (s : string) (m : Z) :
  JS.parse_magnitude s = Some m -> 0 <= m.
Proof.
  unfold JS.parse_magnitude.
  destruct (JS.hex_prefixed s).
  - destruct (JS.read_hex_uint s0) eqn:E; intros [= <-]; apply of_hex_uint_nonneg.
  - destruct (JS.read_uint s) eqn:E; intros [= <-]; apply of_uint_nonneg.
Qed.

Example parseInt_examples :
  JS.parseInt "15" = Some 15 /\ JS.parseInt "  42" = Some 42 /\
  JS.parseInt "-7" = Some (-7) /\ JS.parseInt "+3" = Some 3 /\
  JS.parseInt "0x1F" = Some 31 /\ JS.parseInt "1.5" = Some 1 /\
  JS.parseInt "12abc" = Some 12 /\ JS.parseInt "abc12" = None /\
  JS.parseInt "" = None /\ JS.parseInt "-" = None /\ JS.parseInt ".5" = None.
Proof. repeat split; reflexivity. Qed.

Example Number_toString_examples :
  JS.Number_toString 0 = "0" /\ JS.Number_toString 45 = "45" /\
  JS.Number_toString (-8) = "-8" /\ JS.Number_toString 500 = "500".
Proof. repeat split; reflexivity. Qed.

Example number_field_examples :
  map Html.numeric ["12"; "-0.5"; ".5"; "1e3"; "1."; "1e"; ""; "-"; "+5"; "12abc"; "soon"]
  = [true; true; true; true; false; false; false; false; false; false; false] /\
  map Html.non_positive ["0"; "-3"; "0.0"; "-0.5"; "0e5"; "00"; "7"; "0.1"; "10"; "1e-5"]
  = [true; true; true; true; true; true; false; false; false; false] /\
  map Html.field_value ["15"; "12abc"; "soon"; "-3"] = ["15"; ""; ""; "-3"].
Proof. repeat split; reflexivity. Qed.

(** ** The add-time handlers *)

Lemma parseInt_minus (r : string) :
  JS.parseInt (String "-" r) = option_map (Z.mul (-1)) (JS.parse_magnitude r).
Proof. reflexivity. Qed.

Lemma gt_zero_minus (r : string) : JS.gt_zero (JS.parseInt (String "-" r)) = false.
Proof.
  rewrite parseInt_minus.
  destruct (JS.parse_magnitude r) as [m|] eqn:E; [|reflexivity].
  apply parse_magnitude_nonneg in E. simpl. apply Z.ltb_ge. lia.
Qed.

Lemma valid_unsigned_first (c : ascii) (r : string) :
  Html.valid_unsigned (String c r) = true -> Html.is_digit c = true \/ c = "."%char.
Proof.
  intros H.
  destruct c as [[|] [|] [|] [|] [|] [|] [|] [|]];
    first [left; reflexivity | right; reflexivity | (cbn in H; discriminate H)].
Qed.

Lemma unsigned_start (c : ascii) (r : string) :
  Html.is_digit c = true \/ c = "."%char ->
  JS.trim_start (String c r) = String c r /\
  JS.split_sign (String c r) = (1, String c r).
Proof.
  intros H.
  destruct c as [[|] [|] [|] [|] [|] [|] [|] [|]];
    try (split; reflexivity); destruct H as [H|H]; discriminate H.
Qed.

Lemma valid_unsigned_not_hex (s : string) :
  Html.valid_unsigned s = true -> JS.hex_prefixed s = None.
Proof.
  intros H. destruct s as [|c [|c' r]]; try reflexivity.
  - destruct c as [[|] [|] [|] [|] [|] [|] [|] [|]]; reflexivity.
  - destruct c as [[|] [|] [|] [|] [|] [|] [|] [|]]; try reflexivity.
    destruct c' as [[|] [|] [|] [|] [|] [|] [|] [|]]; try reflexivity;
      cbn in H; discriminate H.
Qed.

Lemma of_uint_D0 (d : Decimal.uint) : Z.of_uint (Decimal.D0 d) = Z.of_uint d.
Proof. reflexivity. Qed.

Lemma mantissa_zero_value (s : string) :
  Html.mantissa_zero s = true -> Z.of_uint (JS.read_uint s) = 0.
Proof.
  induction s as [|c r IH]; [reflexivity|].
  intros H.
  destruct c as [[|] [|] [|] [|] [|] [|] [|] [|]];
    first [ reflexivity
          | discriminate H
          | (cbn [JS.read_uint]; rewrite of_uint_D0; apply IH; exact H) ].
Qed.

Lemma gt_zero_unsigned_zero (s : string) :
  Html.valid_unsigned s = true -> Html.mantissa_zero s = true ->
  JS.gt_zero (JS.parseInt s) = false.
Proof.
  intros Hvalid Hzero.
  destruct s as [|c r]; [reflexivity|].
  destruct (unsigned_start c r (valid_unsigned_first c r Hvalid)) as [Htrim Hsign].
  unfold JS.parseInt. rewrite Htrim, Hsign.
  unfold JS.parse_magnitude. rewrite (valid_unsigned_not_hex _ Hvalid).
  pose proof (mantissa_zero_value _ Hzero) as Hvalue.
  destruct (JS.read_uint (String c r)); [reflexivity| ..];
    simpl; rewrite Hvalue; reflexivity.
Qed.

(** A non-positive number is never read as a positive amount. *)
Lemma gt_zero_non_positive (input : string) :
  Html.non_positive input = true -> JS.gt_zero (JS.parseInt input) = false.
Proof.
  unfold Html.non_positive, Html.numeric. intros H.
  apply andb_prop in H as [Hvalid Hsign].
  destruct input as [|c r]; [reflexivity|].
  destruct (Ascii.eqb_spec c "-") as [->|Hc].
  - apply gt_zero_minus.
  - assert (Hv : Html.valid_unsigned (String c r) = true).
    { revert Hvalid. unfold Html.valid_floating_point_number.
      destruct c as [[|] [|] [|] [|] [|] [|] [|] [|]]; try (intros Hv; exact Hv).
      congruence. }
    assert (Hz : Html.mantissa_zero (String c r) = true).
    { revert Hsign.
      destruct c as [[|] [|] [|] [|] [|] [|] [|] [|]]; intros Hz; exact Hz. }
    apply gt_zero_unsigned_zero; assumption.
Qed.

Lemma handleAddTime_guard (task : Task) (input : string) :
  TaskCard.calls (TaskCard.handleAddTime task input) =
  match JS.parseInt input with
  | Some minutes => if (0 <? minutes)%Z then [UseTasks.addTime (id task) minutes] else []
  | None => []
  end.
Proof.
  unfold TaskCard.handleAddTime.
  destruct (JS.parseInt input) as [m|]; [|reflexivity].
  destruct (0 <? m)%Z; reflexivity.
Qed.

Lemma kanban_handleAddTime_guard (task : Task) (input : string) :
  KanbanTaskCard.calls (KanbanTaskCard.handleAddTime task input) =
  match JS.parseInt input with
  | Some minutes => if (0 <? minutes)%Z then [UseTasks.addTime (id task) minutes] else []
  | None => []
  end.
Proof.
  unfold KanbanTaskCard.handleAddTime.
  destruct (JS.parseInt input) as [m|]; [|reflexivity].
  destruct (0 <? m)%Z; reflexivity.
Qed.

Lemma no_call_when_not_positive (task : Task) (input : string) :
  JS.gt_zero (JS.parseInt input) = false ->
  TaskCard.calls (TaskCard.handleAddTime task input) = [] /\
  KanbanTaskCard.calls (KanbanTaskCard.handleAddTime task input) = [].
Proof.
  intros H. rewrite handleAddTime_guard, kanban_handleAddTime_guard.
  destruct (JS.parseInt input) as [m|]; [|split; reflexivity].
  simpl in H. rewrite H. split; reflexivity.
Qed.

(** [parseInt] stops at the first character that is not a digit: a raw
    string with a positive leading integer is taken for that integer.  The
    number field never reports such a string. *)
Example handleAddTime_reads_leading_integer :
  TaskCard.calls (TaskCard.handleAddTime Sample.t1 "12abc") = [UseTasks.addTime "t1" 12] /\
  Html.field_value "12abc" = "" /\
  TaskCard.calls (TaskCard.handleAddTime Sample.t1 (Html.field_value "12abc")) = [].
Proof. repeat split; reflexivity. Qed.

(** C4: input of the add-time field that is not numeric or not positive
    never reaches the network: for every text typed into the number
    field, the handlers (list view and board) call the add-time mutation
    only when the minutes read from the field's value are greater than
    zero, so text that is not a number, and a number that is zero or
    negative, produce no call. *)
Theorem handleAddTime_rejects (task : Task) (typed : string) :
  Html.numeric typed = false \/ Html.non_positive typed = true ->
  (TaskCard.calls (TaskCard.handleAddTime task (Html.field_value typed)) = [] /\
   KanbanTaskCard.calls (KanbanTaskCard.handleAddTime task (Html.field_value typed)) = []) /\
  (forall input call,
     In call (TaskCard.calls (TaskCard.handleAddTime task input)) \/
     In call (KanbanTaskCard.calls (KanbanTaskCard.handleAddTime task input)) ->
     exists minutes,
       JS.parseInt input = Some minutes /\ 0 < minutes /\
       call = UseTasks.addTime (id task) minutes).
Proof.
  intros Hrejected. split.
  - apply no_call_when_not_positive.
    unfold Html.field_value.
    destruct Hrejected as [Hn|Hn].
    + unfold Html.numeric in Hn. rewrite Hn. reflexivity.
    + pose proof Hn as Hvalid. unfold Html.non_positive, Html.numeric in Hvalid.
      apply andb_prop in Hvalid as [Hvalid _]. rewrite Hvalid.
      apply gt_zero_non_positive. exact Hn.
  - intros input call.
    rewrite handleAddTime_guard, kanban_handleAddTime_guard.
    destruct (JS.parseInt input) as [m|]; [|simpl; tauto].
    destruct (0 <? m)%Z eqn:Hm; [|simpl; tauto].
    apply Z.ltb_lt in Hm. simpl.
    intros [[<-|[]]|[<-|[]]]; exists m; auto.
Qed.

Lemma handleAddTime_rejects_witness :
  TaskCard.calls (TaskCard.handleAddTime Sample.t1 (Html.field_value "-15")) = [] /\
  TaskCard.calls (TaskCard.handleAddTime Sample.t1 (Html.field_value "soon")) = [].
Proof.
  split.
  - apply (handleAddTime_rejects Sample.t1 "-15"). right. vm_compute. reflexivity.
  - apply (handleAddTime_rejects Sample.t1 "soon"). left. vm_compute. reflexivity.
Defined.

(** ** The notification of the add-time hook *)

Lemma string_app_cons (c : ascii) (a b : string) :
  String c a +:+ b = String c (a +:+ b).
Proof. reflexivity. Qed.

Lemma string_length_app (a b : string) :
  String.length (a +:+ b) = (String.length a + String.length b)%nat.
Proof.
  induction a as [|c a IH]; [reflexivity|].
  rewrite string_app_cons. cbn [String.length]. rewrite IH. reflexivity.
Qed.

Lemma string_app_cancel_r (x y z : string) : x +:+ z = y +:+ z -> x = y.
Proof.
  revert y. induction x as [|c x IH]; intros [|d y] H.
  - reflexivity.
  - apply (f_equal String.length) in H.
    rewrite !string_length_app in H. cbn [String.length] in H. lia.
  - apply (f_equal String.length) in H.
    rewrite !string_length_app in H. cbn [String.length] in H. lia.
  - rewrite !string_app_cons in H. injection H as -> H. f_equal. apply IH. exact H.
Qed.

(** C10: after a successful add-time mutation the notification reads "+",
    the total of the returned task, "min logged": the running total, not
    the minutes just added.  With the returned total being the prior total
    plus the added minutes, the text equals the one for the added minutes
    exactly when the prior total was zero. *)
Theorem addTime_toast_shows_total (returned : Task) (prior minutes : Z) :
  total_minutes returned = prior + minutes ->
  let shown := "+" +:+ JS.Number_toString (total_minutes returned) +:+ "min logged" in
  UseTasks.successHandler UseTasks.AddTimeToTask returned =
    [ReactQuery.InvalidateQueries ["tasks"]; ReactQuery.ToastSuccess shown] /\
  (shown = "+" +:+ JS.Number_toString minutes +:+ "min logged" <-> prior = 0).
Proof.
  intros Htotal shown. split; [reflexivity|].
  subst shown. split.
  - intros H. rewrite !string_app_cons in H. injection H as H.
    change ("" +:+ ?a) with a in H.
    apply string_app_cancel_r, Number_toString_inj in H. lia.
  - intros ->. rewrite Htotal. reflexivity.
Qed.

Lemma addTime_toast_shows_total_witness :
  UseTasks.successHandler UseTasks.AddTimeToTask (Sample.task "t2" "TODO" 45) =
    [ReactQuery.InvalidateQueries ["tasks"]; ReactQuery.ToastSuccess "+45min logged"] /\
  ("+45min logged" = "+15min logged" <-> 30 = 0).
Proof.
  apply (addTime_toast_shows_total (Sample.task "t2" "TODO" 45) 30 15). reflexivity.
Defined.

(** ** The cache under the handlers of the task hooks *)

Section Cache.
Import ReactQuery.

Lemma run_app (now : Z) (c : Client) (es fs : list Effect) :
  run now c (es ++ fs) = run now (run now c es) fs.
Proof. unfold run. apply fold_left_app. Qed.

Lemma run_cons (now : Z) (c : Client) (e : Effect) (es : list Effect) :
  run now c (e :: es) = run now (step now c e) es.
Proof. reflexivity. Qed.

Lemma invalidate_marks (now : Z) (c : Client) (filter key : QueryKey) :
  matches filter key = true ->
  marked (cache (step now c (InvalidateQueries filter))) key.
Proof.
  intros Hm q. cbn [step cache]. rewrite map_lookup_imap.
  destruct (cache c !! key) as [q0|]; simpl; [|discriminate].
  intros [= <-]. unfold invalidate. rewrite Hm. reflexivity.
Qed.

Lemma step_keeps_marked (now : Z) (c : Client) (e : Effect) (key : QueryKey) :
  writes_cache e = false ->
  marked (cache c) key -> marked (cache (step now c e)) key.
Proof.
  intros He Hmarked q. destruct e; cbn [step cache]; try discriminate He; try apply Hmarked.
  rewrite map_lookup_imap.
  destruct (cache c !! key) as [q0|] eqn:E; simpl; [|discriminate].
  intros [= <-]. unfold invalidate.
  destruct (matches queryKey0 key); [reflexivity|]. apply Hmarked. exact E.
Qed.

Lemma run_keeps_marked (now : Z) (es : list Effect) (c : Client) (key : QueryKey) :
  forallb (fun e => negb (ReactQuery.writes_cache e)) es = true ->
  marked (cache c) key -> marked (cache (run now c es)) key.
Proof.
  revert c. induction es as [|e es IH]; intros c Hes Hmarked; [exact Hmarked|].
  simpl in Hes. apply andb_prop in Hes as [He Hes].
  apply negb_true_iff in He.
  apply (IH (step now c e) Hes). apply step_keeps_marked; assumption.
Qed.

Lemma read_marked (staleTime now : Z) (c : QueryCache) (key : QueryKey) :
  marked c key -> exists shown, read staleTime now c key = Refetch shown.
Proof.
  intros Hmarked. unfold read.
  destruct (c !! key) as [q|] eqn:E; [|eauto].
  unfold isStale. rewrite (Hmarked q E). simpl. eauto.
Qed.

Lemma toasts_keep_cache (now : Z) (es : list Effect) (c : Client) :
  forallb is_toast es = true -> cache (run now c es) = cache c.
Proof.
  revert c. induction es as [|e es IH]; intros c Hes; [reflexivity|].
  simpl in Hes. apply andb_prop in Hes as [He Hes].
  change (run now c (e :: es)) with (run now (step now c e) es).
  rewrite (IH _ Hes). destruct e; try discriminate He; reflexivity.
Qed.

End Cache.

(** C1: each of the five task mutation hooks invalidates the "tasks" key
    in its success handler, and no handler of these hooks writes data
    into the cache; so, after a successful mutation (whose own call adds
    no cache write), the next read of the task collection, and of any
    single task, goes to the network. *)
Theorem task_mutations_invalidate (h : UseTasks.Hook) (returned : Task)
    (call : ReactQuery.MutateOptions) :
  forallb (fun e => negb (ReactQuery.writes_cache e)) (ReactQuery.call_onSuccess call) = true ->
  In h UseTasks.hooks /\
  In (ReactQuery.InvalidateQueries ["tasks"]) (UseTasks.successHandler h returned) /\
  forallb (fun e => negb (ReactQuery.writes_cache e))
    (UseTasks.successHandler h returned ++ UseTasks.errorHandler h) = true /\
  forall (client : ReactQuery.Client) (now staleTime later : Z) (id : string),
    let after :=
      ReactQuery.run now client (UseTasks.complete h call (ReactQuery.Resolved returned)) in
    (exists shown,
       ReactQuery.read staleTime later (ReactQuery.cache after) ["tasks"] =
       ReactQuery.Refetch shown) /\
    (exists shown,
       ReactQuery.read staleTime later (ReactQuery.cache after) ["tasks"; id] =
       ReactQuery.Refetch shown).
Proof.
  intros Hcall.
  split; [destruct h; simpl; tauto|].
  split; [destruct h; simpl; tauto|].
  split; [destruct h; reflexivity|].
  intros client now staleTime later id after.
  assert (Hmarked : forall key, ReactQuery.matches ["tasks"] key = true ->
                      ReactQuery.marked (ReactQuery.cache after) key).
  { intros key Hkey. subst after. unfold UseTasks.complete.
    rewrite run_app. apply run_keeps_marked; [exact Hcall|].
    destruct h; cbn [UseTasks.successHandler ReactQuery.onSuccess
                     UseTasks.useCreateTask UseTasks.useUpdateTask
                     UseTasks.useUpdateTaskStatus UseTasks.useAddTimeToTask
                     UseTasks.useDeleteTask];
      rewrite run_cons; (apply run_keeps_marked; [reflexivity|]);
      apply invalidate_marks; exact Hkey. }
  split; apply read_marked, Hmarked; reflexivity.
Qed.

Lemma task_mutations_invalidate_witness :
  exists shown,
    ReactQuery.read (1000 * 60 * 5) 1000
      (ReactQuery.cache
         (ReactQuery.run 1000 (Sample.cached Sample.tasks 0)
            (UseTasks.complete UseTasks.AddTimeToTask ReactQuery.no_callbacks
               (ReactQuery.Resolved (Sample.task "t1" "TODO" 20)))))
      ["tasks"] = ReactQuery.Refetch shown.
Proof.
  apply (task_mutations_invalidate UseTasks.AddTimeToTask (Sample.task "t1" "TODO" 20)
           ReactQuery.no_callbacks eq_refl).
  exact "".
Defined.

(** ** Outcome of a request *)

Section Request.

Variables (baseURL : string) (storage : ApiClient.LocalStorage) (fetch : ApiClient.Fetch).
Variables (endpoint : string) (options : ApiClient.RequestInit).

Let result := snd (ApiClient.request baseURL storage fetch endpoint options).

Lemma request_sent :
  fst (ApiClient.request baseURL storage fetch endpoint options) =
  {| ApiClient.url := baseURL +:+ endpoint;
     ApiClient.init := ApiClient.config storage options |}.
Proof. reflexivity. Qed.

Lemma request_responds (r : ApiClient.Response) :
  fetch (baseURL +:+ endpoint) (ApiClient.config storage options) = ApiClient.Responds r ->
  result =
  if ApiClient.ok r
  then match ApiClient.json r with
       | Some value => ApiClient.Returns value
       | None => ApiClient.Throws ApiClient.SyntaxError
       end
  else ApiClient.Throws (ApiClient.new_Error (ApiClient.errorMessage r)).
Proof.
  intros H. subst result. unfold ApiClient.request. cbn [snd]. rewrite H.
  destruct (ApiClient.ok r); [destruct (ApiClient.json r)|]; reflexivity.
Qed.

(** Whatever [fetch] does, a call of [request] either returns a value or
    throws an [Error]. *)
Lemma request_rejects (t : ApiClient.Thrown) :
  fetch (baseURL +:+ endpoint) (ApiClient.config storage options) = ApiClient.Rejects t ->
  exists e, result = ApiClient.Throws e.
Proof.
  intros H. subst result. unfold ApiClient.request. cbn [snd]. rewrite H.
  destruct t; cbn [ApiClient.rethrow]; eauto.
Qed.

(** A body that cannot be read is handled as a rejection of [fetch] is,
    whatever the status. *)
Lemma request_unreadable (status : Z) (statusText : string) (t : ApiClient.Thrown) :
  fetch (baseURL +:+ endpoint) (ApiClient.config storage options) =
    ApiClient.Unreadable status statusText t ->
  result = ApiClient.rethrow t.
Proof.
  intros H. subst result. unfold ApiClient.request. cbn [snd]. rewrite H. reflexivity.
Qed.

End Request.

Lemma errorMessage_by_fields (r : ApiClient.Response) :
  ApiClient.errorMessage r =
  match ApiClient.truthy_field r "detail" with
  | Some detail => detail
  | None =>
      match ApiClient.truthy_field r "message" with
      | Some message => message
      | None => JS.Str (ApiClient.fallbackMessage r)
      end
  end.
Proof.
  unfold ApiClient.errorMessage, ApiClient.truthy_field.
  destruct (ApiClient.json r) as [body|]; [|reflexivity].
  destruct body; try reflexivity.
  unfold JS.get.
  destruct (JS.assoc "detail" props) as [d|]; [destruct (JS.truthy d); [reflexivity|]|];
    destruct (JS.assoc "message" props) as [m|]; try reflexivity;
    destruct (JS.truthy m); reflexivity.
Qed.

Lemma new_Error_text (v : JS.Value) (text : string) :
  Coercion.ToString v = Some text -> ApiClient.new_Error v = ApiClient.mkError text.
Proof. intros H. unfold ApiClient.new_Error. rewrite H. reflexivity. Qed.

(** C6, as the code has it by design: for a response that is not
    successful the client throws an [Error] whose message is the text of
    the body's "detail" field if that is truthy (the field itself when it
    is a string), otherwise of its "message" field if that is truthy,
    otherwise "HTTP {status}: {statusText}" (also when the body is not
    JSON, or is [null]); for a successful response whose body is JSON it
    returns the parsed body. *)
Theorem request_outcome (baseURL : string) (storage : ApiClient.LocalStorage)
    (fetch : ApiClient.Fetch) (endpoint : string) (options : ApiClient.RequestInit)
    (r : ApiClient.Response) :
  fetch (baseURL +:+ endpoint) (ApiClient.config storage options) = ApiClient.Responds r ->
  let result := snd (ApiClient.request baseURL storage fetch endpoint options) in
  let fallback :=
    "HTTP " +:+ JS.Number_toString (ApiClient.status r) +:+ ": " +:+ ApiClient.statusText r in
  let taken :=
    match ApiClient.truthy_field r "detail" with
    | Some detail => Some detail
    | None => ApiClient.truthy_field r "message"
    end in
  (ApiClient.ok r = true ->
     forall value, ApiClient.json r = Some value -> result = ApiClient.Returns value) /\
  (ApiClient.ok r = false ->
     forall field text, taken = Some field -> Coercion.ToString field = Some text ->
     result = ApiClient.Throws (ApiClient.mkError text)) /\
  (ApiClient.ok r = false -> taken = None ->
     result = ApiClient.Throws (ApiClient.mkError fallback)) /\
  (ApiClient.ok r = false -> ApiClient.json r = None \/ ApiClient.json r = Some JS.Null ->
     result = ApiClient.Throws (ApiClient.mkError fallback)) /\
  (forall props detail,
     ApiClient.ok r = false -> ApiClient.json r = Some (JS.Object props) ->
     JS.assoc "detail" props = Some (JS.Str detail) -> detail <> "" ->
     result = ApiClient.Throws (ApiClient.mkError detail)) /\
  (forall props message,
     ApiClient.ok r = false -> ApiClient.json r = Some (JS.Object props) ->
     JS.assoc "detail" props = None ->
     JS.assoc "message" props = Some (JS.Str message) -> message <> "" ->
     result = ApiClient.Throws (ApiClient.mkError message)).
Proof.
  intros Hfetch result fallback taken.
  pose proof (request_responds baseURL storage fetch endpoint options r Hfetch) as H.
  fold result in H.
  split; [|split; [|split; [|split; [|split]]]].
  - intros Hok value Hvalue. rewrite Hok, Hvalue in H. exact H.
  - intros Hok field text Htaken Htext. rewrite Hok in H.
    rewrite H, errorMessage_by_fields. subst taken.
    destruct (ApiClient.truthy_field r "detail") as [d|].
    + injection Htaken as ->. rewrite (new_Error_text _ _ Htext). reflexivity.
    + rewrite Htaken, (new_Error_text _ _ Htext). reflexivity.
  - intros Hok Htaken. rewrite Hok in H. rewrite H, errorMessage_by_fields. subst taken.
    destruct (ApiClient.truthy_field r "detail") as [d|]; [discriminate|].
    rewrite Htaken. reflexivity.
  - intros Hok Hbody. rewrite Hok in H. rewrite H. unfold ApiClient.errorMessage.
    destruct Hbody as [-> | ->]; reflexivity.
  - intros props detail Hok Hbody Hdetail Hnonempty. rewrite Hok in H. rewrite H.
    unfold ApiClient.errorMessage. rewrite Hbody. unfold JS.get. rewrite Hdetail.
    cbn [JS.truthy]. destruct (String.eqb_spec detail ""); [contradiction|reflexivity].
  - intros props message Hok Hbody Hdetail Hmessage Hnonempty. rewrite Hok in H. rewrite H.
    unfold ApiClient.errorMessage. rewrite Hbody. unfold JS.get. rewrite Hdetail, Hmessage.
    cbn [JS.truthy]. destruct (String.eqb_spec message ""); [contradiction|reflexivity].
Qed.

Lemma request_outcome_witness :
  snd (ApiClient.request Sample.baseURL ∅ (Sample.always Sample.server_error)
         "/tasks/t1/status" (ApiClient.with_body "PATCH" "{}")) =
  ApiClient.Throws (ApiClient.mkError "Database unavailable").
Proof.
  destruct (request_outcome Sample.baseURL ∅ (Sample.always Sample.server_error)
              "/tasks/t1/status" (ApiClient.with_body "PATCH" "{}") Sample.server_error eq_refl)
    as (_ & Htaken & _).
  apply (Htaken eq_refl (JS.Str "Database unavailable")); reflexivity.
Defined.

(** C6 as stated does not hold: a "detail" field that is present but
    empty is passed over for the "message" field. *)
Lemma request_outcome_not_as_stated :
  ApiClient.ok Sample.empty_detail = false /\
  JS.get (JS.Object [("detail", JS.Str ""); ("message", JS.Str "Not allowed")]) "detail" =
    JS.Found (JS.Str "") /\
  snd (ApiClient.request Sample.baseURL ∅ (Sample.always Sample.empty_detail)
         "/tasks/t1" ApiClient.no_options) =
    ApiClient.Throws (ApiClient.mkError "Not allowed") /\
  ~ Stated.outcome Sample.empty_detail
      (snd (ApiClient.request Sample.baseURL ∅ (Sample.always Sample.empty_detail)
              "/tasks/t1" ApiClient.no_options)).
Proof.
  split; [reflexivity|]. split; [reflexivity|]. split; [reflexivity|].
  unfold Stated.outcome. cbn. intros (text & Htext & H).
  injection Htext as <-. discriminate H.
Qed.

(** Two cases the statement above leaves open.  A field that is truthy
    but has no text (an object with a property "toString") makes the
    construction of the error throw a TypeError, which is what the caller
    gets; and a successful response without a JSON body (204 No Content,
    as a deletion may be answered) makes the client throw the parse
    error, so that the caller sees a failure. *)
Example request_detail_without_text :
  snd (ApiClient.request Sample.baseURL ∅ (Sample.always Sample.odd_detail)
         "/tasks/t1" ApiClient.no_options) =
  ApiClient.Throws (ApiClient.TypeError ApiClient.conversion_failure).
Proof. reflexivity. Qed.

Example request_success_without_body :
  ApiClient.ok Sample.no_content = true /\
  snd (ApiClient.perform Sample.baseURL ∅ (Sample.always Sample.no_content)
         (ApiClient.deleteTask "t1")) = ApiClient.Throws ApiClient.SyntaxError.
Proof. split; reflexivity. Qed.

(** ** Headers of a request *)

Lemma getHeaders_content_type (storage : ApiClient.LocalStorage) :
  ApiClient.getHeaders storage !! "Content-Type" = Some "application/json".
Proof.
  unfold ApiClient.getHeaders.
  destruct (ApiClient.getItem storage "access_token") as [token|]; [|reflexivity].
  destruct (negb (String.eqb token "")); [|reflexivity].
  rewrite lookup_insert_ne by discriminate. reflexivity.
Qed.

Lemma getHeaders_authorization (storage : ApiClient.LocalStorage) :
  ApiClient.getHeaders storage !! "Authorization" =
  match ApiClient.getItem storage "access_token" with
  | Some token => if String.eqb token "" then None else Some ("Bearer " +:+ token)
  | None => None
  end.
Proof.
  unfold ApiClient.getHeaders.
  destruct (ApiClient.getItem storage "access_token") as [token|]; [|reflexivity].
  destruct (String.eqb token ""); simpl; [reflexivity|].
  apply lookup_insert_eq.
Qed.

Lemma getHeaders_other (storage : ApiClient.LocalStorage) (name : string) :
  name <> "Content-Type" -> name <> "Authorization" ->
  ApiClient.getHeaders storage !! name = None.
Proof.
  intros Hc Ha. unfold ApiClient.getHeaders.
  destruct (ApiClient.getItem storage "access_token") as [token|];
    [destruct (negb (String.eqb token ""))|];
    rewrite ?lookup_insert_ne by congruence;
    apply lookup_singleton_ne; congruence.
Qed.

(** Headers given by the caller are kept, the client's fill the rest. *)
Lemma config_headers (storage : ApiClient.LocalStorage) (options : ApiClient.RequestInit)
    (name : string) :
  ApiClient.headers (ApiClient.config storage options) ≫= (.!! name) =
  match ApiClient.headers options ≫= (.!! name) with
  | Some given => Some given
  | None => ApiClient.getHeaders storage !! name
  end.
Proof.
  unfold ApiClient.config. cbn [ApiClient.headers mbind option_bind].
  destruct (ApiClient.headers options) as [given|];
    unfold default; cbn [from_option mbind option_bind]; unfold Datatypes.id.
  - rewrite lookup_union. destruct (given !! name); [|rewrite (left_id_L None _); reflexivity].
    destruct (ApiClient.getHeaders storage !! name); reflexivity.
  - rewrite (left_id_L ∅ (∪)). reflexivity.
Qed.

Lemma operations_give_no_headers (op : ApiClient.Operation) :
  ApiClient.headers (ApiClient.options op) = None.
Proof. destruct op; reflexivity. Qed.

(** C7, as the code has it: every operation of the client that goes
    through [request] sends exactly the client's headers: Content-Type
    "application/json", and Authorization "Bearer " followed by the stored
    token when a non-empty token is stored; when no token is stored, or
    the stored token is the empty string, no Authorization header is
    sent. *)
Theorem request_headers (baseURL : string) (storage : ApiClient.LocalStorage)
    (fetch : ApiClient.Fetch) (op : ApiClient.Operation) :
  let sent := fst (ApiClient.perform baseURL storage fetch op) in
  ApiClient.headers (ApiClient.init sent) = Some (ApiClient.getHeaders storage) /\
  ApiClient.getHeaders storage !! "Content-Type" = Some "application/json" /\
  (forall token,
     ApiClient.getItem storage "access_token" = Some token -> token <> "" ->
     ApiClient.getHeaders storage !! "Authorization" = Some ("Bearer " +:+ token)) /\
  (ApiClient.getItem storage "access_token" = None \/
   ApiClient.getItem storage "access_token" = Some "" ->
   ApiClient.getHeaders storage !! "Authorization" = None) /\
  (forall name, name <> "Content-Type" -> name <> "Authorization" ->
     ApiClient.getHeaders storage !! name = None).
Proof.
  intros sent. split; [|split; [|split; [|split]]].
  - subst sent. unfold ApiClient.perform. rewrite request_sent.
    unfold ApiClient.config. cbn [ApiClient.init ApiClient.headers].
    rewrite operations_give_no_headers. unfold default. cbn [from_option].
    rewrite (left_id_L ∅ (∪)). reflexivity.
  - apply getHeaders_content_type.
  - intros token Hstored Hnonempty. rewrite getHeaders_authorization, Hstored.
    destruct (String.eqb_spec token ""); [contradiction|reflexivity].
  - intros Hstored. rewrite getHeaders_authorization.
    destruct Hstored as [-> | ->]; reflexivity.
  - apply getHeaders_other.
Qed.

Lemma request_headers_witness :
  ApiClient.getHeaders (Sample.with_token "abc.def.ghi") !! "Authorization" =
  Some "Bearer abc.def.ghi".
Proof.
  destruct (request_headers Sample.baseURL (Sample.with_token "abc.def.ghi")
              (Sample.always Sample.server_error) ApiClient.getTasks)
    as (_ & _ & Hbearer & _).
  apply (Hbearer "abc.def.ghi").
  - reflexivity.
  - discriminate.
Defined.

(** C7 as stated does not hold: with the empty string stored as the token
    the statement asks for the header "Bearer ", and the request carries
    no Authorization header. *)
Lemma empty_token_sends_no_authorization :
  ApiClient.getItem (Sample.with_token "") "access_token" = Some "" /\
  Stated.authorization (Sample.with_token "") = Some "Bearer " /\
  ApiClient.headers
    (ApiClient.init
       (fst (ApiClient.perform Sample.baseURL (Sample.with_token "")
               (Sample.always Sample.server_error) ApiClient.getTasks)))
    ≫= (.!! "Authorization") = None /\
  ApiClient.headers
    (ApiClient.init
       (fst (ApiClient.perform Sample.baseURL (Sample.with_token "")
               (Sample.always Sample.server_error) ApiClient.getTasks)))
    ≫= (.!! "Authorization") <> Stated.authorization (Sample.with_token "").
Proof.
  assert (H : ApiClient.headers
    (ApiClient.init
       (fst (ApiClient.perform Sample.baseURL (Sample.with_token "")
               (Sample.always Sample.server_error) ApiClient.getTasks)))
    ≫= (.!! "Authorization") = None).
  { unfold ApiClient.perform. rewrite request_sent. cbn [ApiClient.init].
    rewrite config_headers, getHeaders_authorization. reflexivity. }
  split; [reflexivity|]. split; [reflexivity|]. split; [exact H|].
  rewrite H. discriminate.
Qed.

(** ** Drag and drop on the board *)

Lemma handleDragEnd_calls (tasks : option (list Task)) (event : Kanban.DragEndEvent) :
  Kanban.calls (Kanban.handleDragEnd tasks event) =
  match Kanban.over event, Kanban.find_task tasks (Kanban.active event) with
  | Some newStatus, Some task =>
      if String.eqb (status task) newStatus then []
      else [UseTasks.updateStatus (Kanban.active event) newStatus
              {| ReactQuery.call_onSuccess :=
                   [ReactQuery.ToastSuccess (Kanban.moved_message newStatus)];
                 ReactQuery.call_onError :=
                   [ReactQuery.ToastError "Failed to update task status"] |}]
  | _, _ => []
  end.
Proof.
  unfold Kanban.handleDragEnd. cbn [Kanban.calls].
  destruct (Kanban.over event) as [newStatus|]; [|reflexivity].
  destruct (Kanban.find_task tasks (Kanban.active event)) as [task|]; [|reflexivity].
  destruct (String.eqb (status task) newStatus); reflexivity.
Qed.

(** Released over a column zone (or over nothing), the dragged task is
    moved exactly as the board intends: no call without a target, for an
    unknown id, or for the task's own column; otherwise one call, for the
    target column. *)
Lemma handleDragEnd_over_column (tasks : option (list Task)) (activeId : string)
    (target : option string) :
  let event := Kanban.drop activeId (option_map Kanban.ColumnZone target) in
  match target, Kanban.find_task tasks activeId with
  | Some column, Some task =>
      if String.eqb (status task) column
      then Kanban.calls (Kanban.handleDragEnd tasks event) = []
      else exists options,
             Kanban.calls (Kanban.handleDragEnd tasks event) =
             [UseTasks.updateStatus activeId column options]
  | _, _ => Kanban.calls (Kanban.handleDragEnd tasks event) = []
  end.
Proof.
  intros event. rewrite handleDragEnd_calls. subst event.
  destruct target as [column|]; cbn [Kanban.drop Kanban.over Kanban.active option_map
                                     Kanban.droppable_id]; [|reflexivity].
  destruct (Kanban.find_task tasks activeId) as [task|]; [|reflexivity].
  destruct (String.eqb (status task) column); [reflexivity|eauto].
Qed.

(** Released over a card, the handler takes the card's id for a status. *)
Lemma handleDragEnd_over_card (tasks : list Task) (dragged target : Task) :
  Kanban.find_task (Some tasks) (id dragged) = Some dragged ->
  status dragged <> id target ->
  exists options,
    Kanban.calls (Kanban.handleDragEnd (Some tasks)
                    (Kanban.drop (id dragged) (Some (Kanban.CardZone target)))) =
    [UseTasks.updateStatus (id dragged) (id target) options].
Proof.
  intros Hfound Hdiff. rewrite handleDragEnd_calls.
  cbn [Kanban.drop Kanban.over Kanban.active option_map Kanban.droppable_id].
  rewrite Hfound. destruct (String.eqb_spec (status dragged) (id target)); [contradiction|].
  eauto.
Qed.

(** C3 on the code: a task released over a card of its own column (here
    over its own card, a drop zone of the board) has a drop target whose
    column is the task's current status, yet one status update is
    requested, and the status requested is the id of the card.  Released
    over a card of another column, the request again names the card's id,
    not the column. *)
Theorem handleDragEnd_card_in_own_column :
  let tasks := Some Sample.tasks in
  let own := Kanban.CardZone Sample.t1 in
  let other := Kanban.CardZone Sample.t3 in
  In own (Kanban.droppables tasks) /\
  In other (Kanban.droppables tasks) /\
  Kanban.find_task tasks "t1" = Some Sample.t1 /\
  Kanban.column_of own = status Sample.t1 /\
  Kanban.calls (Kanban.handleDragEnd tasks (Kanban.drop "t1" (Some own))) =
  [UseTasks.updateStatus "t1" "t1"
     {| ReactQuery.call_onSuccess := [ReactQuery.ToastSuccess "Task moved to t1!"];
        ReactQuery.call_onError := [ReactQuery.ToastError "Failed to update task status"] |}] /\
  Kanban.column_of other = TaskStatus.DONE /\
  Kanban.calls (Kanban.handleDragEnd tasks (Kanban.drop "t1" (Some other))) =
  [UseTasks.updateStatus "t1" "t3"
     {| ReactQuery.call_onSuccess := [ReactQuery.ToastSuccess "Task moved to t3!"];
        ReactQuery.call_onError := [ReactQuery.ToastError "Failed to update task status"] |}].
Proof.
  cbv zeta. repeat split; try reflexivity; vm_compute; tauto.
Qed.

(** ** A failed status update *)

Lemma run_toasts (now : Z) (es : list ReactQuery.Effect) (c : ReactQuery.Client) :
  ReactQuery.toasts (ReactQuery.run now c es) =
  (ReactQuery.toasts c ++ ReactQuery.notifications es)%list.
Proof.
  revert c. induction es as [|e es IH]; intros c.
  - simpl. rewrite app_nil_r. reflexivity.
  - rewrite run_cons, IH. destruct e; cbn [ReactQuery.step ReactQuery.toasts
                                            ReactQuery.notifications];
      rewrite <- ?app_assoc; reflexivity.
Qed.

Lemma perform_server_error (baseURL : string) (storage : ApiClient.LocalStorage)
    (fetch : ApiClient.Fetch) (op : ApiClient.Operation) (r : ApiClient.Response) :
  fetch (baseURL +:+ ApiClient.endpoint op)
        (ApiClient.config storage (ApiClient.options op)) = ApiClient.Responds r ->
  ApiClient.ok r = false ->
  snd (ApiClient.perform baseURL storage fetch op) =
  ApiClient.Throws (ApiClient.new_Error (ApiClient.errorMessage r)).
Proof.
  intros Hfetch Hok. unfold ApiClient.perform.
  rewrite (request_responds _ _ _ _ _ r Hfetch), Hok. reflexivity.
Qed.

(** C5: when a status update fails (the request is answered with an
    error status), the handlers that run only show error notifications:
    that of the hook, then those of the call.  The cache is left as it
    was, so every read gives what it gave before; invalidation is done by
    the success handler alone. *)
Theorem status_update_failure (call : ReactQuery.MutateOptions)
    (client : ReactQuery.Client) (now : Z) :
  forallb ReactQuery.is_toast (ReactQuery.call_onError call) = true ->
  let failed := UseTasks.complete UseTasks.UpdateTaskStatus call ReactQuery.Rejected in
  let after := ReactQuery.run now client failed in
  UseTasks.errorHandler UseTasks.UpdateTaskStatus =
    [ReactQuery.ToastError "Failed to update status"] /\
  (forall returned,
     filter ReactQuery.invalidates (UseTasks.successHandler UseTasks.UpdateTaskStatus returned)
     = [ReactQuery.InvalidateQueries ["tasks"]]) /\
  ReactQuery.cache after = ReactQuery.cache client /\
  (forall staleTime later key,
     ReactQuery.read staleTime later (ReactQuery.cache after) key =
     ReactQuery.read staleTime later (ReactQuery.cache client) key) /\
  ReactQuery.toasts after =
    (ReactQuery.toasts client ++
     ReactQuery.Failure "Failed to update status" ::
     ReactQuery.notifications (ReactQuery.call_onError call))%list /\
  (forall baseURL storage fetch as_task id payload r,
     fetch (baseURL +:+ "/tasks/" +:+ id +:+ "/status")
           (ApiClient.config storage (ApiClient.with_body "PATCH" payload))
       = ApiClient.Responds r ->
     ApiClient.ok r = false ->
     UseTasks.mutate baseURL storage fetch as_task UseTasks.UpdateTaskStatus id payload call
     = failed).
Proof.
  intros Hcall failed after.
  assert (Hcache : ReactQuery.cache after = ReactQuery.cache client).
  { subst after failed. apply toasts_keep_cache. cbn. exact Hcall. }
  split; [reflexivity|]. split; [reflexivity|]. split; [exact Hcache|].
  split; [intros; rewrite Hcache; reflexivity|]. split.
  - subst after failed. rewrite run_toasts. reflexivity.
  - intros baseURL storage fetch as_task id payload r Hfetch Hok.
    unfold UseTasks.mutate. cbn [UseTasks.mutationFn].
    rewrite (perform_server_error baseURL storage fetch
               (ApiClient.updateTaskStatus id payload) r Hfetch Hok).
    reflexivity.
Qed.

(** The calls issued by the board and by the list card carry only
    notifications as their error handlers. *)
Lemma status_calls_only_notify (id s : string) (options : ReactQuery.MutateOptions) :
  (exists tasks event,
     In (UseTasks.updateStatus id s options) (Kanban.calls (Kanban.handleDragEnd tasks event))) \/
  (exists task,
     In (UseTasks.updateStatus id s options) (TaskCard.calls (TaskCard.handleStatusChange task))) ->
  forallb ReactQuery.is_toast (ReactQuery.call_onError options) = true.
Proof.
  intros [(tasks & event & H)|(task & H)].
  - rewrite handleDragEnd_calls in H.
    destruct (Kanban.over event); [|destruct H].
    destruct (Kanban.find_task tasks (Kanban.active event)); [|destruct H].
    destruct (String.eqb (status t) s0); [destruct H|].
    destruct H as [[= <- <- <-]|[]]. reflexivity.
  - destruct H as [[= <- <- <-]|[]]. reflexivity.
Qed.

Lemma status_update_failure_witness :
  ReactQuery.run 1000 (Sample.cached Sample.tasks 0)
    (UseTasks.mutate Sample.baseURL (Sample.with_token "abc.def.ghi")
       (Sample.always Sample.server_error) Sample.as_task
       UseTasks.UpdateTaskStatus "t1" "{}"
       {| ReactQuery.call_onSuccess := [ReactQuery.ToastSuccess "Task moved to done!"];
          ReactQuery.call_onError := [ReactQuery.ToastError "Failed to update task status"] |})
  = {| ReactQuery.cache := ReactQuery.cache (Sample.cached Sample.tasks 0);
       ReactQuery.toasts := [ReactQuery.Failure "Failed to update status";
                             ReactQuery.Failure "Failed to update task status"] |}.
Proof.
  set (call := {| ReactQuery.call_onSuccess := [ReactQuery.ToastSuccess "Task moved to done!"];
                   ReactQuery.call_onError :=
                     [ReactQuery.ToastError "Failed to update task status"] |}).
  destruct (status_update_failure call (Sample.cached Sample.tasks 0) 1000 eq_refl)
    as (_ & _ & Hcache & _ & Htoasts & Hrequest).
  rewrite (Hrequest Sample.baseURL (Sample.with_token "abc.def.ghi")
             (Sample.always Sample.server_error) Sample.as_task "t1" "{}"
             Sample.server_error eq_refl eq_refl).
  destruct (ReactQuery.run 1000 (Sample.cached Sample.tasks 0)
              (UseTasks.complete UseTasks.UpdateTaskStatus call ReactQuery.Rejected))
    as [c t].
  cbn [ReactQuery.cache ReactQuery.toasts] in Hcache, Htoasts.
  rewrite Hcache, Htoasts. reflexivity.
Defined.

(** ** Retries *)

Lemma execute_never (outcome : nat -> bool) :
  ReactQuery.execute 0 outcome = (1%nat, outcome 0%nat).
Proof. unfold ReactQuery.execute. simpl. destruct (outcome 0%nat); reflexivity. Qed.

(** C8: the query client sets one retry for queries and nothing for
    mutations; every query of the sources therefore has retry count one
    (a query function that keeps failing is called twice), and no mutation
    hook sets a retry, so the count in force for every mutation is zero: a
    mutation function is called once, whatever its outcome. *)
Theorem retry_configuration :
  (ReactQuery.queries App.queryClient ≫= ReactQuery.default_query_retry) = Some 1%nat /\
  ReactQuery.mutations App.queryClient = None /\
  (forall id q, In q (all_queries id) ->
     ReactQuery.resolve_query_retry App.queryClient q = 1%nat) /\
  (forall msg retry, In retry (all_mutation_retries msg) ->
     retry = None /\ mutation_retry_in_force App.queryClient retry = 0%nat) /\
  (forall outcome, (forall n, outcome n = false) ->
     ReactQuery.execute 1 outcome = (2%nat, false)) /\
  (forall outcome msg retry, In retry (all_mutation_retries msg) ->
     ReactQuery.execute (mutation_retry_in_force App.queryClient retry) outcome =
     (1%nat, outcome 0%nat)).
Proof.
  split; [reflexivity|]. split; [reflexivity|]. split; [|split; [|split]].
  - intros id q Hq. simpl in Hq.
    repeat destruct Hq as [<-|Hq]; try reflexivity. destruct Hq.
  - intros msg retry Hr. simpl in Hr.
    repeat destruct Hr as [<-|Hr]; try (split; reflexivity). destruct Hr.
  - intros outcome Hfail. unfold ReactQuery.execute. simpl. rewrite !Hfail. reflexivity.
  - intros outcome msg retry Hr. simpl in Hr.
    repeat destruct Hr as [<-|Hr]; try apply execute_never. destruct Hr.
Qed.

Lemma retry_configuration_witness :
  ReactQuery.execute
    (ReactQuery.resolve_query_retry App.queryClient UseTasks.useTasks) (fun _ => false)
  = (2%nat, false) /\
  ReactQuery.execute
    (mutation_retry_in_force App.queryClient (UseTasks.retryOption UseTasks.UpdateTaskStatus))
    (fun _ => false)
  = (1%nat, false).
Proof.
  destruct retry_configuration as (_ & _ & _ & _ & Hquery & Hmutation).
  split.
  - apply (Hquery (fun _ => false)). reflexivity.
  - apply (Hmutation (fun _ => false) "" (UseTasks.retryOption UseTasks.UpdateTaskStatus)).
    simpl. tauto.
Defined.

(** * Further properties of the sources *)

(** ** Durations *)

Lemma read_uint_app (d : Decimal.uint) (rest : string) :
  JS.read_uint rest = Decimal.Nil ->
  JS.read_uint (NilEmpty.string_of_uint d +:+ rest) = d.
Proof.
  intros Hrest. induction d; cbn [NilEmpty.string_of_uint];
    rewrite ?string_app_cons; cbn [JS.read_uint]; try (rewrite IHd; reflexivity).
  exact Hrest.
Qed.

Lemma hex_prefixed_app (d : Decimal.uint) (rest : string) :
  d <> Decimal.Nil ->
  JS.hex_prefixed (String "0" rest) = None ->
  JS.hex_prefixed (NilEmpty.string_of_uint d +:+ rest) = None.
Proof.
  intros Hd Hrest. destruct d as [|d|d|d|d|d|d|d|d|d|d]; try reflexivity.
  - congruence.
  - destruct d; try reflexivity. exact Hrest.
Qed.

Lemma digits_app_start (d : Decimal.uint) (rest : string) :
  d <> Decimal.Nil ->
  JS.trim_start (NilEmpty.string_of_uint d +:+ rest) = NilEmpty.string_of_uint d +:+ rest /\
  JS.split_sign (NilEmpty.string_of_uint d +:+ rest) = (1, NilEmpty.string_of_uint d +:+ rest).
Proof. destruct d; intros H; try (split; reflexivity). congruence. Qed.

Lemma parse_magnitude_app (d : Decimal.uint) (rest : string) :
  d <> Decimal.Nil ->
  JS.read_uint rest = Decimal.Nil ->
  JS.hex_prefixed (String "0" rest) = None ->
  JS.parse_magnitude (NilEmpty.string_of_uint d +:+ rest) = Some (Z.of_uint d).
Proof.
  intros Hd Hrest Hhex. unfold JS.parse_magnitude.
  rewrite (hex_prefixed_app d rest Hd Hhex), (read_uint_app d rest Hrest).
  destruct d; congruence.
Qed.

(** The text of an integer is read back by [parseInt] whatever follows
    it, as long as that is neither a digit nor the "x" of a hex prefix. *)
Lemma parseInt_Number_toString_app (n : Z) (rest : string) :
  JS.read_uint rest = Decimal.Nil ->
  JS.hex_prefixed (String "0" rest) = None ->
  JS.parseInt (JS.Number_toString n +:+ rest) = Some n.
Proof.
  intros Hrest Hhex.
  destruct n as [|p|p].
  - change (JS.Number_toString 0 +:+ rest) with (String "0" rest).
    unfold JS.parseInt. cbn [JS.trim_start]. change (JS.is_white_space "0") with false.
    cbn [JS.split_sign]. unfold JS.parse_magnitude. rewrite Hhex.
    cbn [JS.read_uint]. rewrite Hrest. reflexivity.
  - pose proof (DecimalPos.Unsigned.to_uint_nonnil p) as Hnil.
    unfold JS.Number_toString. simpl Z.to_int. cbn [NilZero.string_of_int].
    rewrite (string_of_uint_nonnil _ Hnil).
    destruct (digits_app_start (Pos.to_uint p) rest Hnil) as [Htrim Hsign].
    unfold JS.parseInt. rewrite Htrim, Hsign.
    rewrite (parse_magnitude_app _ rest Hnil Hrest Hhex), of_uint_to_uint. reflexivity.
  - pose proof (DecimalPos.Unsigned.to_uint_nonnil p) as Hnil.
    unfold JS.Number_toString. simpl Z.to_int. cbn [NilZero.string_of_int].
    rewrite (string_of_uint_nonnil _ Hnil), string_app_cons.
    unfold JS.parseInt. cbn [JS.trim_start]. change (JS.is_white_space "-") with false.
    cbn [JS.split_sign].
    rewrite (parse_magnitude_app _ rest Hnil Hrest Hhex), of_uint_to_uint. reflexivity.
Qed.

Lemma formatDuration_short (m : Z) :
  m < 60 -> Duration.formatDuration m = JS.Number_toString (Z.rem m 60) +:+ "m".
Proof.
  intros Hm. unfold Duration.formatDuration.
  assert (H : (0 <? m / 60)%Z = false).
  { apply Z.ltb_ge. assert (m / 60 < 1) by (apply Z.div_lt_upper_bound; lia). lia. }
  rewrite H. reflexivity.
Qed.

Lemma formatDuration_long (m : Z) :
  60 <= m ->
  Duration.formatDuration m =
  JS.Number_toString (m / 60) +:+ "h " +:+ JS.Number_toString (m mod 60) +:+ "m".
Proof.
  intros Hm. unfold Duration.formatDuration.
  assert (H : (0 <? m / 60)%Z = true).
  { apply Z.ltb_lt. assert (1 <= m / 60) by (apply Z.div_le_lower_bound; lia). lia. }
  rewrite H, Z.rem_mod_nonneg by lia. reflexivity.
Qed.

Lemma formatDuration_parts (minutes : Z) :
  0 <= minutes ->
  let h := minutes / 60 in
  let r := minutes mod 60 in
  0 <= r < 60 /\ Duration.minutes_of h r = minutes /\
  (minutes < 60 ->
     Duration.formatDuration minutes = JS.Number_toString minutes +:+ "m" /\
     JS.parseInt (Duration.formatDuration minutes) = Some minutes) /\
  (60 <= minutes ->
     1 <= h /\
     Duration.formatDuration minutes =
       JS.Number_toString h +:+ "h " +:+ JS.Number_toString r +:+ "m" /\
     JS.parseInt (Duration.formatDuration minutes) = Some h).
Proof.
  intros Hm h r. subst h r.
  pose proof (Z.mod_pos_bound minutes 60 ltac:(lia)) as Hr.
  pose proof (Z.div_mod minutes 60 ltac:(lia)) as Hdm.
  split; [exact Hr|]. split; [unfold Duration.minutes_of; lia|]. split.
  - intros Hlt. rewrite formatDuration_short by exact Hlt.
    rewrite Z.rem_mod_nonneg, Z.mod_small by lia.
    split; [reflexivity|]. apply parseInt_Number_toString_app; reflexivity.
  - intros Hge. rewrite formatDuration_long by exact Hge.
    split; [apply Z.div_le_lower_bound; lia|]. split; [reflexivity|].
    apply parseInt_Number_toString_app; reflexivity.
Qed.


(** X1: for a duration that is not negative the text is "{h}h {r}m" when
    it is an hour or more and "{r}m" below an hour, where [r] is under 60
    and [60 h + r] is the duration; the number the text starts with is
    the hours, or the minutes when no hours are shown. *)
Theorem formatDuration_decomposes (minutes : Z) :
  0 <= minutes ->
  let h := minutes / 60 in
  let r := minutes mod 60 in
  0 <= r < 60 /\ Duration.minutes_of h r = minutes /\
  (minutes < 60 ->
     Duration.formatDuration minutes = JS.Number_toString minutes +:+ "m" /\
     JS.parseInt (Duration.formatDuration minutes) = Some minutes) /\
  (60 <= minutes ->
     1 <= h /\
     Duration.formatDuration minutes =
       JS.Number_toString h +:+ "h " +:+ JS.Number_toString r +:+ "m" /\
     JS.parseInt (Duration.formatDuration minutes) = Some h).
Proof. apply formatDuration_parts. Qed.

Lemma formatDuration_decomposes_witness :
  Duration.formatDuration 135 = "2h 15m" /\ JS.parseInt (Duration.formatDuration 135) = Some 2.
Proof.
  destruct (formatDuration_decomposes 135 ltac:(lia)) as (_ & _ & _ & Hlong).
  destruct (Hlong ltac:(lia)) as (_ & Htext & Hread).
  split; [exact Htext | exact Hread].
Defined.

(** X2: two durations that are not negative and differ are shown by
    different texts. *)
Theorem formatDuration_injective (a b : Z) :
  0 <= a -> 0 <= b ->
  Duration.formatDuration a = Duration.formatDuration b -> a = b.
Proof.
  intros Ha Hb H.
  destruct (formatDuration_parts a Ha) as (Hra & Hda & Hsa & Hla).
  destruct (formatDuration_parts b Hb) as (Hrb & Hdb & Hsb & Hlb).
  unfold Duration.minutes_of in Hda, Hdb.
  assert (Hread : JS.parseInt (Duration.formatDuration a) =
                  JS.parseInt (Duration.formatDuration b)) by (rewrite H; reflexivity).
  destruct (Z.lt_ge_cases a 60) as [Ca|Ca]; destruct (Z.lt_ge_cases b 60) as [Cb|Cb].
  - destruct (Hsa Ca) as [_ Pa]. destruct (Hsb Cb) as [_ Pb]. congruence.
  - destruct (Hsa Ca) as [Ta Pa]. destruct (Hlb Cb) as (_ & Tb & Pb).
    rewrite Pa, Pb in Hread. injection Hread as Hab.
    rewrite Ta, Tb, Hab in H. apply (inj (String.app _)) in H. discriminate H.
  - destruct (Hla Ca) as (_ & Ta & Pa). destruct (Hsb Cb) as [Tb Pb].
    rewrite Pa, Pb in Hread. injection Hread as Hab.
    rewrite Ta, Tb, Hab in H. apply (inj (String.app _)) in H. discriminate H.
  - destruct (Hla Ca) as (_ & Ta & Pa). destruct (Hlb Cb) as (_ & Tb & Pb).
    rewrite Pa, Pb in Hread. injection Hread as Hab.
    rewrite Ta, Tb, Hab in H.
    apply (inj (String.app _)) in H. apply (inj (String.app _)) in H.
    apply string_app_cancel_r, Number_toString_inj in H. lia.
Qed.

Lemma formatDuration_injective_witness :
  Duration.formatDuration 61 = Duration.formatDuration (60 + 1) /\ 61 = 60 + 1.
Proof.
  split; [reflexivity|].
  apply (formatDuration_injective 61 (60 + 1)); [lia | lia | reflexivity].
Defined.

(** X3: for a negative duration no hours are shown: the text is the
    remainder alone, which lies between -59 and 0, so that durations an
    hour apart are shown alike and a whole negative hour reads "0m". *)
Theorem formatDuration_negative (minutes : Z) :
  minutes < 0 ->
  Duration.formatDuration minutes = JS.Number_toString (Z.rem minutes 60) +:+ "m" /\
  -60 < Z.rem minutes 60 <= 0 /\
  Duration.formatDuration (minutes - 60) = Duration.formatDuration minutes /\
  (Z.rem minutes 60 = 0 -> Duration.formatDuration minutes = Duration.formatDuration 0).
Proof.
  intros Hm.
  assert (Hrem : Z.rem (minutes - 60) 60 = Z.rem minutes 60).
  { replace (minutes - 60) with (minutes + (-1) * 60) by lia.
    apply Z.rem_add; nia. }
  pose proof (Z.rem_bound_pos_neg minutes 60 ltac:(lia) ltac:(lia)) as Hbound.
  rewrite !formatDuration_short by lia.
  split; [reflexivity|]. split; [lia|]. split.
  - rewrite Hrem. reflexivity.
  - intros ->. reflexivity.
Qed.

Lemma formatDuration_negative_witness :
  Duration.formatDuration (-90) = "-30m" /\
  Duration.formatDuration (-150) = Duration.formatDuration (-90).
Proof.
  destruct (formatDuration_negative (-90) ltac:(lia)) as (Htext & _ & Hsame & _).
  split; [exact Htext | exact Hsame].
Defined.

Lemma round_hours_cases (m : Z) :
  0 <= m ->
  Duration.round_hours m = m / 60 + (if (30 <=? m mod 60)%Z then 1 else 0).
Proof.
  intros Hm. unfold Duration.round_hours.
  pose proof (Z.mod_pos_bound m 60 ltac:(lia)) as Hr.
  pose proof (Z.div_mod m 60 ltac:(lia)) as Hdm.
  destruct (30 <=? m mod 60)%Z eqn:E.
  - apply Z.leb_le in E. symmetry. apply (Z.div_unique _ _ _ (m mod 60 - 30)); lia.
  - apply Z.leb_gt in E. symmetry. apply (Z.div_unique _ _ _ (m mod 60 + 30)); lia.
Qed.

(** X4: the total shown on the analytics and admin pages rounds the hours
    to the nearest instead of down: for a total that is not negative the
    text is "{H}h {r}m" with [r] the minutes past the hour, and [H] hours
    and [r] minutes are the total when [r] is below 30 but one hour more
    than the total from 30 on. *)
Theorem timeLogged_rounds_up (totalMinutes : Z) :
  0 <= totalMinutes ->
  let r := totalMinutes mod 60 in
  let H := Duration.round_hours totalMinutes in
  Duration.timeLogged totalMinutes =
    JS.Number_toString H +:+ "h " +:+ JS.Number_toString r +:+ "m" /\
  (r < 30 -> Duration.minutes_of H r = totalMinutes) /\
  (30 <= r -> Duration.minutes_of H r = totalMinutes + 60).
Proof.
  intros Hm r H. subst r H.
  pose proof (Z.mod_pos_bound totalMinutes 60 ltac:(lia)) as Hr.
  pose proof (Z.div_mod totalMinutes 60 ltac:(lia)) as Hdm.
  rewrite (round_hours_cases _ Hm). unfold Duration.minutes_of.
  split; [|split].
  - unfold Duration.timeLogged. rewrite Z.rem_mod_nonneg, (round_hours_cases _ Hm) by lia.
    reflexivity.
  - intros Hlt. destruct (Z.leb_spec 30 (totalMinutes mod 60)); lia.
  - intros Hge. destruct (Z.leb_spec 30 (totalMinutes mod 60)); lia.
Qed.

Lemma timeLogged_rounds_up_witness :
  Duration.timeLogged 90 = "2h 30m" /\ Duration.minutes_of 2 30 = 90 + 60.
Proof.
  destruct (timeLogged_rounds_up 90 ltac:(lia)) as (Htext & _ & Hover).
  split; [exact Htext | apply Hover; vm_compute; discriminate].
Defined.

(** ** The status button outside the three statuses *)

(** X5: whatever status a task carries, the status the button requests is
    one of the three; a status outside them is advanced to IN_PROGRESS,
    and from the first advance on the cycle of three holds. *)
Theorem getNextStatus_closed (s : string) :
  In (TaskCard.getNextStatus s) TaskStatus.all /\
  (~ In s TaskStatus.all -> TaskCard.getNextStatus s = TaskStatus.IN_PROGRESS) /\
  TaskCard.getNextStatus
    (TaskCard.getNextStatus (TaskCard.getNextStatus (TaskCard.getNextStatus s))) =
  TaskCard.getNextStatus s.
Proof.
  assert (Hin : In (TaskCard.getNextStatus s) TaskStatus.all).
  { unfold TaskCard.getNextStatus.
    destruct (String.eqb s TaskStatus.TODO); [simpl; tauto|].
    destruct (String.eqb s TaskStatus.IN_PROGRESS); [simpl; tauto|].
    destruct (String.eqb s TaskStatus.DONE); simpl; tauto. }
  split; [exact Hin|]. split; [apply getNextStatus_default|].
  simpl in Hin. destruct Hin as [<-|[<-|[<-|[]]]]; reflexivity.
Qed.

Lemma getNextStatus_closed_witness :
  TaskCard.getNextStatus "ARCHIVED" = TaskStatus.IN_PROGRESS.
Proof.
  destruct (getNextStatus_closed "ARCHIVED") as (_ & Hdefault & _).
  apply Hdefault. simpl. intros [H|[H|[H|[]]]]; discriminate H.
Defined.

(** ** Drops on a column *)

(** X6: when the drop target is a column zone (or there is none), the
    board issues at most one status update; it issues one exactly when
    there is a target column, the dragged id is the id of a task of the
    list, and that task's status is not the column; the update then names
    the dragged id and the column. *)
Theorem handleDragEnd_column_target (tasks : option (list Task)) (activeId : string)
    (target : option string) :
  let issued :=
    Kanban.calls (Kanban.handleDragEnd tasks
                    (Kanban.drop activeId (option_map Kanban.ColumnZone target))) in
  (length issued <= 1)%nat /\
  (issued <> [] <->
   exists column task,
     target = Some column /\ Kanban.find_task tasks activeId = Some task /\
     status task <> column) /\
  (forall call, In call issued ->
     exists column options,
       target = Some column /\ call = UseTasks.updateStatus activeId column options).
Proof.
  intros issued. subst issued. rewrite handleDragEnd_calls.
  destruct target as [column|];
    cbn [Kanban.drop Kanban.over Kanban.active option_map Kanban.droppable_id].
  - destruct (Kanban.find_task tasks activeId) as [task|] eqn:Hfind.
    + destruct (String.eqb_spec (status task) column) as [Heq|Hne].
      * split; [simpl; lia|]. split; [|intros call []].
        split; [congruence|]. intros (c & t & [= <-] & [= <-] & Hdiff). contradiction.
      * split; [simpl; lia|]. split.
        -- split; [|discriminate]. intros _. exists column, task. auto.
        -- intros call [<-|[]]. eauto.
    + split; [simpl; lia|]. split; [|intros call []].
      split; [congruence|]. intros (c & t & _ & H & _). discriminate H.
  - split; [simpl; lia|]. split; [|intros call []].
    split; [congruence|]. intros (c & t & H & _). discriminate H.
Qed.

Lemma handleDragEnd_column_target_witness :
  exists column options,
    Some "DONE" = Some column /\
    UseTasks.updateStatus "t1" "DONE"
      {| ReactQuery.call_onSuccess := [ReactQuery.ToastSuccess "Task moved to done!"];
         ReactQuery.call_onError := [ReactQuery.ToastError "Failed to update task status"] |}
    = UseTasks.updateStatus "t1" column options.
Proof.
  destruct (handleDragEnd_column_target (Some Sample.tasks) "t1" (Some "DONE"))
    as (_ & _ & Hcall).
  apply Hcall. left. reflexivity.
Defined.

(** ** The add button of the board card *)

(** X7: while the add button of the board card is disabled a click would
    add nothing; while it is enabled a click calls the mutation unless the
    text has no leading integer (as ".5", a value of the number field),
    in which case the enabled button does nothing. *)
Theorem add_button_guard (task : Task) (timeToAdd : string) :
  (KanbanControls.addDisabled timeToAdd = true ->
   KanbanTaskCard.calls (KanbanTaskCard.handleAddTime task timeToAdd) = []) /\
  (KanbanControls.addDisabled timeToAdd = false ->
   (KanbanTaskCard.calls (KanbanTaskCard.handleAddTime task timeToAdd) = [] <->
    JS.parseInt timeToAdd = None)).
Proof.
  rewrite kanban_handleAddTime_guard. unfold KanbanControls.addDisabled. split.
  - intros H. apply orb_prop in H as [H|H].
    + apply String.eqb_eq in H. subst timeToAdd. reflexivity.
    + destruct (JS.parseInt timeToAdd) as [m|]; [|reflexivity].
      apply Z.leb_le in H. destruct (Z.ltb_spec 0 m); [lia|reflexivity].
  - intros H. apply orb_false_elim in H as [_ H].
    destruct (JS.parseInt timeToAdd) as [m|]; [|tauto].
    apply Z.leb_gt in H. destruct (Z.ltb_spec 0 m); [|lia].
    split; discriminate.
Qed.

Lemma add_button_guard_witness :
  KanbanTaskCard.calls (KanbanTaskCard.handleAddTime Sample.t1 (Html.field_value ".5")) = [] /\
  KanbanTaskCard.calls (KanbanTaskCard.handleAddTime Sample.t1 "0") = [].
Proof.
  split.
  - destruct (add_button_guard Sample.t1 (Html.field_value ".5")) as [_ Henabled].
    apply Henabled; reflexivity.
  - destruct (add_button_guard Sample.t1 "0") as [Hdisabled _].
    apply Hdisabled. reflexivity.
Defined.

(** ** The dashboard *)

Lemma filter_filter_status (s : string) (tasks : list Task) :
  s <> "ALL" ->
  Dashboard.filteredTasks (Some tasks) s = List.filter (Kanban.has_status s) tasks.
Proof.
  intros Hs. unfold Dashboard.filteredTasks. apply filter_ext. intros t.
  destruct (String.eqb_spec s "ALL"); [contradiction|]. reflexivity.
Qed.

Lemma filter_all (A : Type) (l : list A) : List.filter (fun _ => true) l = l.
Proof. induction l as [|x l IH]; [reflexivity|]. simpl. rewrite IH. reflexivity. Qed.

(** X8: the list the dashboard shows is the whole task list under the
    filter "ALL" and, under a status filter, the very list of the board's
    column for that status; it is empty while the tasks are not loaded,
    and it only ever holds tasks of the list that pass the filter. *)
Theorem filteredTasks_views (tasks : list Task) :
  let board := Kanban.tasksByStatus (Some tasks) in
  Dashboard.filteredTasks (Some tasks) "ALL" = tasks /\
  Dashboard.filteredTasks (Some tasks) TaskStatus.TODO = Kanban.TODO board /\
  Dashboard.filteredTasks (Some tasks) TaskStatus.IN_PROGRESS = Kanban.IN_PROGRESS board /\
  Dashboard.filteredTasks (Some tasks) TaskStatus.DONE = Kanban.DONE board /\
  (forall statusFilter, Dashboard.filteredTasks None statusFilter = []) /\
  (forall statusFilter t,
     In t (Dashboard.filteredTasks (Some tasks) statusFilter) <->
     In t tasks /\ (statusFilter = "ALL" \/ status t = statusFilter)).
Proof.
  cbv zeta. split; [|split; [|split; [|split; [|split]]]].
  - unfold Dashboard.filteredTasks. cbn [String.eqb Ascii.eqb Bool.eqb orb]. apply filter_all.
  - apply filter_filter_status. discriminate.
  - apply filter_filter_status. discriminate.
  - apply filter_filter_status. discriminate.
  - reflexivity.
  - intros f t. unfold Dashboard.filteredTasks. rewrite filter_In, orb_true_iff.
    rewrite !String.eqb_eq. reflexivity.
Qed.

Lemma filteredTasks_views_witness :
  In Sample.t3 (Dashboard.filteredTasks (Some Sample.tasks) "DONE").
Proof.
  apply (filteredTasks_views Sample.tasks). split.
  - simpl. tauto.
  - right. reflexivity.
Defined.

Lemma length_filter_cons (A : Type) (f : A -> bool) (x : A) (l : list A) :
  length (List.filter f (x :: l)) =
  ((if f x then 1 else 0) + length (List.filter f l))%nat.
Proof. cbn [List.filter]. destruct (f x); reflexivity. Qed.

Lemma status_boxes (t : Task) :
  ((if String.eqb (status t) TaskStatus.TODO then 1 else 0) +
   (if String.eqb (status t) TaskStatus.IN_PROGRESS then 1 else 0) +
   (if String.eqb (status t) TaskStatus.DONE then 1 else 0) +
   (if Dashboard.other_status t then 1 else 0) = 1)%nat.
Proof.
  unfold Dashboard.other_status.
  destruct (String.eqb_spec (status t) TaskStatus.TODO) as [E1|N1];
    destruct (String.eqb_spec (status t) TaskStatus.IN_PROGRESS) as [E2|N2];
    destruct (String.eqb_spec (status t) TaskStatus.DONE) as [E3|N3];
    try reflexivity; try (rewrite E1 in *; discriminate); rewrite E2 in *; discriminate.
Qed.

Lemma counts_and_others (tasks : list Task) :
  (Dashboard.count_status TaskStatus.TODO tasks +
   Dashboard.count_status TaskStatus.IN_PROGRESS tasks +
   Dashboard.count_status TaskStatus.DONE tasks +
   length (List.filter Dashboard.other_status tasks) = length tasks)%nat.
Proof.
  unfold Dashboard.count_status.
  induction tasks as [|t rest IH]; [reflexivity|].
  rewrite !length_filter_cons. cbn [length].
  pose proof (status_boxes t). lia.
Qed.

Lemma other_status_false (t : Task) :
  Dashboard.other_status t = false <-> In (status t) TaskStatus.all.
Proof.
  unfold Dashboard.other_status. rewrite negb_false_iff, !orb_true_iff, !String.eqb_eq.
  simpl. intuition congruence.
Qed.

Lemma no_others_iff_valid (tasks : list Task) :
  List.filter Dashboard.other_status tasks = [] <->
  Forall (fun t => In (status t) TaskStatus.all) tasks.
Proof.
  induction tasks as [|t rest IH].
  - split; [constructor|reflexivity].
  - cbn [List.filter]. destruct (Dashboard.other_status t) eqn:E.
    + split; [discriminate|]. intros H. apply Forall_inv in H.
      apply other_status_false in H. congruence.
    + rewrite IH. apply other_status_false in E. split.
      * intros H. constructor; assumption.
      * intros H. apply Forall_inv_tail in H. exact H.
Qed.

(** X9: the three status counts of the dashboard never add up to more
    than the total, and they add up to the total exactly when every task
    has one of the three statuses; a task with any other status is counted
    in the total and in no status box. *)
Theorem taskStats_counts (tasks : list Task) :
  let stats := Dashboard.taskStats (Some tasks) in
  (Dashboard.todo stats + Dashboard.inProgress stats + Dashboard.done stats
   <= Dashboard.total stats)%nat /\
  ((Dashboard.todo stats + Dashboard.inProgress stats + Dashboard.done stats
    = Dashboard.total stats)%nat <->
   Forall (fun t => In (status t) TaskStatus.all) tasks) /\
  (Dashboard.total stats =
   Dashboard.todo stats + Dashboard.inProgress stats + Dashboard.done stats +
   length (List.filter Dashboard.other_status tasks))%nat.
Proof.
  cbv zeta. cbn [Dashboard.taskStats Dashboard.todo Dashboard.inProgress Dashboard.done
                 Dashboard.total].
  pose proof (counts_and_others tasks) as H.
  split; [lia|]. split; [|lia].
  rewrite <- no_others_iff_valid. split.
  - intros Heq. apply length_zero_iff_nil. lia.
  - intros Hnil. rewrite Hnil in H. simpl in H. lia.
Qed.

Lemma taskStats_counts_witness :
  (Dashboard.todo (Dashboard.taskStats (Some Sample.tasks)) +
   Dashboard.inProgress (Dashboard.taskStats (Some Sample.tasks)) +
   Dashboard.done (Dashboard.taskStats (Some Sample.tasks))
   = Dashboard.total (Dashboard.taskStats (Some Sample.tasks)))%nat.
Proof.
  destruct (taskStats_counts Sample.tasks) as (_ & Hiff & _).
  apply Hiff. repeat constructor; simpl; tauto.
Defined.

Lemma fold_minutes (tasks : list Task) (start : Z) :
  fold_left (fun sum task => sum + total_minutes task) tasks start =
  start + Dashboard.sum_minutes tasks.
Proof.
  unfold Dashboard.sum_minutes. cbn [Dashboard.taskStats Dashboard.totalMinutes].
  revert start. induction tasks as [|t rest IH]; intros start; [simpl; lia|].
  cbn [fold_left]. rewrite IH, (IH (0 + total_minutes t)). lia.
Qed.

Lemma sum_minutes_cons (t : Task) (rest : list Task) :
  Dashboard.sum_minutes (t :: rest) = total_minutes t + Dashboard.sum_minutes rest.
Proof.
  unfold Dashboard.sum_minutes at 1. cbn [Dashboard.taskStats Dashboard.totalMinutes fold_left].
  rewrite fold_minutes. lia.
Qed.

Lemma sum_minutes_app (a b : list Task) :
  Dashboard.sum_minutes (a ++ b) = Dashboard.sum_minutes a + Dashboard.sum_minutes b.
Proof.
  induction a as [|t a IH]; [reflexivity|].
  rewrite <- app_comm_cons, !sum_minutes_cons, IH. lia.
Qed.

Lemma sum_minutes_perm (a b : list Task) :
  Permutation a b -> Dashboard.sum_minutes a = Dashboard.sum_minutes b.
Proof.
  induction 1 as [|x a b _ IH|x y a|a b c _ IH1 _ IH2].
  - reflexivity.
  - rewrite !sum_minutes_cons, IH. reflexivity.
  - rewrite !sum_minutes_cons. lia.
  - congruence.
Qed.

(** X10: the total of minutes of the dashboard does not depend on the
    order of the tasks, is not negative when no task has negative
    minutes, and, when every task has one of the three statuses, is the
    sum of the totals of the three filtered lists. *)
Theorem totalMinutes_splits (tasks : list Task) :
  let minutes_of := fun statusFilter =>
    Dashboard.totalMinutes
      (Dashboard.taskStats (Some (Dashboard.filteredTasks (Some tasks) statusFilter))) in
  (forall reordered, Permutation tasks reordered ->
     Dashboard.totalMinutes (Dashboard.taskStats (Some reordered)) =
     Dashboard.totalMinutes (Dashboard.taskStats (Some tasks))) /\
  (Forall (fun t => 0 <= total_minutes t) tasks ->
     0 <= Dashboard.totalMinutes (Dashboard.taskStats (Some tasks))) /\
  (Forall (fun t => In (status t) TaskStatus.all) tasks ->
     Dashboard.totalMinutes (Dashboard.taskStats (Some tasks)) =
     minutes_of TaskStatus.TODO + minutes_of TaskStatus.IN_PROGRESS +
     minutes_of TaskStatus.DONE).
Proof.
  cbv zeta. change (fun l => Dashboard.totalMinutes (Dashboard.taskStats (Some l)))
    with Dashboard.sum_minutes.
  fold (Dashboard.sum_minutes tasks).
  split; [|split].
  - intros reordered Hperm. symmetry. apply (sum_minutes_perm _ _ Hperm).
  - induction 1 as [|t rest Ht _ IH]; [reflexivity|].
    rewrite sum_minutes_cons. lia.
  - intros Hvalid.
    rewrite !filter_filter_status by discriminate.
    rewrite (sum_minutes_perm _ _ (columns_permutation tasks Hvalid)), !sum_minutes_app.
    unfold Dashboard.sum_minutes. lia.
Qed.

Lemma totalMinutes_splits_witness :
  Dashboard.totalMinutes (Dashboard.taskStats (Some Sample.tasks)) = 0 + 30 + 0 + 45.
Proof.
  destruct (totalMinutes_splits Sample.tasks) as (_ & _ & Hsplit).
  rewrite Hsplit; [reflexivity|].
  repeat constructor; simpl; tauto.
Defined.

(** ** More on the REST client *)

(** X11: [request] sends to the base URL followed by the endpoint, with
    the caller's method and body untouched; of the headers, one given by
    the caller is sent as given (also "Authorization" and
    "Content-Type"), and the client's own headers fill in the others. *)
Theorem request_keeps_caller_options (baseURL : string) (storage : ApiClient.LocalStorage)
    (fetch : ApiClient.Fetch) (endpoint : string) (options : ApiClient.RequestInit) :
  let sent := fst (ApiClient.request baseURL storage fetch endpoint options) in
  ApiClient.url sent = baseURL +:+ endpoint /\
  ApiClient.method (ApiClient.init sent) = ApiClient.method options /\
  ApiClient.body (ApiClient.init sent) = ApiClient.body options /\
  (forall name given,
     ApiClient.headers options ≫= (.!! name) = Some given ->
     ApiClient.headers (ApiClient.init sent) ≫= (.!! name) = Some given) /\
  (forall name,
     ApiClient.headers options ≫= (.!! name) = None ->
     ApiClient.headers (ApiClient.init sent) ≫= (.!! name) =
     ApiClient.getHeaders storage !! name).
Proof.
  cbv zeta. rewrite request_sent. cbn [ApiClient.url ApiClient.init].
  split; [reflexivity|]. split; [reflexivity|]. split; [reflexivity|]. split.
  - intros name given H. rewrite config_headers, H. reflexivity.
  - intros name H. rewrite config_headers, H. reflexivity.
Qed.

Lemma request_keeps_caller_options_witness :
  ApiClient.headers
    (ApiClient.init
       (fst (ApiClient.request Sample.baseURL (Sample.with_token "abc.def.ghi")
               (Sample.always Sample.server_error) "/tasks"
               {| ApiClient.method := None; ApiClient.body := None;
                  ApiClient.headers := Some {[ "Authorization" := "Basic xyz" ]} |})))
    ≫= (.!! "Authorization") = Some "Basic xyz".
Proof.
  destruct (request_keeps_caller_options Sample.baseURL (Sample.with_token "abc.def.ghi")
              (Sample.always Sample.server_error) "/tasks"
              {| ApiClient.method := None; ApiClient.body := None;
                 ApiClient.headers := Some {[ "Authorization" := "Basic xyz" ]} |})
    as (_ & _ & _ & Hgiven & _).
  apply Hgiven. reflexivity.
Defined.

Lemma Number_toString_not_empty (n : Z) : JS.Number_toString n <> "".
Proof.
  intros H. pose proof (parseInt_Number_toString n) as Hread.
  rewrite H in Hread. discriminate Hread.
Qed.

Lemma errorMessage_source (r : ApiClient.Response) :
  (exists v, JS.truthy v = true /\ ApiClient.errorMessage r = v) \/
  ApiClient.errorMessage r = JS.Str (ApiClient.fallbackMessage r).
Proof.
  rewrite errorMessage_by_fields.
  assert (Hfield : forall key v, ApiClient.truthy_field r key = Some v ->
                                 JS.truthy v = true).
  { intros key v. unfold ApiClient.truthy_field.
    destruct (ApiClient.json r) as [body|]; [|discriminate].
    destruct (JS.get body key) as [| |w]; try discriminate.
    destruct (JS.truthy w) eqn:Ew; [|discriminate]. intros [= <-]. exact Ew. }
  destruct (ApiClient.truthy_field r "detail") as [d|] eqn:Ed.
  - left. exists d. split; [exact (Hfield _ _ Ed)|reflexivity].
  - destruct (ApiClient.truthy_field r "message") as [m|] eqn:Em.
    + left. exists m. split; [exact (Hfield _ _ Em)|reflexivity].
    + right. reflexivity.
Qed.

Lemma truthy_text (v : JS.Value) :
  JS.truthy v = true -> Coercion.ToString v = Some "" -> exists items, v = JS.Array items.
Proof.
  destruct v as [|b|n|s|items|props]; cbn [JS.truthy Coercion.ToString].
  - discriminate.
  - intros ->. discriminate.
  - intros _ [= H]. destruct (Number_toString_not_empty n H).
  - intros H [= ->]. discriminate H.
  - eauto.
  - destruct (JS.assoc "toString" props); discriminate.
Qed.

(** X12: for a response that is not successful [request] throws either a
    TypeError (the field taken has no text) or an [Error] with a message,
    and that message is empty in one case only: the "detail" (or
    "message") field taken is an array whose text is empty, such as []. *)
Theorem request_error_has_message (baseURL : string) (storage : ApiClient.LocalStorage)
    (fetch : ApiClient.Fetch) (endpoint : string) (options : ApiClient.RequestInit)
    (r : ApiClient.Response) :
  fetch (baseURL +:+ endpoint) (ApiClient.config storage options) = ApiClient.Responds r ->
  ApiClient.ok r = false ->
  let result := snd (ApiClient.request baseURL storage fetch endpoint options) in
  (exists text, result = ApiClient.Throws (ApiClient.TypeError text) /\
                Coercion.ToString (ApiClient.errorMessage r) = None) \/
  (exists text, result = ApiClient.Throws (ApiClient.mkError text) /\
                (text = "" -> exists items, ApiClient.errorMessage r = JS.Array items)).
Proof.
  intros Hfetch Hok. cbv zeta.
  rewrite (request_responds _ _ _ _ _ r Hfetch), Hok. unfold ApiClient.new_Error.
  destruct (Coercion.ToString (ApiClient.errorMessage r)) as [text|] eqn:Htext.
  - right. exists text. split; [reflexivity|]. intros ->.
    destruct (errorMessage_source r) as [(v & Hv & Hr)| Hr]; rewrite Hr in Htext |- *.
    + exact (truthy_text v Hv Htext).
    + cbn [Coercion.ToString] in Htext. unfold ApiClient.fallbackMessage in Htext.
      rewrite string_app_cons in Htext. discriminate Htext.
  - left. eauto.
Qed.

Lemma request_error_has_message_witness :
  (exists text,
     snd (ApiClient.request Sample.baseURL ∅ (Sample.always Sample.empty_detail)
            "/tasks" ApiClient.no_options) = ApiClient.Throws (ApiClient.TypeError text) /\
     Coercion.ToString (ApiClient.errorMessage Sample.empty_detail) = None) \/
  (exists text,
     snd (ApiClient.request Sample.baseURL ∅ (Sample.always Sample.empty_detail)
            "/tasks" ApiClient.no_options) = ApiClient.Throws (ApiClient.mkError text) /\
     (text = "" -> exists items, ApiClient.errorMessage Sample.empty_detail = JS.Array items)).
Proof.
  apply (request_error_has_message Sample.baseURL ∅ (Sample.always Sample.empty_detail)
           "/tasks" ApiClient.no_options Sample.empty_detail); reflexivity.
Defined.

Example empty_array_detail_has_empty_text :
  snd (ApiClient.request Sample.baseURL ∅
         (Sample.always
            {| ApiClient.status := 422; ApiClient.statusText := "Unprocessable Entity";
               ApiClient.json := Some (JS.Object [("detail", JS.Array [])]) |})
         "/tasks" ApiClient.no_options) = ApiClient.Throws (ApiClient.mkError "").
Proof. reflexivity. Qed.

Lemma endpoint_prefix_inj (prefix a b : string) :
  prefix +:+ a = prefix +:+ b -> a = b.
Proof. apply (inj (String.app _)). Qed.

(** X13: the request line tells the operation: two operations of the
    client with the same endpoint, method and body are the same operation
    with the same arguments. *)
Theorem operation_of_request (a b : ApiClient.Operation) :
  ApiClient.endpoint a = ApiClient.endpoint b ->
  ApiClient.options a = ApiClient.options b ->
  a = b.
Proof.
  destruct a, b; cbn [ApiClient.endpoint ApiClient.options];
    unfold ApiClient.with_body, ApiClient.no_options;
    intros He Ho; try discriminate Ho; try reflexivity;
    try (vm_compute in He; discriminate He);
    try (injection Ho as ->);
    try (apply endpoint_prefix_inj in He);
    try (apply string_app_cancel_r in He);
    subst; reflexivity.
Qed.

Lemma operation_of_request_witness :
  ApiClient.updateTaskStatus "t1" "{}" = ApiClient.updateTaskStatus "t1" "{}".
Proof. apply operation_of_request; reflexivity. Defined.

(** ** The body of a task creation *)

(** X14: the body sent for a new task has the title as entered; its
    description is never the empty string and its assignee never blank
    (both become [null]), a description that is not empty and an assignee
    that is not blank are sent as entered, and transforming a body again
    changes nothing. *)
Theorem transformedData_normalises (data : CreateTask.CreateTaskData) :
  let sent := CreateTask.transformedData data in
  CreateTask.body_title sent = CreateTask.title data /\
  CreateTask.body_description sent <> Some "" /\
  (forall a, CreateTask.body_assigned_to sent = Some a -> CreateTask.blank a = false) /\
  (forall d, CreateTask.description data = Some d -> d <> "" ->
     CreateTask.body_description sent = Some d) /\
  (forall a, CreateTask.assigned_to data = Some a -> CreateTask.blank a = false ->
     CreateTask.body_assigned_to sent = Some a) /\
  CreateTask.transformedData (CreateTask.as_data sent) = sent.
Proof.
  destruct data as [t d a]. cbv zeta. unfold CreateTask.transformedData.
  cbn [CreateTask.title CreateTask.description CreateTask.assigned_to
       CreateTask.body_title CreateTask.body_description CreateTask.body_assigned_to
       CreateTask.as_data].
  split; [reflexivity|]. split; [|split; [|split; [|split]]].
  - destruct d as [d|]; [|discriminate].
    destruct (String.eqb_spec d ""); [discriminate|congruence].
  - intros x. destruct a as [a|]; [|discriminate].
    destruct (String.eqb a ""); cbn [negb andb]; [discriminate|].
    destruct (CreateTask.blank a) eqn:E; cbn [negb]; [discriminate|].
    intros [= <-]. exact E.
  - intros x [= ->] Hx. destruct (String.eqb_spec x ""); [contradiction|reflexivity].
  - intros x [= ->] Hx. rewrite Hx.
    destruct (String.eqb_spec x ""); [subst x; discriminate Hx|reflexivity].
  - f_equal.
    + destruct d as [d|]; [|reflexivity].
      destruct (String.eqb d "") eqn:E; [reflexivity|]. rewrite E. reflexivity.
    + destruct a as [a|]; [|reflexivity].
      destruct (negb (String.eqb a "") && negb (CreateTask.blank a))%bool eqn:E;
        [rewrite E|]; reflexivity.
Qed.

Lemma transformedData_normalises_witness :
  CreateTask.body_assigned_to
    (CreateTask.transformedData
       {| CreateTask.title := "Write tests"; CreateTask.description := Some "";
          CreateTask.assigned_to := Some "u2" |}) = Some "u2".
Proof.
  destruct (transformedData_normalises
              {| CreateTask.title := "Write tests"; CreateTask.description := Some "";
                 CreateTask.assigned_to := Some "u2" |}) as (_ & _ & _ & _ & Hkept & _).
  apply Hkept; reflexivity.
Defined.

(** ** Login *)

Lemma login_errorMessage_by_fields (r : ApiClient.Response) :
  Login.errorMessage r =
  match ApiClient.truthy_field r "detail" with
  | Some detail => detail
  | None =>
      match ApiClient.truthy_field r "message" with
      | Some message => message
      | None => JS.Str Login.fallbackMessage
      end
  end.
Proof.
  unfold Login.errorMessage, ApiClient.truthy_field.
  destruct (ApiClient.json r) as [body|]; [|reflexivity].
  destruct body; try reflexivity.
  unfold JS.get.
  destruct (JS.assoc "detail" props) as [d|]; [destruct (JS.truthy d); [reflexivity|]|];
    destruct (JS.assoc "message" props) as [m|]; try reflexivity;
    destruct (JS.truthy m); reflexivity.
Qed.

(** X15: the login sends the e-mail address as the form field "username"
    and the password as "password" to "/auth/login".  When the answer is
    not successful, the error is built from the server's "detail" or
    "message" exactly as [request] builds it, and otherwise from "Invalid
    email or password", whatever the status; and what [fetch] or a body
    read throws escapes as it is, also when it is no [Error]. *)
Theorem login_outcome (baseURL : string) (fetch : Login.FormFetch)
    (credentials : Login.LoginCredentials) :
  let sent := fst (Login.login baseURL fetch credentials) in
  let result := snd (Login.login baseURL fetch credentials) in
  sent = {| Login.form_url := baseURL +:+ "/auth/login"; Login.form_method := "POST";
            Login.formData := [("username", Login.email credentials);
                               ("password", Login.password credentials)] |} /\
  (forall t, fetch sent = ApiClient.Rejects t -> result = Login.Throws t) /\
  (forall status statusText t,
     fetch sent = ApiClient.Unreadable status statusText t -> result = Login.Throws t) /\
  (forall r, fetch sent = ApiClient.Responds r -> ApiClient.ok r = false ->
     result = Login.Throws (ApiClient.AnError (ApiClient.new_Error (Login.errorMessage r))) /\
     (Login.errorMessage r = ApiClient.errorMessage r \/
      ApiClient.new_Error (Login.errorMessage r) =
        ApiClient.mkError "Invalid email or password" /\
      ApiClient.new_Error (ApiClient.errorMessage r) =
        ApiClient.mkError (ApiClient.fallbackMessage r))) /\
  (forall r value, fetch sent = ApiClient.Responds r -> ApiClient.ok r = true ->
     ApiClient.json r = Some value -> result = Login.Returns value).
Proof.
  cbv zeta. unfold Login.login. cbn [fst snd].
  split; [reflexivity|]. split; [|split; [|split]].
  - intros t ->. reflexivity.
  - intros status statusText t ->. reflexivity.
  - intros r -> Hok. rewrite Hok. split; [reflexivity|].
    rewrite login_errorMessage_by_fields, errorMessage_by_fields.
    destruct (ApiClient.truthy_field r "detail"); [left; reflexivity|].
    destruct (ApiClient.truthy_field r "message"); [left; reflexivity|].
    right. split; reflexivity.
  - intros r value -> Hok Hjson. rewrite Hok, Hjson. reflexivity.
Qed.

Lemma login_outcome_witness :
  snd (Login.login Sample.baseURL (fun _ => ApiClient.Responds Sample.no_content)
         {| Login.email := "demo@sprintsync.com"; Login.password := "demo123" |}) =
  Login.Throws (ApiClient.AnError ApiClient.SyntaxError) /\
  snd (Login.login Sample.baseURL (fun _ => ApiClient.Rejects ApiClient.NotAnError)
         {| Login.email := "demo@sprintsync.com"; Login.password := "demo123" |}) =
  Login.Throws ApiClient.NotAnError.
Proof.
  split; [reflexivity|].
  destruct (login_outcome Sample.baseURL (fun _ => ApiClient.Rejects ApiClient.NotAnError)
              {| Login.email := "demo@sprintsync.com"; Login.password := "demo123" |})
    as (_ & Hrejects & _).
  apply Hrejects. reflexivity.
Defined.

(** ** The authentication store *)

Lemma authorization_sent (baseURL : string) (storage : ApiClient.LocalStorage)
    (fetch : ApiClient.Fetch) (op : ApiClient.Operation) :
  ApiClient.headers (ApiClient.init (fst (ApiClient.perform baseURL storage fetch op)))
    ≫= (.!! "Authorization") =
  match ApiClient.getItem storage "access_token" with
  | Some token => if String.eqb token "" then None else Some ("Bearer " +:+ token)
  | None => None
  end.
Proof.
  unfold ApiClient.perform. rewrite request_sent. cbn [ApiClient.init].
  rewrite config_headers, operations_give_no_headers. cbn [mbind option_bind].
  apply getHeaders_authorization.
Qed.

(** X16: logging out removes the token and no other entry of the
    application from the storage, resets the state, and sends nothing;
    from then on no operation of the client carries an Authorization
    header; logging out twice is logging out once. *)
Theorem logout_clears (storage : ApiClient.LocalStorage) (state : AuthStore.AuthState) :
  let o := AuthStore.logout storage state in
  ApiClient.getItem (AuthStore.storage_after o) "access_token" = None /\
  (forall key, key <> "access_token" ->
     ApiClient.getItem (AuthStore.storage_after o) key = ApiClient.getItem storage key) /\
  AuthStore.state_after o = AuthStore.initial (AuthStore.storage_after o) /\
  AuthStore.wire o = [] /\
  (forall baseURL fetch op,
     ApiClient.headers
       (ApiClient.init (fst (ApiClient.perform baseURL (AuthStore.storage_after o) fetch op)))
     ≫= (.!! "Authorization") = None) /\
  AuthStore.logout (AuthStore.storage_after o) (AuthStore.state_after o) = o.
Proof.
  cbv zeta. unfold AuthStore.logout, ApiClient.getItem.
  cbn [AuthStore.storage_after AuthStore.state_after AuthStore.wire].
  assert (Hgone : delete "access_token" storage !! "access_token" = None)
    by apply lookup_delete_eq.
  split; [exact Hgone|]. split; [|split; [|split; [|split]]].
  - intros key Hkey. apply lookup_delete_ne. congruence.
  - unfold AuthStore.initial, ApiClient.getItem. rewrite Hgone. reflexivity.
  - reflexivity.
  - intros baseURL fetch op. rewrite authorization_sent.
    unfold ApiClient.getItem. rewrite Hgone. reflexivity.
  - rewrite delete_delete_eq. reflexivity.
Qed.

Lemma logout_clears_witness :
  ApiClient.getItem
    (AuthStore.storage_after
       (AuthStore.logout (<[ "theme" := "dark" ]> (Sample.with_token "abc.def.ghi"))
          Fixture.signed_out)) "theme" = Some "dark".
Proof.
  destruct (logout_clears (<[ "theme" := "dark" ]> (Sample.with_token "abc.def.ghi"))
              Fixture.signed_out) as (_ & Hkept & _).
  rewrite Hkept; [reflexivity | discriminate].
Defined.

(** X17: with no token stored, or the empty string stored as token,
    loading the user sends no request and leaves the storage alone; the
    store is marked not authenticated, and the user and token it held
    stay in the state. *)
Theorem loadUser_without_token (baseURL : string) (net : AuthStore.Network)
    (storage : ApiClient.LocalStorage) (state : AuthStore.AuthState) :
  ApiClient.getItem storage "access_token" = None \/
  ApiClient.getItem storage "access_token" = Some "" ->
  let o := AuthStore.loadUser baseURL net storage state in
  AuthStore.wire o = [] /\
  AuthStore.storage_after o = storage /\
  AuthStore.completion o = AuthStore.Fulfilled /\
  AuthStore.isAuthenticated (AuthStore.state_after o) = false /\
  AuthStore.isLoading (AuthStore.state_after o) = false /\
  AuthStore.user (AuthStore.state_after o) = AuthStore.user state /\
  AuthStore.token (AuthStore.state_after o) = AuthStore.token state.
Proof.
  intros Hstored. cbv zeta. unfold AuthStore.loadUser.
  destruct Hstored as [-> | ->]; cbn; repeat split.
Qed.

Lemma loadUser_without_token_witness :
  AuthStore.wire
    (AuthStore.loadUser Sample.baseURL (Fixture.server "abc" Fixture.profile_response)
       (Sample.with_token "") Fixture.signed_out) = [].
Proof.
  apply (loadUser_without_token Sample.baseURL (Fixture.server "abc" Fixture.profile_response)
           (Sample.with_token "") Fixture.signed_out).
  right. reflexivity.
Defined.

(** X18: with a token stored, loading the user sends one request, to
    "/auth/me", carrying the token as Bearer.  If it returns, the store
    is authenticated with the returned user and the stored token, and the
    storage is as before; if it throws, the promise still fulfils, the
    token is removed from the storage, the state is reset, and later
    requests carry no Authorization header. *)
Theorem loadUser_with_token (baseURL : string) (net : AuthStore.Network)
    (storage : ApiClient.LocalStorage) (state : AuthStore.AuthState) (stored : string) :
  ApiClient.getItem storage "access_token" = Some stored -> stored <> "" ->
  let o := AuthStore.loadUser baseURL net storage state in
  let call := ApiClient.perform baseURL storage (AuthStore.fetch net) ApiClient.getCurrentUser in
  AuthStore.wire o = [AuthStore.Json (fst call)] /\
  ApiClient.url (fst call) = baseURL +:+ "/auth/me" /\
  ApiClient.headers (ApiClient.init (fst call)) ≫= (.!! "Authorization")
    = Some ("Bearer " +:+ stored) /\
  AuthStore.completion o = AuthStore.Fulfilled /\
  (forall fetched, snd call = ApiClient.Returns fetched ->
     AuthStore.storage_after o = storage /\
     AuthStore.state_after o =
       {| AuthStore.user := fetched; AuthStore.token := Some (JS.Str stored);
          AuthStore.isAuthenticated := true; AuthStore.isLoading := false |}) /\
  (forall e, snd call = ApiClient.Throws e ->
     ApiClient.getItem (AuthStore.storage_after o) "access_token" = None /\
     AuthStore.state_after o = AuthStore.initial (AuthStore.storage_after o) /\
     forall fetch' op,
       ApiClient.headers
         (ApiClient.init
            (fst (ApiClient.perform baseURL (AuthStore.storage_after o) fetch' op)))
       ≫= (.!! "Authorization") = None).
Proof.
  intros Hstored Hnonempty. cbv zeta. unfold AuthStore.loadUser. rewrite Hstored.
  destruct (String.eqb_spec stored "") as [|_]; [contradiction|].
  destruct (ApiClient.perform baseURL storage (AuthStore.fetch net) ApiClient.getCurrentUser)
    as [sent result] eqn:Hcall.
  assert (Hsent : sent = fst (ApiClient.perform baseURL storage (AuthStore.fetch net)
                                ApiClient.getCurrentUser)) by (rewrite Hcall; reflexivity).
  cbn [fst snd].
  assert (Hgone : delete "access_token" storage !! "access_token" = None)
    by apply lookup_delete_eq.
  split; [destruct result; reflexivity|].
  split; [rewrite Hsent; reflexivity|].
  split.
  { rewrite Hsent, authorization_sent, Hstored.
    destruct (String.eqb_spec stored ""); [contradiction|reflexivity]. }
  split; [destruct result; reflexivity|].
  split.
  - intros fetched ->. split; reflexivity.
  - intros e ->. cbn [AuthStore.storage_after AuthStore.state_after].
    split; [exact Hgone|]. split.
    + unfold AuthStore.initial, ApiClient.getItem. rewrite Hgone. reflexivity.
    + intros fetch' op. rewrite authorization_sent. unfold ApiClient.getItem.
      rewrite Hgone. reflexivity.
Qed.

Lemma loadUser_with_token_witness :
  ApiClient.getItem
    (AuthStore.storage_after
       (AuthStore.loadUser Sample.baseURL (Fixture.server "abc" Fixture.unauthorized)
          (Sample.with_token "expired") Fixture.signed_out)) "access_token" = None.
Proof.
  destruct (loadUser_with_token Sample.baseURL (Fixture.server "abc" Fixture.unauthorized)
              (Sample.with_token "expired") Fixture.signed_out "expired" eq_refl
              ltac:(discriminate)) as (_ & _ & _ & _ & _ & Hthrows).
  apply (Hthrows (ApiClient.mkError "Could not validate credentials")).
  reflexivity.
Defined.

Lemma obtain_token_stores (baseURL : string) (net : AuthStore.Network)
    (storage stored : ApiClient.LocalStorage) (email password : string)
    (form : Login.FormRequest) (held : option JS.Value) :
  AuthStore.obtain_token baseURL net storage email password = (form, inl (stored, held)) ->
  exists text, stored = <[ "access_token" := text ]> storage.
Proof.
  unfold AuthStore.obtain_token.
  destruct (Login.login baseURL (AuthStore.formFetch net) _) as [sent result].
  destruct result as [authResp|t]; [|discriminate].
  destruct (Coercion.text_of (JS.get authResp "access_token")) as [text|]; [|discriminate].
  intros [= _ <- _]. eauto.
Qed.

Lemma run_settled (baseURL : string) (net : AuthStore.Network)
    (storage : ApiClient.LocalStorage) (state : AuthStore.AuthState)
    (op : AuthStore.Operation) :
  AuthStore.settled storage state ->
  AuthStore.settled (AuthStore.storage_after (AuthStore.run baseURL net storage state op))
                    (AuthStore.state_after (AuthStore.run baseURL net storage state op)).
Proof.
  intros [Hloading Hauth]. unfold AuthStore.settled, ApiClient.getItem in *.
  destruct op as [email password|email password payload| | |new_user];
    cbn [AuthStore.run].
  - unfold AuthStore.login.
    destruct (AuthStore.obtain_token baseURL net storage email password)
      as [form [[stored held]|failure]] eqn:Hobtain.
    + destruct (obtain_token_stores _ _ _ _ _ _ _ _ Hobtain) as [text ->].
      destruct (ApiClient.perform baseURL _ (AuthStore.fetch net) ApiClient.getCurrentUser)
        as [sent [fetched|e]];
        cbn [AuthStore.storage_after AuthStore.state_after AuthStore.stop_loading
             AuthStore.isLoading AuthStore.isAuthenticated];
        (split; [reflexivity|]); intros _; rewrite lookup_insert_eq; eauto.
    + cbn. split; [reflexivity|exact Hauth].
  - unfold AuthStore.register.
    destruct (ApiClient.perform baseURL storage (AuthStore.fetch net) _)
      as [sent [registered|e]].
    + destruct (AuthStore.obtain_token baseURL net storage email password)
        as [form [[stored held]|failure]] eqn:Hobtain.
      * destruct (obtain_token_stores _ _ _ _ _ _ _ _ Hobtain) as [text ->].
        cbn. split; [reflexivity|]. intros _. rewrite lookup_insert_eq. eauto.
      * cbn. split; [reflexivity|exact Hauth].
    + cbn. split; [reflexivity|exact Hauth].
  - cbn. split; [reflexivity|discriminate].
  - unfold AuthStore.loadUser, ApiClient.getItem.
    destruct (storage !! "access_token") as [stored|] eqn:Hstored.
    + destruct (String.eqb stored ""); [cbn; split; [reflexivity|discriminate]|].
      destruct (ApiClient.perform baseURL storage (AuthStore.fetch net) ApiClient.getCurrentUser)
        as [sent [fetched|e]]; cbn.
      * split; [reflexivity|]. intros _. rewrite Hstored. eauto.
      * split; [reflexivity|discriminate].
    + cbn. split; [reflexivity|discriminate].
  - cbn. split; [exact Hloading|exact Hauth].
Qed.

(** X19: after any sequence of operations of the store, started when the
    page loads, the store is not left loading, and it says authenticated
    only while a token is in the storage. *)
Theorem session_settled (baseURL : string) (net : AuthStore.Network)
    (ops : list AuthStore.Operation) (storage : ApiClient.LocalStorage) :
  let final := AuthStore.session baseURL net storage (AuthStore.initial storage) ops in
  AuthStore.isLoading (snd final) = false /\
  (AuthStore.isAuthenticated (snd final) = true ->
   is_Some (ApiClient.getItem (fst final) "access_token")).
Proof.
  cbv zeta.
  assert (Hstart : AuthStore.settled storage (AuthStore.initial storage)).
  { split; [reflexivity|discriminate]. }
  revert Hstart. generalize (AuthStore.initial storage) as state. revert storage.
  induction ops as [|op rest IH]; intros storage state Hsettled.
  - exact Hsettled.
  - cbn [AuthStore.session]. apply IH. apply run_settled. exact Hsettled.
Qed.

Lemma session_settled_witness :
  is_Some
    (ApiClient.getItem
       (fst (AuthStore.session Sample.baseURL (Fixture.server "abc" Fixture.profile_response) ∅
               (AuthStore.initial ∅)
               [AuthStore.LoadUser; AuthStore.Login "demo@sprintsync.com" "demo123"]))
       "access_token").
Proof.
  apply (session_settled Sample.baseURL (Fixture.server "abc" Fixture.profile_response)
           [AuthStore.LoadUser; AuthStore.Login "demo@sprintsync.com" "demo123"] ∅).
  reflexivity.
Defined.

(** X20: when the login call returns an object whose "access_token" is a
    string that is not empty, the store puts that token into the storage
    and then asks for the profile with it as Bearer.  If the profile
    comes back the store is authenticated with it; if that request
    throws, the login is rejected and the store only stops loading, but
    the new token stays in the storage. *)
Theorem login_stores_token (baseURL : string) (net : AuthStore.Network)
    (storage : ApiClient.LocalStorage) (state : AuthStore.AuthState)
    (email password token : string) (authResp : JS.Value) :
  snd (Login.login baseURL (AuthStore.formFetch net)
         {| Login.email := email; Login.password := password |}) = Login.Returns authResp ->
  JS.get authResp "access_token" = JS.Found (JS.Str token) ->
  token <> "" ->
  let o := AuthStore.login baseURL net storage state email password in
  let stored := <[ "access_token" := token ]> storage in
  let call := ApiClient.perform baseURL stored (AuthStore.fetch net) ApiClient.getCurrentUser in
  AuthStore.storage_after o = stored /\
  AuthStore.wire o =
    [AuthStore.Form (fst (Login.login baseURL (AuthStore.formFetch net)
                            {| Login.email := email; Login.password := password |}));
     AuthStore.Json (fst call)] /\
  ApiClient.headers (ApiClient.init (fst call)) ≫= (.!! "Authorization")
    = Some ("Bearer " +:+ token) /\
  (forall fetched, snd call = ApiClient.Returns fetched ->
     AuthStore.completion o = AuthStore.Fulfilled /\
     AuthStore.state_after o =
       {| AuthStore.user := fetched; AuthStore.token := Some (JS.Str token);
          AuthStore.isAuthenticated := true; AuthStore.isLoading := false |}) /\
  (forall e, snd call = ApiClient.Throws e ->
     AuthStore.completion o = AuthStore.RejectedWith (AuthStore.RequestFailed e) /\
     AuthStore.state_after o = AuthStore.stop_loading state /\
     ApiClient.getItem (AuthStore.storage_after o) "access_token" = Some token).
Proof.
  intros Hlogin Htoken Hnonempty. cbv zeta.
  unfold AuthStore.login, AuthStore.obtain_token.
  destruct (Login.login baseURL (AuthStore.formFetch net) _) as [form result].
  cbn [snd fst] in *. subst result. rewrite Htoken.
  cbn [Coercion.text_of Coercion.ToString AuthStore.as_token].
  destruct (ApiClient.perform baseURL (<[ "access_token" := token ]> storage)
              (AuthStore.fetch net) ApiClient.getCurrentUser) as [sent result] eqn:Hcall.
  assert (Hsent : sent = fst (ApiClient.perform baseURL (<[ "access_token" := token ]> storage)
                                (AuthStore.fetch net) ApiClient.getCurrentUser))
    by (rewrite Hcall; reflexivity).
  cbn [fst snd].
  split; [destruct result; reflexivity|].
  split; [destruct result; reflexivity|].
  split.
  { rewrite Hsent, authorization_sent. unfold ApiClient.getItem. rewrite lookup_insert_eq.
    destruct (String.eqb_spec token ""); [contradiction|reflexivity]. }
  split.
  - intros fetched ->. split; reflexivity.
  - intros e ->. cbn [AuthStore.completion AuthStore.state_after AuthStore.storage_after].
    split; [reflexivity|]. split; [reflexivity|]. apply lookup_insert_eq.
Qed.

Lemma login_stores_token_witness :
  AuthStore.completion
    (AuthStore.login Sample.baseURL (Fixture.server "abc.def.ghi" Fixture.unauthorized) ∅
       Fixture.signed_out "demo@sprintsync.com" "demo123")
  = AuthStore.RejectedWith
      (AuthStore.RequestFailed
         (ApiClient.mkError "Could not validate credentials")) /\
  AuthStore.state_after
    (AuthStore.login Sample.baseURL (Fixture.server "abc.def.ghi" Fixture.unauthorized) ∅
       Fixture.signed_out "demo@sprintsync.com" "demo123")
  = AuthStore.stop_loading Fixture.signed_out /\
  ApiClient.getItem
    (AuthStore.storage_after
       (AuthStore.login Sample.baseURL (Fixture.server "abc.def.ghi" Fixture.unauthorized) ∅
          Fixture.signed_out "demo@sprintsync.com" "demo123")) "access_token"
  = Some "abc.def.ghi".
Proof.
  destruct (login_stores_token Sample.baseURL (Fixture.server "abc.def.ghi" Fixture.unauthorized)
              ∅ Fixture.signed_out "demo@sprintsync.com" "demo123" "abc.def.ghi"
              (JS.Object [("access_token", JS.Str "abc.def.ghi"); ("token_type", JS.Str "bearer")])
              eq_refl eq_refl ltac:(discriminate)) as (_ & _ & _ & _ & Hthrows).
  apply (Hthrows (ApiClient.mkError "Could not validate credentials")).
  reflexivity.
Defined.

(** X21: when the login call itself throws, or its answer has no token
    that can be stored (the answer is [null], or the token is an object
    that cannot be turned into text), the store sends nothing more, does
    not touch the storage, and only stops loading; an answer without an
    "access_token" field, however, is not such a case: the text
    "undefined" is stored as the token. *)
Theorem login_failure_keeps_storage (baseURL : string) (net : AuthStore.Network)
    (storage : ApiClient.LocalStorage) (state : AuthStore.AuthState)
    (email password : string) :
  let o := AuthStore.login baseURL net storage state email password in
  let called := Login.login baseURL (AuthStore.formFetch net)
                  {| Login.email := email; Login.password := password |} in
  (forall t, snd called = Login.Throws t ->
     o = {| AuthStore.storage_after := storage;
            AuthStore.state_after := AuthStore.stop_loading state;
            AuthStore.completion := AuthStore.RejectedWith (AuthStore.LoginFailed t);
            AuthStore.wire := [AuthStore.Form (fst called)] |}) /\
  (forall authResp, snd called = Login.Returns authResp ->
     Coercion.text_of (JS.get authResp "access_token") = None ->
     o = {| AuthStore.storage_after := storage;
            AuthStore.state_after := AuthStore.stop_loading state;
            AuthStore.completion := AuthStore.RejectedWith AuthStore.TokenUnreadable;
            AuthStore.wire := [AuthStore.Form (fst called)] |}) /\
  (forall authResp, snd called = Login.Returns authResp ->
     JS.get authResp "access_token" = JS.Undefined ->
     ApiClient.getItem (AuthStore.storage_after o) "access_token" = Some "undefined").
Proof.
  cbv zeta. unfold AuthStore.login, AuthStore.obtain_token.
  destruct (Login.login baseURL (AuthStore.formFetch net) _) as [form result].
  cbn [fst snd]. split; [|split].
  - intros t ->. reflexivity.
  - intros authResp -> Htext. rewrite Htext. reflexivity.
  - intros authResp -> Hundefined. rewrite Hundefined. cbn [Coercion.text_of].
    destruct (ApiClient.perform baseURL _ (AuthStore.fetch net) ApiClient.getCurrentUser)
      as [sent [fetched|e]]; cbn [AuthStore.storage_after]; apply lookup_insert_eq.
Qed.

Lemma login_failure_keeps_storage_witness :
  ApiClient.getItem
    (AuthStore.storage_after
       (AuthStore.login Sample.baseURL
          {| AuthStore.formFetch := fun _ => ApiClient.Responds Fixture.profile_response;
             AuthStore.fetch := fun _ _ => ApiClient.Responds Fixture.unauthorized |}
          ∅ Fixture.signed_out "demo@sprintsync.com" "demo123")) "access_token"
  = Some "undefined".
Proof.
  destruct (login_failure_keeps_storage Sample.baseURL
              {| AuthStore.formFetch := fun _ => ApiClient.Responds Fixture.profile_response;
                 AuthStore.fetch := fun _ _ => ApiClient.Responds Fixture.unauthorized |}
              ∅ Fixture.signed_out "demo@sprintsync.com" "demo123") as (_ & _ & Hundefined).
  apply (Hundefined Fixture.profile). - reflexivity. - reflexivity.
Defined.

(** ** Route guards *)

(** X22: once the store is not loading, every route settles on a page
    after at most two redirects, and more allowed redirects change
    nothing: a signed-in user ends on a page of the application, a
    signed-out user on the login or the register page.  A guard never
    sends a user to a route that sends them back. *)
Theorem routes_settle (route : Routes.Route) (isAuthenticated : bool) (extra : nat) :
  let '(final, view, hops) := Routes.settle (2 + extra) route isAuthenticated false in
  view = Routes.Children /\ (hops <= 2)%nat /\
  Routes.is_app_page final = isAuthenticated /\
  Routes.is_public_page final = negb isAuthenticated /\
  Routes.settle 2 route isAuthenticated false = (final, view, hops).
Proof.
  destruct route, isAuthenticated, extra; cbn; repeat split; lia.
Qed.

(** ** The leaderboard of the admin page *)

Lemma insert_perm (x : AdminAnalytics.UserStat) (l : list AdminAnalytics.UserStat) :
  Permutation (AdminAnalytics.insert x l) (x :: l).
Proof.
  induction l as [|y l IH]; [reflexivity|].
  cbn [AdminAnalytics.insert].
  destruct (AdminAnalytics.totalMinutes x <? AdminAnalytics.totalMinutes y)%Z; [|reflexivity].
  rewrite IH. apply perm_swap.
Qed.

Lemma sort_perm (l : list AdminAnalytics.UserStat) : Permutation (AdminAnalytics.sort l) l.
Proof.
  induction l as [|x l IH]; [reflexivity|].
  cbn [AdminAnalytics.sort]. rewrite insert_perm, IH. reflexivity.
Qed.






Lemma admin_sum_cons (t : Task) (rest : list Task) :
  AdminAnalytics.sum_minutes (t :: rest) = total_minutes t + AdminAnalytics.sum_minutes rest.
Proof. apply sum_minutes_cons. Qed.

Lemma list_sum_cons (x : nat) (l : list nat) : list_sum (x :: l) = (x + list_sum l)%nat.
Proof. reflexivity. Qed.

Lemma sum_filter_cons (f : Task -> bool) (t : Task) (rest : list Task) :
  AdminAnalytics.sum_minutes (List.filter f (t :: rest)) =
  (if f t then total_minutes t else 0) + AdminAnalytics.sum_minutes (List.filter f rest).
Proof.
  cbn [List.filter]. destruct (f t); [apply admin_sum_cons|reflexivity].
Qed.

Lemma owners_at_most_one (users : list AdminAnalytics.User) (t : Task) :
  List.NoDup (AdminAnalytics.user_ids users) ->
  (length (List.filter (fun u => AdminAnalytics.owned_by u t) users) <= 1)%nat /\
  (In (AdminAnalytics.owner t) (AdminAnalytics.user_ids users) ->
   length (List.filter (fun u => AdminAnalytics.owned_by u t) users) = 1%nat) /\
  (~ In (AdminAnalytics.owner t) (AdminAnalytics.user_ids users) ->
   List.filter (fun u => AdminAnalytics.owned_by u t) users = []).
Proof.
  unfold AdminAnalytics.user_ids.
  induction users as [|u users IH]; intros Hnodup.
  - simpl. split; [lia|]. split; [intros []|reflexivity].
  - cbn [map] in Hnodup. apply NoDup_cons_iff in Hnodup as [Hfresh Hnodup].
    destruct (IH Hnodup) as (Hle & Hone & Hnone).
    cbn [List.filter map]. cbv beta.
    destruct (AdminAnalytics.owned_by u t) eqn:Howned; unfold AdminAnalytics.owned_by in Howned.
    + apply String.eqb_eq in Howned. rewrite <- Howned in Hfresh.
      rewrite (Hnone Hfresh). cbn [length].
      split; [lia|]. split; [reflexivity|]. intros H. exfalso. apply H. left. auto.
    + apply String.eqb_neq in Howned. split; [exact Hle|]. split.
      * intros [H|H]; [congruence|]. apply Hone. exact H.
      * intros H. apply Hnone. intros Hin. apply H. right. exact Hin.
Qed.

Lemma attributed_counts (users : list AdminAnalytics.User) (tasks : list Task) :
  List.NoDup (AdminAnalytics.user_ids users) ->
  let rows := map (AdminAnalytics.stat tasks) users in
  (list_sum (map AdminAnalytics.totalTasks rows) <= length tasks)%nat /\
  (Forall (fun t => In (AdminAnalytics.owner t) (AdminAnalytics.user_ids users)) tasks ->
   list_sum (map AdminAnalytics.totalTasks rows) = length tasks /\
   AdminAnalytics.total_of AdminAnalytics.totalMinutes rows = AdminAnalytics.sum_minutes tasks).
Proof.
  intros Hnodup. cbv zeta. unfold AdminAnalytics.total_of. rewrite !map_map.
  cbn [AdminAnalytics.stat AdminAnalytics.totalTasks AdminAnalytics.totalMinutes].
  induction tasks as [|t tasks IH].
  - cbn [List.filter length]. clear Hnodup.
    assert (Hzero : list_sum (map (fun _ : AdminAnalytics.User => 0%nat) users) = 0%nat).
    { clear. induction users as [|u users IHu]; [reflexivity|]. simpl. exact IHu. }
    assert (Hzero' : fold_right Z.add 0
                       (map (fun _ : AdminAnalytics.User => AdminAnalytics.sum_minutes [])
                          users) = 0).
    { clear. induction users as [|u users IHu]; [reflexivity|].
      cbn [map fold_right]. rewrite IHu. reflexivity. }
    rewrite Hzero. split; [lia|]. intros _. split; [reflexivity|]. rewrite Hzero'. reflexivity.
  - destruct IH as [IHle IHeq].
    destruct (owners_at_most_one users t Hnodup) as (Hle & Hone & Hnone).
    assert (Hcount :
      list_sum (map (fun u => length (List.filter (AdminAnalytics.owned_by u) (t :: tasks))) users)
      = (length (List.filter (fun u => AdminAnalytics.owned_by u t) users) +
         list_sum (map (fun u => length (List.filter (AdminAnalytics.owned_by u) tasks)) users))%nat).
    { clear. induction users as [|u users IHu]; [reflexivity|].
      cbn [map]. rewrite !list_sum_cons, IHu, length_filter_cons.
      cbn [List.filter]. destruct (AdminAnalytics.owned_by u t); cbn [length]; lia. }
    assert (Hminutes :
      fold_right Z.add 0
        (map (fun u => AdminAnalytics.sum_minutes
                         (List.filter (AdminAnalytics.owned_by u) (t :: tasks))) users)
      = Z.of_nat (length (List.filter (fun u => AdminAnalytics.owned_by u t) users))
          * total_minutes t +
        fold_right Z.add 0
          (map (fun u => AdminAnalytics.sum_minutes
                           (List.filter (AdminAnalytics.owned_by u) tasks)) users)).
    { clear. induction users as [|u users IHu]; [reflexivity|].
      cbn [map fold_right]. rewrite IHu, sum_filter_cons.
      cbn [List.filter]. destruct (AdminAnalytics.owned_by u t); cbn [length]; lia. }
    rewrite Hcount, Hminutes. cbn [length]. split; [lia|].
    intros Hknown. apply Forall_cons_iff in Hknown as [Hknown_t Hknown].
    destruct (IHeq Hknown) as [IHtasks IHmin].
    rewrite (Hone Hknown_t), IHtasks, IHmin, admin_sum_cons. split; lia.
Qed.

Lemma list_sum_perm (a b : list nat) : Permutation a b -> list_sum a = list_sum b.
Proof.
  induction 1 as [|x a b _ IH|x y a|a b c _ IH1 _ IH2]; simpl; lia.
Qed.

Lemma total_of_perm (column : AdminAnalytics.UserStat -> Z)
    (a b : list AdminAnalytics.UserStat) :
  Permutation a b -> AdminAnalytics.total_of column a = AdminAnalytics.total_of column b.
Proof.
  unfold AdminAnalytics.total_of.
  induction 1 as [|x a b _ IH|x y a|a b c _ IH1 _ IH2]; simpl; lia.
Qed.

(** X24: with distinct user ids no task is counted for two users: the
    task counts of the leaderboard add up to at most the number of tasks;
    and when every task is owned by a listed user (its assignee, or its
    creator when it has no assignee), the task counts add up to the
    number of tasks and the minutes of the rows to the minutes of all
    tasks. *)
Theorem userStats_attribution (allUsers : list AdminAnalytics.User) (allTasks : list Task) :
  List.NoDup (AdminAnalytics.user_ids allUsers) ->
  let rows := AdminAnalytics.userStats allUsers allTasks in
  (list_sum (map AdminAnalytics.totalTasks rows) <= length allTasks)%nat /\
  (Forall (fun t => In (AdminAnalytics.owner t) (AdminAnalytics.user_ids allUsers)) allTasks ->
   list_sum (map AdminAnalytics.totalTasks rows) = length allTasks /\
   AdminAnalytics.total_of AdminAnalytics.totalMinutes rows =
   AdminAnalytics.sum_minutes allTasks).
Proof.
  intros Hnodup. cbv zeta. unfold AdminAnalytics.userStats.
  pose proof (sort_perm (map (AdminAnalytics.stat allTasks) allUsers)) as Hperm.
  rewrite (list_sum_perm _ _ (Permutation_map AdminAnalytics.totalTasks Hperm)).
  rewrite (total_of_perm _ _ _ Hperm).
  apply (attributed_counts allUsers allTasks Hnodup).
Qed.

Lemma userStats_attribution_witness :
  list_sum (map AdminAnalytics.totalTasks
              (AdminAnalytics.userStats [Fixture.alice; Fixture.bob] Fixture.team_tasks))
  = 5%nat /\
  AdminAnalytics.total_of AdminAnalytics.totalMinutes
    (AdminAnalytics.userStats [Fixture.alice; Fixture.bob] Fixture.team_tasks) = 165.
Proof.
  assert (Hnodup : List.NoDup (AdminAnalytics.user_ids [Fixture.alice; Fixture.bob])).
  { repeat constructor; simpl; intros H; repeat destruct H as [H|H]; discriminate H || exact H. }
  destruct (userStats_attribution [Fixture.alice; Fixture.bob] Fixture.team_tasks Hnodup)
    as [_ Hknown].
  apply Hknown. repeat constructor; simpl; tauto.
Defined.

Lemma sum_minutes_nonneg (tasks : list Task) :
  Forall (fun t => 0 <= total_minutes t) tasks -> 0 <= AdminAnalytics.sum_minutes tasks.
Proof.
  induction 1 as [|t rest Ht _ IH]; [reflexivity|]. rewrite admin_sum_cons. lia.
Qed.

Lemma active_iff_minutes (u : AdminAnalytics.User) (tasks : list Task) :
  Forall (fun t => 0 <= total_minutes t) tasks ->
  existsb (fun task => (AdminAnalytics.owned_by u task && (0 <? total_minutes task)%Z)%bool) tasks
  = (0 <? AdminAnalytics.totalMinutes (AdminAnalytics.stat tasks u))%Z.
Proof.
  cbn [AdminAnalytics.stat AdminAnalytics.totalMinutes].
  induction 1 as [|t rest Ht Hrest IH]; [reflexivity|].
  cbn [existsb List.filter]. rewrite IH.
  assert (Hnonneg : 0 <= AdminAnalytics.sum_minutes
                           (List.filter (AdminAnalytics.owned_by u) rest)).
  { apply sum_minutes_nonneg. rewrite List.Forall_forall in *. intros x Hx.
    apply filter_In in Hx as [Hx _]. apply Hrest. exact Hx. }
  destruct (AdminAnalytics.owned_by u t); cbn [andb orb]; [|reflexivity].
  rewrite admin_sum_cons.
  destruct (Z.ltb_spec 0 (total_minutes t)); cbn [orb].
  - symmetry. apply Z.ltb_lt. lia.
  - replace (total_minutes t) with 0 by lia. reflexivity.
Qed.

Lemma filter_length_perm (f : AdminAnalytics.UserStat -> bool)
    (a b : list AdminAnalytics.UserStat) :
  Permutation a b -> length (List.filter f a) = length (List.filter f b).
Proof.
  induction 1 as [|x a b _ IH|x y a|a b c _ IH1 _ IH2].
  - reflexivity.
  - rewrite !length_filter_cons, IH. reflexivity.
  - rewrite !length_filter_cons. lia.
  - congruence.
Qed.

(** X25: when no task has negative minutes, the users counted as active
    are exactly the users whose row on the leaderboard shows minutes
    above zero; there are never more active users than users. *)
Theorem activeUsers_have_minutes (allUsers : list AdminAnalytics.User) (allTasks : list Task) :
  Forall (fun t => 0 <= total_minutes t) allTasks ->
  AdminAnalytics.activeUsers allUsers allTasks =
  length (List.filter (fun row => (0 <? AdminAnalytics.totalMinutes row)%Z)
            (AdminAnalytics.userStats allUsers allTasks)) /\
  (AdminAnalytics.activeUsers allUsers allTasks <= length allUsers)%nat.
Proof.
  intros Hnonneg. unfold AdminAnalytics.activeUsers, AdminAnalytics.userStats. split.
  - rewrite (filter_length_perm _ _ _ (sort_perm (map (AdminAnalytics.stat allTasks) allUsers))).
    induction allUsers as [|u users IH]; [reflexivity|].
    cbn [List.filter map]. rewrite (active_iff_minutes u allTasks Hnonneg).
    destruct (0 <? AdminAnalytics.totalMinutes (AdminAnalytics.stat allTasks u))%Z;
      cbn [length]; rewrite IH; reflexivity.
  - apply filter_length_le.
Qed.

Lemma activeUsers_have_minutes_witness :
  AdminAnalytics.activeUsers [Fixture.alice; Fixture.bob] Fixture.team_tasks = 2%nat.
Proof.
  destruct (activeUsers_have_minutes [Fixture.alice; Fixture.bob] Fixture.team_tasks)
    as [Hcount _].
  - repeat constructor; vm_compute; discriminate.
  - rewrite Hcount. reflexivity.
Defined.

(** ** Adding time on the board *)

(** X26: on the board the addition is announced at the click, before the
    request has settled: for a text read as a positive number of
    minutes the user is told "Added {n} minutes to task" and then, when
    the request fails, "Failed to add time" as well; when it succeeds,
    "+{total}min logged" with the returned total.  For any other text
    nothing is shown. *)
Theorem board_announces_before_result (task : Task) (timeToAdd : string) :
  (forall minutes, JS.parseInt timeToAdd = Some minutes -> 0 < minutes ->
     BoardCard.addTime_notifications task timeToAdd ReactQuery.Rejected =
       [ReactQuery.Success ("Added " +:+ JS.Number_toString minutes +:+ " minutes to task");
        ReactQuery.Failure "Failed to add time"] /\
     forall returned,
       BoardCard.addTime_notifications task timeToAdd (ReactQuery.Resolved returned) =
       [ReactQuery.Success ("Added " +:+ JS.Number_toString minutes +:+ " minutes to task");
        ReactQuery.Success ("+" +:+ JS.Number_toString (total_minutes returned) +:+
                            "min logged")]) /\
  (JS.gt_zero (JS.parseInt timeToAdd) = false ->
   forall result, BoardCard.addTime_notifications task timeToAdd result = []).
Proof.
  unfold BoardCard.addTime_notifications, KanbanTaskCard.handleAddTime. split.
  - intros minutes -> Hpos. apply Z.ltb_lt in Hpos. rewrite Hpos. split; [reflexivity|].
    intros returned. reflexivity.
  - intros Hno result. destruct (JS.parseInt timeToAdd) as [m|]; [|reflexivity].
    simpl in Hno. rewrite Hno. reflexivity.
Qed.

Lemma board_announces_before_result_witness :
  BoardCard.addTime_notifications Sample.t1 "15" ReactQuery.Rejected =
  [ReactQuery.Success "Added 15 minutes to task"; ReactQuery.Failure "Failed to add time"].
Proof.
  destruct (board_announces_before_result Sample.t1 "15") as [Hpositive _].
  apply (Hpositive 15); [reflexivity|lia].
Defined.

(** ** Tracking the dragged task *)

(** X27: the task tracked from the start of a drag is a task of the
    list with the dragged id, and it is the task whose status decides at
    the end; when the start tracked nothing, the end requests nothing,
    whatever the target.  The end of a drag always clears the tracking
    first. *)
Theorem drag_tracks_moved_task (tasks : option (list Task)) (event : Kanban.DragEndEvent) :
  let started := Kanban.handleDragStart tasks (Kanban.active event) in
  let ended := Kanban.handleDragEnd tasks event in
  (started = [] -> Kanban.calls ended = []) /\
  (forall task, started = [Kanban.setActiveTask (Some task)] ->
     id task = Kanban.active event /\
     (exists list, tasks = Some list /\ In task list) /\
     (Kanban.calls ended <> [] ->
      exists newStatus, Kanban.over event = Some newStatus /\ status task <> newStatus)) /\
  head ended = Some (Kanban.setActiveTask None).
Proof.
  cbv zeta. rewrite handleDragEnd_calls. unfold Kanban.handleDragStart.
  split; [|split; [|reflexivity]].
  - destruct (Kanban.find_task tasks (Kanban.active event)); [discriminate|].
    intros _. destruct (Kanban.over event); reflexivity.
  - intros task.
    destruct (Kanban.find_task tasks (Kanban.active event)) as [found|] eqn:Hfind;
      [|discriminate].
    intros [= ->]. unfold Kanban.find_task in Hfind.
    destruct tasks as [list|]; [|discriminate].
    apply find_some in Hfind as [Hin Hid]. apply String.eqb_eq in Hid.
    split; [exact Hid|]. split; [eauto|].
    destruct (Kanban.over event) as [newStatus|]; [|congruence].
    destruct (String.eqb_spec (status task) newStatus); [congruence|]. eauto.
Qed.

Lemma drag_tracks_moved_task_witness :
  Kanban.calls (Kanban.handleDragEnd (Some Sample.tasks)
                  {| Kanban.active := "t9"; Kanban.over := Some "DONE" |}) = [].
Proof.
  destruct (drag_tracks_moved_task (Some Sample.tasks)
              {| Kanban.active := "t9"; Kanban.over := Some "DONE" |}) as [Hnothing _].
  apply Hnothing. reflexivity.
Defined.

(** ** Queries no mutation refreshes *)

Lemma run_untouched (now : Z) (es : list ReactQuery.Effect) (c : ReactQuery.Client)
    (key : ReactQuery.QueryKey) :
  forallb (fun e => negb (Reach.touches key e)) es = true ->
  ReactQuery.cache (ReactQuery.run now c es) !! key = ReactQuery.cache c !! key.
Proof.
  revert c. induction es as [|e es IH]; intros c Hes; [reflexivity|].
  cbn [forallb] in Hes. apply andb_prop in Hes as [He Hes].
  rewrite run_cons, (IH _ Hes). apply negb_true_iff in He.
  destruct e as [filter|written d|msg|msg]; cbn [ReactQuery.step ReactQuery.cache];
    try reflexivity.
  - rewrite map_lookup_imap. destruct (ReactQuery.cache c !! key) as [q|]; [|reflexivity].
    cbn [Reach.touches] in He. cbn. unfold ReactQuery.invalidate. rewrite He. reflexivity.
  - cbn [Reach.touches] in He. apply bool_decide_eq_false in He.
    apply lookup_insert_ne. exact He.
Qed.

Lemma toasts_touch_nothing (key : ReactQuery.QueryKey) (es : list ReactQuery.Effect) :
  forallb ReactQuery.is_toast es = true ->
  forallb (fun e => negb (Reach.touches key e)) es = true.
Proof.
  induction es as [|e es IH]; [reflexivity|]. cbn [forallb].
  intros H. apply andb_prop in H as [He Hes]. rewrite (IH Hes), andb_true_r.
  destruct e; try discriminate He; reflexivity.
Qed.

Lemma matches_head (name : string) (key : ReactQuery.QueryKey) :
  head key <> Some name -> ReactQuery.matches [name] key = false.
Proof.
  destruct key as [|k ks]; [reflexivity|]. cbn [head ReactQuery.matches].
  intros Hk. destruct (String.eqb_spec name k) as [->|_]; [congruence|reflexivity].
Qed.

Lemma forallb_app_true {A} (f : A -> bool) (l1 l2 : list A) :
  forallb f l1 = true -> forallb f l2 = true -> forallb f (l1 ++ l2)%list = true.
Proof. intros H1 H2. rewrite forallb_app, H1, H2. reflexivity. Qed.

(** X28: a mutation of the task hooks, whatever its result, leaves every
    cached query whose key does not start with "tasks" exactly as it was;
    one of the user hooks every query whose key does not start with
    "users"; one of the AI hooks the whole cache (the handlers of the
    call showing notifications only).  The queries of the admin pages and
    of the daily plan have neither kind of key, so none of these
    mutations makes them refetch. *)
Theorem mutations_leave_other_queries (now : Z) (c : ReactQuery.Client)
    (key : ReactQuery.QueryKey) (call : ReactQuery.MutateOptions) :
  forallb ReactQuery.is_toast (ReactQuery.call_onSuccess call) = true ->
  forallb ReactQuery.is_toast (ReactQuery.call_onError call) = true ->
  (head key <> Some "tasks" ->
   forall h result,
     ReactQuery.cache (ReactQuery.run now c (UseTasks.complete h call result)) !! key =
     ReactQuery.cache c !! key) /\
  (head key <> Some "users" ->
   forall hook result, In hook Reach.user_hooks ->
     ReactQuery.cache (ReactQuery.run now c (ReactQuery.settle hook call result)) !! key =
     ReactQuery.cache c !! key) /\
  (forall result message,
     ReactQuery.cache
       (ReactQuery.run now c (ReactQuery.settle UseAI.useSuggestTaskDescription call result)) =
     ReactQuery.cache c /\
     ReactQuery.cache
       (ReactQuery.run now c (ReactQuery.settle (UseAI.useRefreshDailyPlan message) call result)) =
     ReactQuery.cache c) /\
  (forall q, In q Reach.side_queries ->
     head (ReactQuery.queryKey q) <> Some "tasks" /\
     head (ReactQuery.queryKey q) <> Some "users").
Proof.
  intros Hsuccess Herror.
  pose proof (toasts_touch_nothing key _ Hsuccess) as Hs.
  pose proof (toasts_touch_nothing key _ Herror) as He.
  split; [|split; [|split]].
  - intros Hkey h result. apply run_untouched.
    pose proof (matches_head "tasks" key Hkey) as Hm.
    destruct result as [returned|]; cbn [UseTasks.complete]; apply forallb_app_true;
      try assumption;
      destruct h;
      unfold UseTasks.successHandler, UseTasks.errorHandler, UseTasks.useCreateTask,
        UseTasks.useUpdateTask, UseTasks.useUpdateTaskStatus, UseTasks.useAddTimeToTask,
        UseTasks.useDeleteTask;
      cbn [ReactQuery.onSuccess ReactQuery.onError forallb Reach.touches];
      rewrite ?Hm; reflexivity.
  - intros Hkey hook result Hhook. apply run_untouched.
    pose proof (matches_head "users" key Hkey) as Hm.
    cbn [Reach.user_hooks In] in Hhook. destruct Hhook as [<-|[<-|[<-|[]]]];
      (destruct result as [value|]; cbn [ReactQuery.settle]; apply forallb_app_true;
       try assumption;
       unfold UseUsers.useCreateUser, UseUsers.useUpdateUser, UseUsers.useDeleteUser;
       cbn [ReactQuery.onSuccess ReactQuery.onError forallb Reach.touches];
       rewrite ?Hm; reflexivity).
  - intros result message.
    split; apply toasts_keep_cache; destruct result as [value|]; cbn [ReactQuery.settle];
      apply forallb_app_true; try assumption; reflexivity.
  - intros q Hq. cbn in Hq.
    destruct Hq as [<-|[<-|[<-|[<-|[]]]]]; split; discriminate.
Qed.

Lemma mutations_leave_other_queries_witness :
  ReactQuery.cache
    (ReactQuery.run 1000 (Sample.cached Sample.tasks 0)
       (UseTasks.complete UseTasks.DeleteTask ReactQuery.no_callbacks (ReactQuery.Resolved Sample.t1)))
    !! ["admin-tasks"] =
  ReactQuery.cache (Sample.cached Sample.tasks 0) !! ["admin-tasks"].
Proof.
  destruct (mutations_leave_other_queries 1000 (Sample.cached Sample.tasks 0)
              ["admin-tasks"] ReactQuery.no_callbacks eq_refl eq_refl) as (Htasks & _).
  apply (Htasks ltac:(discriminate) UseTasks.DeleteTask (ReactQuery.Resolved Sample.t1)).
Defined.
